(** * EndoTrace: role gate, session state and record operations

    A shallow embedding of [EndoscopeMgmt/auth.py] and of the handlers of
    [EndoscopeMgmt/app.py] that decide access, validate forms and query the
    record tables.  Streamlit's [st.session_state] is a finite map from
    keys to Python values; a handler is a function from the session, the
    widget values of the current run and the store to the messages it
    displays and the store it leaves. *)

From Stdlib Require Import ZArith QArith Ascii String List Sorted Permutation.
From stdpp Require Import base strings pretty gmap list.
Import ListNotations.

Local Open Scope string_scope.
Local Open Scope Z_scope.

(** ** Python values held in [st.session_state] *)

(** A calendar date, as [datetime.date]. *)
Record date := mkdate { year : Z; month : Z; day : Z }.

#[global] Instance date_eq_dec : EqDecision date.
Proof. solve_decision. Defined.

(** [d1 <= d2] on dates: year, then month, then day. *)
Definition date_leb (d1 d2 : date) : bool :=
  (year d1 <? year d2)
  || ((year d1 =? year d2)
      && ((month d1 <? month d2)
          || ((month d1 =? month d2) && (day d1 <=? day d2)))).

(** The values the handlers pass around: session entries, widget values
    and the cells of the query results. *)
Inductive pyval :=
| VNone
| VBool (b : bool)
| VInt (z : Z)
| VStr (s : string)
| VDate (d : date).

#[global] Instance pyval_eq_dec : EqDecision pyval.
Proof. solve_decision. Defined.

(** Python truthiness: [None], [False], [0] and the empty string are
    falsy; a date is always truthy. *)
Definition truthy (v : pyval) : bool :=
  match v with
  | VNone => false
  | VBool b => b
  | VInt z => negb (z =? 0)
  | VStr s => negb (String.eqb s "")
  | VDate _ => true
  end.

(** [v in roles] for a list of [str]: only a [str] can be equal to one. *)
Definition py_in (v : pyval) (roles : list string) : bool :=
  match v with
  | VStr s => bool_decide (s ∈ roles)
  | _ => false
  end.

Abbreviation session_state := (gmap string pyval).

(** ** auth.py *)

(** ['authenticated' in st.session_state and st.session_state.authenticated] *)
Definition check_authentication (st : session_state) : bool :=
  match st !! "authenticated" with
  | Some v => truthy v
  | None => false
  end.

(** [st.session_state.get('user_role', None)] *)
Definition get_user_role (st : session_state) : pyval :=
  default VNone (st !! "user_role").

(** [st.session_state.get('username', None)] *)
Definition get_username (st : session_state) : pyval :=
  default VNone (st !! "username").

Definition identity_keys : list string :=
  ["authenticated"; "user_role"; "username"].

(** [logout]: the loop deletes each identity key that is present;
    [st.rerun()] only restarts the script. *)
Definition logout (st : session_state) : session_state :=
  foldl (fun m key => if bool_decide (is_Some (m !! key)) then delete key m else m)
        st identity_keys.

(** The three assignments of [login_form] after a truthy
    [db.authenticate_user(username, password)]. *)
Definition login_success (st : session_state) (username : string) (role : pyval)
  : session_state :=
  <["username" := VStr username]>
    (<["user_role" := role]> (<["authenticated" := VBool true]> st)).

(** [login_form] on submission; [role] is what [db.authenticate_user]
    returned for the pair. *)
Definition login_submit (st : session_state) (username password : string)
    (role : pyval) : session_state * list string :=
  if negb (String.eqb username "") && negb (String.eqb password "") then
    if truthy role then
      (login_success st username role,
       ["Connexion réussie! Bienvenue " ++ username ++ "."])
    else (st, ["Nom d'utilisateur ou mot de passe incorrect"])
  else (st, ["Veuillez remplir tous les champs"]).

(** [', '.join(allowed_roles)] *)
Fixpoint join (sep : string) (l : list string) : string :=
  match l with
  | [] => ""
  | [x] => x
  | x :: rest => x ++ sep ++ join sep rest
  end.

(** Outcome of a handler wrapped by [require_role]: the handler runs, or
    [st.error] shows a message and the wrapper returns. *)
Inductive gate :=
| Permit
| Deny (message : string).

Definition unauthenticated_message : string :=
  "Vous devez être connecté pour accéder à cette page".

Definition forbidden_message (allowed_roles : list string) : string :=
  "Accès refusé. Rôles autorisés: " ++ join ", " allowed_roles.

Definition Unauthenticated : gate := Deny unauthenticated_message.
Definition Forbidden (allowed_roles : list string) : gate :=
  Deny (forbidden_message allowed_roles).

(** The [wrapper] of [require_role(allowed_roles)]. *)
Definition require_role (allowed_roles : list string) (st : session_state) : gate :=
  if negb (check_authentication st) then Unauthenticated
  else if negb (py_in (get_user_role st) allowed_roles) then Forbidden allowed_roles
  else Permit.

(** Session states the program can be in: it starts empty, [login_form]
    stores an identity, [logout] clears it, and the handlers write and pop
    their own edit flags ([edit_mode_<id>], [edit_steril_<id>]). *)
Definition is_identity_key (k : string) : Prop := k ∈ identity_keys.

Inductive reachable : session_state -> Prop :=
| reach_init : reachable ∅
| reach_login st username role :
    reachable st -> truthy role = true ->
    reachable (login_success st username role)
| reach_logout st :
    reachable st -> reachable (logout st)
| reach_flag_set st k v :
    reachable st -> ~ is_identity_key k -> reachable (<[k := v]> st)
| reach_flag_pop st k :
    reachable st -> ~ is_identity_key k -> reachable (delete k st).

(** ** What a run displays *)

Inductive ui :=
| Success (text : string)
| Error (text : string)
| Warning (text : string)
| Info (text : string).

#[global] Instance ui_eq_dec : EqDecision ui.
Proof. solve_decision. Defined.

(** ** The three tables *)

Module User.
Record t := mk {
  id : Z;
  username : string;
  password : string;
  role : string
}.
End User.

Module Endoscope.
Record t := mk {
  id : Z;
  designation : string;
  marque : string;
  modele : string;
  numero_serie : string;
  etat : string;
  localisation : string;
  observation : pyval;
  created_by : pyval;
  created_at : string
}.
End Endoscope.

Module Report.
Record t := mk {
  id : Z;
  nom_operateur : pyval;
  endoscope : string;
  numero_serie : string;
  medecin_responsable : string;
  date_desinfection : date;
  type_desinfection : string;
  cycle : string;
  test_etancheite : string;
  heure_debut : string;
  heure_fin : string;
  procedure_medicale : string;
  salle : string;
  type_acte : string;
  etat_endoscope : string;
  nature_panne : pyval;
  created_by : pyval
}.
End Report.

#[global] Instance user_eq_dec : EqDecision User.t.
Proof. solve_decision. Defined.
#[global] Instance endoscope_eq_dec : EqDecision Endoscope.t.
Proof. solve_decision. Defined.
#[global] Instance report_eq_dec : EqDecision Report.t.
Proof. solve_decision. Defined.

Record database := mkdb {
  users : list User.t;
  endoscopes : list Endoscope.t;
  sterilisation_reports : list Report.t
}.

(** What a handler leaves behind: the messages shown, in order, and the
    store. *)
Record page := mkpage {
  shown : list ui;
  store : database
}.

(** ** app.py: navigation *)

(** [menu_options] of [main], chosen from the session's role. *)
Definition menu_options (user_role : pyval) : list string :=
  if bool_decide (user_role = VStr "admin") then
    ["Dashboard"; "Gestion des Utilisateurs"; "Archives"]
  else if bool_decide (user_role = VStr "biomedical") then
    ["Dashboard"; "Gestion Inventaire"; "Archives"]
  else if bool_decide (user_role = VStr "sterilisation") then
    ["Dashboard"; "Rapports de Stérilisation"; "Archives"]
  else ["Dashboard"].

(** The decorator each page handler carries: [show_dashboard] and
    [show_archives_interface] have none. *)
Definition page_gate (selected_page : string) (st : session_state) : gate :=
  if String.eqb selected_page "Gestion des Utilisateurs" then
    require_role ["admin"] st
  else if String.eqb selected_page "Gestion Inventaire" then
    require_role ["biomedical"] st
  else if String.eqb selected_page "Rapports de Stérilisation" then
    require_role ["sterilisation"; "biomedical"] st
  else Permit.

(** ** app.py: user management *)

(** Modelled from the spec: [DatabaseManager.get_all_users] is defined in
    database.py, which is not among the sources; the spec gives
    [read_all() -> ordered sequence] in insertion order. *)
Definition get_all_users (db : database) : list User.t := users db.

(** Modelled from the spec: [DatabaseManager.delete_user] is defined in
    database.py, which is not among the sources; the spec gives
    [delete(id) -> success | NotFound], which for a User additionally
    fails with [ProtectedEntity] if the username is [admin].  The answer
    is truthy only when a row with that id was there and has left the
    table; in the two failures the table is as it was. *)
Definition delete_user (user_id : Z) (db : database) : bool * database :=
  match List.find (fun u => User.id u =? user_id) (users db) with
  | None => (false, db)
  | Some u =>
      if String.eqb (User.username u) "admin" then (false, db)
      else
        (true,
         mkdb (filter (fun u => User.id u ≠ user_id) (users db))
              (endoscopes db) (sterilisation_reports db))
  end.

(** The delete column of the user list (lines 234-246) taken alone, row
    by row, for rows whose role box and [Modifier] column have nothing
    to do; the whole loop is [user_list].  [pressed] is the id whose
    [delete_<id>] button was clicked in this run, if any.  A successful
    deletion ends the run with [st.rerun()]; a protected row has no
    button at all. *)
Fixpoint user_rows (rows : list User.t) (pressed : option Z) (db : database)
  : page :=
  match rows with
  | [] => mkpage [] db
  | user :: rest =>
      if negb (String.eqb (User.username user) "admin") then
        if bool_decide (pressed = Some (User.id user)) then
          let '(deleted, db') := delete_user (User.id user) db in
          if deleted then
            mkpage [Success ("Utilisateur " ++ User.username user
                             ++ " supprimé avec succès!")] db'
          else
            let p := user_rows rest pressed db' in
            mkpage (Error ("Erreur lors de la suppression de "
                           ++ User.username user) :: shown p) (store p)
        else user_rows rest pressed db
      else
        let p := user_rows rest pressed db in
        mkpage (Info "Admin protégé" :: shown p) (store p)
  end.

(** ** app.py: sterilisation reports *)

Module NewReport.
(** The widget values of [sterilisation_report_form]. *)
Record form := mk {
  selected_id : Z;
  medecin_responsable : string;
  date_desinfection : date;
  type_desinfection : string;
  cycle : string;
  test_etancheite : string;
  heure_debut : string;
  heure_fin : string;
  salle : string;
  type_acte : string;
  etat_endoscope : string;
  nature_panne_area : string
}.
End NewReport.

Module EditReport.
(** The widget values of [edit_sterilisation_report_form_<id>]. *)
Record form := mk {
  new_nom_operateur : string;
  new_endoscope : string;
  new_numero_serie : string;
  new_medecin_responsable : string;
  new_date_desinfection : date;
  new_type_desinfection : string;
  new_cycle : string;
  new_test_etancheite : string;
  new_heure_debut : string;
  new_heure_fin : string;
  new_salle : string;
  new_type_acte : string;
  new_etat_endoscope : string;
  new_nature_panne_area : string
}.
End EditReport.

(** [needle in s] for a one-character needle. *)
Fixpoint contains (needle : ascii) (s : string) : bool :=
  match s with
  | EmptyString => false
  | String c rest => Ascii.eqb c needle || contains needle rest
  end.

(** [not s] for a [str]. *)
Definition blank (s : string) : bool := String.eqb s "".

(** The text area only exists when the state is ['en panne']; otherwise
    [nature_panne] stays [None]. *)
Definition nature_panne_of (etat_endoscope area : string) : pyval :=
  if String.eqb etat_endoscope "en panne" then VStr area else VNone.

(** [endoscopes_df[endoscopes_df['id'] == selected_id].iloc[0]]; [None]
    stands for the [IndexError] of [.iloc[0]] on an empty selection. *)
Definition endoscope_by_id (selected_id : Z) (rows : list Endoscope.t)
  : option Endoscope.t :=
  List.find (fun e => Endoscope.id e =? selected_id) rows.

Module ReportArgs.
(** The sixteen arguments of the call [db.add_sterilisation_report(...)]
    of lines 443-448, in the order of the call. *)
Record t := mk {
  nom_operateur : pyval;
  endoscope : string;
  numero_serie : string;
  medecin_responsable : string;
  date_desinfection : date;
  type_desinfection : string;
  cycle : string;
  test_etancheite : string;
  heure_debut : string;
  heure_fin : string;
  procedure_medicale : string;
  salle : string;
  type_acte : string;
  etat_endoscope : string;
  nature_panne : pyval;
  created_by : pyval
}.
End ReportArgs.

Module UpdateFields.
(** The fifteen entries of the dictionary [update_fields] of lines
    540-556, in the order they are written. *)
Record t := mk {
  nom_operateur : string;
  endoscope : string;
  numero_serie : string;
  medecin_responsable : string;
  date_desinfection : date;
  type_desinfection : string;
  cycle : string;
  test_etancheite : string;
  heure_debut : string;
  heure_fin : string;
  salle : string;
  type_acte : string;
  etat_endoscope : string;
  nature_panne : pyval;
  procedure_medicale : string
}.
End UpdateFields.

(** The three tests of the submit branch, in the order of the
    [if]/[elif] chain (lines 430, 432, 434). *)
Definition required_missing (f : NewReport.form) : bool :=
  negb (truthy (VInt (NewReport.selected_id f)))
  || blank (NewReport.medecin_responsable f)
  || blank (NewReport.salle f)
  || blank (NewReport.type_acte f)
  || blank (NewReport.heure_debut f)
  || blank (NewReport.heure_fin f).

Definition panne_unspecified (etat_endoscope : string) (nature_panne : pyval) : bool :=
  String.eqb etat_endoscope "en panne" && negb (truthy nature_panne).

Definition time_malformed (heure_debut heure_fin : string) : bool :=
  negb (contains ":" heure_debut) || negb (contains ":" heure_fin).

(** The arguments the create form passes to the store, for the
    endoscope found under the selected id: the session's username is
    both the operator and the author, the designation and the serial
    number are copied from the endoscope, the procedure is ["N/A"]. *)
Definition new_report_args (st : session_state) (f : NewReport.form)
    (selected_endoscope_details : Endoscope.t) : ReportArgs.t :=
  ReportArgs.mk (get_username st)
    (Endoscope.designation selected_endoscope_details)
    (Endoscope.numero_serie selected_endoscope_details)
    (NewReport.medecin_responsable f) (NewReport.date_desinfection f)
    (NewReport.type_desinfection f) (NewReport.cycle f)
    (NewReport.test_etancheite f) (NewReport.heure_debut f)
    (NewReport.heure_fin f) "N/A" (NewReport.salle f) (NewReport.type_acte f)
    (NewReport.etat_endoscope f)
    (nature_panne_of (NewReport.etat_endoscope f) (NewReport.nature_panne_area f))
    (get_username st).

(** [update_fields] of the edit form for the listed row [report]. *)
Definition update_fields (report : Report.t) (f : EditReport.form)
  : UpdateFields.t :=
  UpdateFields.mk
    (EditReport.new_nom_operateur f)
    (EditReport.new_endoscope f)
    (EditReport.new_numero_serie f)
    (EditReport.new_medecin_responsable f)
    (EditReport.new_date_desinfection f)
    (EditReport.new_type_desinfection f)
    (EditReport.new_cycle f)
    (EditReport.new_test_etancheite f)
    (EditReport.new_heure_debut f)
    (EditReport.new_heure_fin f)
    (EditReport.new_salle f)
    (EditReport.new_type_acte f)
    (EditReport.new_etat_endoscope f)
    (nature_panne_of (EditReport.new_etat_endoscope f)
                     (EditReport.new_nature_panne_area f))
    (Report.procedure_medicale report).

(** [required_fields] of the edit form (lines 529-531). *)
Definition required_fields (f : EditReport.form) : list string :=
  [EditReport.new_nom_operateur f; EditReport.new_endoscope f;
   EditReport.new_numero_serie f; EditReport.new_medecin_responsable f;
   EditReport.new_salle f; EditReport.new_type_acte f;
   EditReport.new_heure_debut f; EditReport.new_heure_fin f].

(** What the create form shows for the answer of the store (lines
    443-452), and the edit form for its own (lines 558-563). *)
Definition created_page (answer : bool * database) : page :=
  if answer.1 then
    mkpage [Success "Rapport de stérilisation enregistré avec succès!"] answer.2
  else
    mkpage [Error "Erreur lors de l'enregistrement - Vérifiez le format des données"]
           answer.2.

Definition updated_page (answer : bool * database) : page :=
  if answer.1 then mkpage [Success "✅ Rapport modifié avec succès!"] answer.2
  else mkpage [Error "❌ Erreur lors de la modification du rapport."] answer.2.

Section ReportStore.
(** [db.add_sterilisation_report] and [db.update_sterilisation_report]
    are defined in database.py, which is not among the sources: the
    handlers are given for any two such operations, each answering with
    a truth value and the store it leaves. *)
Variable add_sterilisation_report : ReportArgs.t -> database -> bool * database.
Variable update_sterilisation_report :
  Z -> UpdateFields.t -> database -> bool * database.

(** The submit branch of [sterilisation_report_form] (lines 428-452).
    [None] is the [IndexError] of the endoscope lookup. *)
Definition new_report_submit (st : session_state) (f : NewReport.form)
    (db : database) : option page :=
  let nature_panne :=
    nature_panne_of (NewReport.etat_endoscope f) (NewReport.nature_panne_area f) in
  if required_missing f
  then Some (mkpage [Error "Veuillez remplir tous les champs obligatoires (*)"] db)
  else if panne_unspecified (NewReport.etat_endoscope f) nature_panne
  then Some (mkpage [Error "Veuillez spécifier la nature de la panne"] db)
  else if time_malformed (NewReport.heure_debut f) (NewReport.heure_fin f)
  then Some (mkpage [Error "Format d'heure invalide. Utilisez HH:MM (ex: 14:30)"] db)
  else
    match endoscope_by_id (NewReport.selected_id f) (endoscopes db) with
    | None => None
    | Some selected_endoscope_details =>
        Some (created_page
                (add_sterilisation_report
                   (new_report_args st f selected_endoscope_details) db))
    end.

(** The tab [Nouveau Rapport Stérilisation]: with an empty inventory the
    handler warns and returns; otherwise the selected endoscope is looked
    up while the form is drawn, then the submission is handled. *)
Definition new_report_tab (st : session_state) (f : NewReport.form)
    (submitted : bool) (db : database) : option page :=
  match endoscopes db with
  | [] =>
      Some (mkpage [Warning "⚠️ Aucun endoscope n'est disponible dans l'inventaire. Veuillez en ajouter un avant de créer un rapport."] db)
  | _ =>
      if truthy (VInt (NewReport.selected_id f))
         && negb (bool_decide (is_Some (endoscope_by_id (NewReport.selected_id f)
                                                        (endoscopes db))))
      then None
      else if submitted then new_report_submit st f db
      else Some (mkpage [] db)
  end.

(** The submit branch of [edit_sterilisation_report_form_<id>] for the
    listed row [report] (lines 526-565). *)
Definition edit_report_submit (report : Report.t) (f : EditReport.form)
    (db : database) : page :=
  let new_nature_panne :=
    nature_panne_of (EditReport.new_etat_endoscope f)
                    (EditReport.new_nature_panne_area f) in
  if negb (forallb (fun s => negb (blank s)) (required_fields f))
  then mkpage [Error "❌ Veuillez remplir tous les champs obligatoires (*)"] db
  else if panne_unspecified (EditReport.new_etat_endoscope f) new_nature_panne
  then mkpage [Error "❌ Veuillez spécifier la nature de la panne"] db
  else if time_malformed (EditReport.new_heure_debut f) (EditReport.new_heure_fin f)
  then mkpage [Error "❌ Format d'heure invalide. Utilisez HH:MM (ex: 14:30)"] db
  else
    updated_page
      (update_sterilisation_report (Report.id report) (update_fields report f) db).
End ReportStore.

(** The query the tab [Gérer Rapports] sends to the store. *)
Inductive report_query :=
| get_user_sterilisation_reports (username : pyval)
| get_all_sterilisation_reports.

(** Lines 463-466; [filter_by_user] is the value of the checkbox
    [Mes rapports uniquement]. *)
Definition manage_reports_query (st : session_state) (filter_by_user : bool)
  : report_query :=
  if filter_by_user || bool_decide (get_user_role st = VStr "sterilisation")
  then get_user_sterilisation_reports (get_username st)
  else get_all_sterilisation_reports.

(** What a run of [show_sterilization_interface] does about the listing:
    the decorator refuses the page, the handler returns before the second
    tab (no endoscope in the inventory), or the listing sends a query. *)
Inductive listing :=
| Refused (message : string)
| NotRendered
| Queried (q : report_query).

(** [show_sterilization_interface], decorated with
    [@require_role(['sterilisation', 'biomedical'])], in a run where the
    new-report form is not submitted. *)
Definition show_sterilization_listing (st : session_state)
    (filter_by_user : bool) (db : database) : listing :=
  match require_role ["sterilisation"; "biomedical"] st with
  | Deny message => Refused message
  | Permit =>
      match endoscopes db with
      | [] => NotRendered
      | _ => Queried (manage_reports_query st filter_by_user)
      end
  end.

(** Modelled from the spec:
    [DatabaseManager.can_user_modify_sterilisation_report] is defined in
    database.py, which is not among the sources; the spec gives
    [can_modify(role, report_owner_username, acting_username) -> bool]:
    [admin] and [biomedical] may modify any report, [sterilisation] only
    the reports they authored, all other roles are denied. *)
Definition can_modify (role report_owner_username acting_username : pyval)
  : bool :=
  if bool_decide (role = VStr "admin") || bool_decide (role = VStr "biomedical")
  then true
  else if bool_decide (role = VStr "sterilisation")
  then bool_decide (acting_username = report_owner_username)
  else false.

(** Lines 492-507: the call passes the id of the listed row, whose owner
    is its [created_by]; the buttons exist only when it answers true. *)
Definition report_actions (st : session_state) (report : Report.t)
  : list string + ui :=
  if can_modify (get_user_role st) (Report.created_by report) (get_username st)
  then inl ["✏️ Modifier"; "🗑️ Supprimer"]
  else inr (Info "Lecture seule").

(** ** app.py: archives *)

(** The columns of the two data frames, in the order of the tables. *)
Inductive report_column :=
| rc_id | rc_nom_operateur | rc_endoscope | rc_numero_serie
| rc_medecin_responsable | rc_date_desinfection | rc_type_desinfection
| rc_cycle | rc_test_etancheite | rc_heure_debut | rc_heure_fin
| rc_procedure_medicale | rc_salle | rc_type_acte | rc_etat_endoscope
| rc_nature_panne | rc_created_by.

Definition report_cell (c : report_column) (r : Report.t) : pyval :=
  match c with
  | rc_id => VInt (Report.id r)
  | rc_nom_operateur => Report.nom_operateur r
  | rc_endoscope => VStr (Report.endoscope r)
  | rc_numero_serie => VStr (Report.numero_serie r)
  | rc_medecin_responsable => VStr (Report.medecin_responsable r)
  | rc_date_desinfection => VDate (Report.date_desinfection r)
  | rc_type_desinfection => VStr (Report.type_desinfection r)
  | rc_cycle => VStr (Report.cycle r)
  | rc_test_etancheite => VStr (Report.test_etancheite r)
  | rc_heure_debut => VStr (Report.heure_debut r)
  | rc_heure_fin => VStr (Report.heure_fin r)
  | rc_procedure_medicale => VStr (Report.procedure_medicale r)
  | rc_salle => VStr (Report.salle r)
  | rc_type_acte => VStr (Report.type_acte r)
  | rc_etat_endoscope => VStr (Report.etat_endoscope r)
  | rc_nature_panne => Report.nature_panne r
  | rc_created_by => Report.created_by r
  end.

Inductive endoscope_column :=
| ec_id | ec_designation | ec_marque | ec_modele | ec_numero_serie
| ec_etat | ec_localisation | ec_observation | ec_created_by | ec_created_at.

Definition endoscope_cell (c : endoscope_column) (e : Endoscope.t) : pyval :=
  match c with
  | ec_id => VInt (Endoscope.id e)
  | ec_designation => VStr (Endoscope.designation e)
  | ec_marque => VStr (Endoscope.marque e)
  | ec_modele => VStr (Endoscope.modele e)
  | ec_numero_serie => VStr (Endoscope.numero_serie e)
  | ec_etat => VStr (Endoscope.etat e)
  | ec_localisation => VStr (Endoscope.localisation e)
  | ec_observation => Endoscope.observation e
  | ec_created_by => Endoscope.created_by e
  | ec_created_at => VStr (Endoscope.created_at e)
  end.

Module ReportArchive.
(** The widgets of the expander over the report archive. *)
Record filters := mk {
  operators : list pyval;
  medecins : list string;
  states : list string;
  start_date : option date;
  end_date : option date;
  sort_by_steril : report_column;
  sort_order_steril : string
}.
End ReportArchive.

Module InventoryArchive.
(** The widgets of the expander over the inventory history. *)
Record filters := mk {
  inv_states : list string;
  inv_locs : list string;
  sort_by_inv : endoscope_column;
  sort_order_inv : string
}.
End InventoryArchive.

(** [if selection: df = df[df[col].isin(selection)]]: an empty selection
    leaves the frame as it is. *)
Definition isin_filter {A B : Type} `{EqDecision B} (cell : A -> B)
    (selection : list B) (rows : list A) : list A :=
  match selection with
  | [] => rows
  | _ => filter (fun r => cell r ∈ selection) rows
  end.

(** [if bound: df = df[to_datetime(df[col]).dt.date >= bound]], and the
    same with [<=]; the column is held as dates. *)
Definition from_date_filter {A : Type} (cell : A -> date) (bound : option date)
    (rows : list A) : list A :=
  match bound with
  | None => rows
  | Some d => filter (fun r => date_leb d (cell r) = true) rows
  end.

Definition to_date_filter {A : Type} (cell : A -> date) (bound : option date)
    (rows : list A) : list A :=
  match bound with
  | None => rows
  | Some d => filter (fun r => date_leb (cell r) d = true) rows
  end.

(** Lines 606-610. *)
Definition filtered_steril (f : ReportArchive.filters) (steril_reports : list Report.t)
  : list Report.t :=
  to_date_filter Report.date_desinfection (ReportArchive.end_date f)
    (from_date_filter Report.date_desinfection (ReportArchive.start_date f)
      (isin_filter Report.etat_endoscope (ReportArchive.states f)
        (isin_filter Report.medecin_responsable (ReportArchive.medecins f)
          (isin_filter Report.nom_operateur (ReportArchive.operators f)
            steril_reports)))).

(** Lines 646-647. *)
Definition display_inventory (f : InventoryArchive.filters)
    (inventory_df : list Endoscope.t) : list Endoscope.t :=
  isin_filter Endoscope.localisation (InventoryArchive.inv_locs f)
    (isin_filter Endoscope.etat (InventoryArchive.inv_states f) inventory_df).

(** Order of two cells of one column: integers, strings (by code point,
    which is the byte order of their UTF-8 form), dates and booleans each
    among themselves.  Cells of different types do not compare. *)
Definition cell_leb (a b : pyval) : bool :=
  match a, b with
  | VInt x, VInt y => x <=? y
  | VStr x, VStr y => String.leb x y
  | VDate x, VDate y => date_leb x y
  | VBool x, VBool y => implb x y
  | _, _ => false
  end.

(** The order [sort_values(by=col, ascending=...)] sorts by: missing
    cells go last in either direction ([na_position='last']). *)
Definition key_leb (ascending : bool) (a b : pyval) : bool :=
  match a, b with
  | _, VNone => true
  | VNone, _ => false
  | _, _ => if ascending then cell_leb a b else cell_leb b a
  end.

(** What every frame returned by [df.sort_values(by=col, ascending=asc)]
    has in common: it holds the rows of the frame, each as often as the
    frame does, in the order of the column.  This is a property of the
    result, not the call: it says nothing of the order of rows with equal
    cells, which [sort_values_by] below leaves to the library's sort. *)
Definition sort_values {A : Type} (key : A -> pyval) (ascending : bool)
    (rows out : list A) : Prop :=
  Permutation rows out
  /\ Sorted (fun x y => key_leb ascending (key x) (key y) = true) out.

(** Line 611 after 606-610: the frame the report archive displays. *)
Definition archive_reports (f : ReportArchive.filters)
    (steril_reports out : list Report.t) : Prop :=
  sort_values (report_cell (ReportArchive.sort_by_steril f))
    (String.eqb (ReportArchive.sort_order_steril f) "Ascendant")
    (filtered_steril f steril_reports) out.

(** Line 648 after 646-647: the frame the inventory history displays. *)
Definition archive_inventory (f : InventoryArchive.filters)
    (inventory_df out : list Endoscope.t) : Prop :=
  sort_values (endoscope_cell (InventoryArchive.sort_by_inv f))
    (String.eqb (InventoryArchive.sort_order_inv f) "Ascendant")
    (display_inventory f inventory_df) out.

(** Sorting by insertion, each row put after the rows it does not
    precede: one sort that keeps rows with equal cells in their order. *)
Fixpoint insert_row {A : Type} (key : A -> pyval) (ascending : bool)
    (x : A) (l : list A) : list A :=
  match l with
  | [] => [x]
  | y :: rest =>
      if key_leb ascending (key y) (key x) then y :: insert_row key ascending x rest
      else x :: l
  end.

Definition insertion_sort {A : Type} (key : A -> pyval) (ascending : bool)
    (rows : list A) : list A :=
  foldl (fun acc x => insert_row key ascending x acc) [] rows.

(** ** Reporting *)

(** Modelled from the spec: [DatabaseManager.get_malfunction_percentage]
    is defined in database.py, which is not among the sources; the spec
    gives [malfunction_percentage() -> (percentage, broken_count,
    total_count)] with percentage = 100 x broken_count / total_count when
    total_count > 0, else 0, and no rounding.  The two counts are taken in
    one pass over the endoscope table; the percentage is held as an exact
    rational. *)
Definition count_endoscopes (rows : list Endoscope.t) : Z * Z :=
  foldr (fun e '(broken, total) =>
           (if String.eqb (Endoscope.etat e) "en panne" then broken + 1 else broken,
            total + 1))
        (0, 0) rows.

Definition get_malfunction_percentage (db : database) : Q * Z * Z :=
  let '(broken_count, total_count) := count_endoscopes (endoscopes db) in
  (if 0 <? total_count
   then (inject_Z 100 * inject_Z broken_count / inject_Z total_count)%Q
   else 0%Q,
   broken_count, total_count).

(** Lines 117-144 of [show_dashboard]: the alert condition and the four
    metrics (the rate is formatted by the display, not here). *)
Definition critical_alert (db : database) : bool :=
  let '(malfunction_percentage, _, _) := get_malfunction_percentage db in
  negb (Qle_bool malfunction_percentage (inject_Z 50)).

Definition dashboard_metrics (db : database) : Z * Z * Z :=
  let '(_, broken_count, total_count) := get_malfunction_percentage db in
  (total_count, total_count - broken_count, broken_count).

(** ** Invariants and sample data *)

(** What holds of every session the program builds: either the identity
    is stored whole, with a true [authenticated], or none of its keys is
    there. *)
Definition identity_whole (st : session_state) : Prop :=
  st !! "authenticated" = Some (VBool true)
  \/ (st !! "authenticated" = None /\ st !! "user_role" = None
      /\ st !! "username" = None).

(** The session's role is one of the allowed ones. *)
Definition role_allowed (st : session_state) (allowed_roles : list string) : Prop :=
  exists r, get_user_role st = VStr r /\ r ∈ allowed_roles.

(** [text] occurs in [message]. *)
Definition mentions (message text : string) : Prop :=
  exists before after, message = before ++ text ++ after.

Definition session_of (username role : string) : session_state :=
  login_success ∅ username (VStr role).

Definition admin_session : session_state := session_of "admin" "admin".
Definition biomedical_session : session_state := session_of "bob" "biomedical".
Definition sterilisation_session : session_state := session_of "alice" "sterilisation".

Definition user_admin : User.t := User.mk 1 "admin" "h1" "admin".
Definition user_bob : User.t := User.mk 2 "bob" "h2" "biomedical".
Definition user_alice : User.t := User.mk 3 "alice" "h3" "sterilisation".

Definition scope_e1 : Endoscope.t :=
  Endoscope.mk 1 "Gastroscope" "Olympus" "GIF-H190" "S100" "fonctionnel" "stock"
    VNone (VStr "bob") "2025-01-10 09:00:00".

Definition report_1 : Report.t :=
  Report.mk 1 (VStr "alice") "Gastroscope" "S100" "Dr Martin" (mkdate 2025 1 12)
    "manuel" "complet" "réussi" "14:30" "15:45" "N/A" "Salle 2" "Gastroscopie"
    "fonctionnel" VNone (VStr "alice").

Definition report_2 : Report.t :=
  Report.mk 2 (VStr "alice") "Gastroscope" "S100" "Dr Martin" (mkdate 2025 1 12)
    "manuel" "complet" "réussi" "09:00" "09:40" "N/A" "Salle 2" "Gastroscopie"
    "fonctionnel" VNone (VStr "alice").

Definition sample_db : database :=
  mkdb [user_admin; user_bob; user_alice] [scope_e1] [report_1].

(** The same submission with another text in the area [Nature de la
    panne], and with other times. *)
Definition new_with_nature_panne (f : NewReport.form) (text : string)
  : NewReport.form :=
  NewReport.mk (NewReport.selected_id f) (NewReport.medecin_responsable f)
    (NewReport.date_desinfection f) (NewReport.type_desinfection f)
    (NewReport.cycle f) (NewReport.test_etancheite f) (NewReport.heure_debut f)
    (NewReport.heure_fin f) (NewReport.salle f) (NewReport.type_acte f)
    (NewReport.etat_endoscope f) text.

Definition edit_with_nature_panne (f : EditReport.form) (text : string)
  : EditReport.form :=
  EditReport.mk (EditReport.new_nom_operateur f) (EditReport.new_endoscope f)
    (EditReport.new_numero_serie f) (EditReport.new_medecin_responsable f)
    (EditReport.new_date_desinfection f) (EditReport.new_type_desinfection f)
    (EditReport.new_cycle f) (EditReport.new_test_etancheite f)
    (EditReport.new_heure_debut f) (EditReport.new_heure_fin f)
    (EditReport.new_salle f) (EditReport.new_type_acte f)
    (EditReport.new_etat_endoscope f) text.

Definition new_with_times (f : NewReport.form) (heure_debut heure_fin : string)
  : NewReport.form :=
  NewReport.mk (NewReport.selected_id f) (NewReport.medecin_responsable f)
    (NewReport.date_desinfection f) (NewReport.type_desinfection f)
    (NewReport.cycle f) (NewReport.test_etancheite f) heure_debut heure_fin
    (NewReport.salle f) (NewReport.type_acte f) (NewReport.etat_endoscope f)
    (NewReport.nature_panne_area f).

Definition edit_with_times (f : EditReport.form) (heure_debut heure_fin : string)
  : EditReport.form :=
  EditReport.mk (EditReport.new_nom_operateur f) (EditReport.new_endoscope f)
    (EditReport.new_numero_serie f) (EditReport.new_medecin_responsable f)
    (EditReport.new_date_desinfection f) (EditReport.new_type_desinfection f)
    (EditReport.new_cycle f) (EditReport.new_test_etancheite f)
    heure_debut heure_fin
    (EditReport.new_salle f) (EditReport.new_type_acte f)
    (EditReport.new_etat_endoscope f) (EditReport.new_nature_panne_area f).

(** The outcome of a submission is a refusal of the form: one error
    message and the store as it was. *)
Definition rejected (db : database) (p : page) : Prop :=
  exists message, p = mkpage [Error message] db.

Definition panne_form : NewReport.form :=
  NewReport.mk 1 "Dr Martin" (mkdate 2025 1 12) "manuel" "complet" "réussi"
    "14:30" "15:45" "Salle 2" "Gastroscopie" "en panne" "".

Definition panne_form_bad_time : NewReport.form :=
  NewReport.mk 1 "Dr Martin" (mkdate 2025 1 12) "manuel" "complet" "réussi"
    "1430" "15:45" "Salle 2" "Gastroscopie" "en panne" "".

Definition panne_edit : EditReport.form :=
  EditReport.mk "alice" "Gastroscope" "S100" "Dr Martin" (mkdate 2025 1 12)
    "manuel" "complet" "réussi" "14:30" "15:45" "Salle 2" "Gastroscopie"
    "en panne" "".

(** A selection widget lets a value through: nothing is selected, or the
    value is one of the selected ones. *)
Definition selected {B : Type} (selection : list B) (v : B) : Prop :=
  selection = [] \/ v ∈ selection.

(** A date lies within the optional bounds, both included. *)
Definition within_dates (start_date end_date : option date) (d : date) : Prop :=
  (forall s, start_date = Some s -> date_leb s d = true)
  /\ (forall e, end_date = Some e -> date_leb d e = true).

(** The condition the report archive puts on a row. *)
Definition report_matches (f : ReportArchive.filters) (r : Report.t) : Prop :=
  selected (ReportArchive.operators f) (Report.nom_operateur r)
  /\ selected (ReportArchive.medecins f) (Report.medecin_responsable r)
  /\ selected (ReportArchive.states f) (Report.etat_endoscope r)
  /\ within_dates (ReportArchive.start_date f) (ReportArchive.end_date f)
       (Report.date_desinfection r).

(** The condition the inventory history puts on a row. *)
Definition endoscope_matches (f : InventoryArchive.filters) (e : Endoscope.t) : Prop :=
  selected (InventoryArchive.inv_states f) (Endoscope.etat e)
  /\ selected (InventoryArchive.inv_locs f) (Endoscope.localisation e).

(** A text column of the store holds a string or nothing. *)
Definition text_cell (v : pyval) : Prop := v = VNone \/ exists s, v = VStr s.

Definition report_wf (r : Report.t) : Prop :=
  text_cell (Report.nom_operateur r) /\ text_cell (Report.nature_panne r)
  /\ text_cell (Report.created_by r).

Definition endoscope_wf (e : Endoscope.t) : Prop :=
  text_cell (Endoscope.observation e) /\ text_cell (Endoscope.created_by e).

(** Two cells that [sort_values] can compare: one is missing, or they
    have the same type. *)
Definition comparable (a b : pyval) : Prop :=
  match a, b with
  | VNone, _ | _, VNone => True
  | VInt _, VInt _ | VStr _, VStr _ | VDate _, VDate _ | VBool _, VBool _ => True
  | _, _ => False
  end.









Definition broken_e2 : Endoscope.t :=
  Endoscope.mk 2 "Coloscope" "Pentax" "EC-3890" "S200" "en panne" "externe"
    VNone (VStr "bob") "2025-01-11 10:00:00".

Definition ten_endoscopes : database :=
  mkdb [] (replicate 6 broken_e2 ++ replicate 4 scope_e1) [].

(** The expander as it opens: nothing selected, no dates, sorted by the
    sixth column, descending. *)
Definition default_filters : ReportArchive.filters :=
  ReportArchive.mk [] [] [] None None rc_date_desinfection "Descendant".

Definition january_filters : ReportArchive.filters :=
  ReportArchive.mk [VStr "alice"] [] ["fonctionnel"; "en panne"]
    (Some (mkdate 2025 1 12)) (Some (mkdate 2025 1 12)) rc_id "Ascendant".

Definition inventory_filters : InventoryArchive.filters :=
  InventoryArchive.mk ["en panne"] [] ec_id "Ascendant".

(** ** app.py: the page dispatch of [main] *)

Inductive handler :=
| h_show_dashboard
| h_show_admin_interface
| h_show_biomedical_interface
| h_show_sterilization_interface
| h_show_archives_interface.

(** [st.sidebar.selectbox("Navigation", menu_options)]: the option at the
    chosen position; a position outside the list gives the first option. *)
Definition selectbox (options : list string) (choice : nat) : string :=
  default (default "" (head options)) (options !! choice).

(** The [if]/[elif] chain of lines 83-92. *)
Definition dispatch (selected_page : string) : option handler :=
  if String.eqb selected_page "Dashboard" then Some h_show_dashboard
  else if String.eqb selected_page "Gestion des Utilisateurs" then
    Some h_show_admin_interface
  else if String.eqb selected_page "Gestion Inventaire" then
    Some h_show_biomedical_interface
  else if String.eqb selected_page "Rapports de Stérilisation" then
    Some h_show_sterilization_interface
  else if String.eqb selected_page "Archives" then Some h_show_archives_interface
  else None.

(** The decorator of each handler. *)
Definition handler_gate (h : handler) (st : session_state) : gate :=
  match h with
  | h_show_dashboard => Permit
  | h_show_admin_interface => require_role ["admin"] st
  | h_show_biomedical_interface => require_role ["biomedical"] st
  | h_show_sterilization_interface =>
      require_role ["sterilisation"; "biomedical"] st
  | h_show_archives_interface => Permit
  end.

(** What a run of [main] comes to. *)
Inductive main_view :=
| login_form_shown (messages : list string)
| rerun_after_logout
| handler_called (h : handler) (g : gate)
| no_handler.

(** [main]: [submission] is the login form's content when it is
    submitted, with the answer of [db.authenticate_user]; [choice] is the
    position chosen in the navigation box; [logout_pressed] the button
    [Déconnexion]. *)
Definition main (st : session_state)
    (submission : option (string * string * pyval))
    (choice : nat) (logout_pressed : bool) : session_state * main_view :=
  if negb (check_authentication st) then
    match submission with
    | Some (username, password, role) =>
        let '(st', messages) := login_submit st username password role in
        (st', login_form_shown messages)
    | None => (st, login_form_shown [])
    end
  else
    let user_role := get_user_role st in
    let selected_page := selectbox (menu_options user_role) choice in
    if logout_pressed then (logout st, rerun_after_logout)
    else
      match dispatch selected_page with
      | Some h => (st, handler_called h (handler_gate h st))
      | None => (st, no_handler)
      end.

(** [tab_titles] of [show_archives_interface] (lines 578-584). *)
Definition tab_titles (st : session_state) : list string :=
  "Rapports de Stérilisation"
  :: (if py_in (get_user_role st) ["biomedical"; "admin"]
      then ["Historique Inventaire"] else []).

(** ** app.py: the whole user list *)

(** [l.index(x)]; [None] stands for the [ValueError] of a value that is
    not in the list. *)
Fixpoint index_of (x : string) (l : list string) : option nat :=
  match l with
  | [] => None
  | y :: rest =>
      if String.eqb y x then Some 0%nat else S <$> index_of x rest
  end.

Definition role_options : list string := ["admin"; "biomedical"; "sterilisation"].

Module UserRow.
(** The widgets of one row of the user list: the role box and the
    password field. *)
Record widgets := mk {
  new_role : string;
  new_password : string
}.
End UserRow.

Inductive user_button :=
| edit_user (user_id : Z)
| delete_user_pressed (user_id : Z).

#[global] Instance user_button_eq_dec : EqDecision user_button.
Proof. solve_decision. Defined.

(** How a run of a page ends: it reaches its end or a rerun, or an
    exception leaves the handler. *)
Inductive run :=
| finished (p : page)
| raised (exception : string) (p : page).

(** Messages shown before the rest of the run. *)
Definition after_messages (messages : list ui) (r : run) : run :=
  match r with
  | finished p => finished (mkpage (messages ++ shown p) (store p))
  | raised e p => raised e (mkpage (messages ++ shown p) (store p))
  end.

Section UserStore.
(** [db.update_user_role] and [db.update_user_password] are defined in
    database.py, which is not among the sources: the handler is given for
    any two such operations. *)
Variable update_user_role : Z -> string -> database -> bool * database.
Variable update_user_password : Z -> string -> database -> bool * database.

(** The button [Modifier] of a row (lines 210-232): what it shows, the
    store it leaves and whether it ends the run with [st.rerun()]. *)
Definition edit_user_column (user : User.t) (w : UserRow.widgets) (db : database)
  : list ui * database * bool :=
  let current_role := User.role user in
  let '(shown_role, db1, updated1) :=
    if negb (String.eqb (UserRow.new_role w) current_role) then
      let '(ok, db') := update_user_role (User.id user) (UserRow.new_role w) db in
      if ok then ([Success ("Rôle modifié pour " ++ User.username user)], db', true)
      else ([Error ("Erreur lors de la modification du rôle pour "
                    ++ User.username user)], db', false)
    else ([], db, false) in
  let '(shown_password, db2, updated2) :=
    if negb (blank (UserRow.new_password w)) then
      let '(ok, db') :=
        update_user_password (User.id user) (UserRow.new_password w) db1 in
      if ok then
        ([Success ("Mot de passe modifié pour " ++ User.username user)], db',
         true)
      else ([Error ("Erreur lors de la modification du mot de passe pour "
                    ++ User.username user)], db', updated1)
    else ([], db1, updated1) in
  if updated2 then ((shown_role ++ shown_password)%list, db2, true)
  else ((shown_role ++ shown_password
         ++ [Warning "Aucune modification effectuée"])%list, db2, false).

(** The loop of lines 191-248 over the listed users, with the role box
    (whose [index] call raises for a role outside the three), the button
    [Modifier] and the delete column. *)
Fixpoint user_list (rows : list User.t) (widgets : Z -> UserRow.widgets)
    (pressed : option user_button) (db : database) : run :=
  match rows with
  | [] => finished (mkpage [] db)
  | user :: rest =>
      match index_of (User.role user) role_options with
      | None => raised "ValueError" (mkpage [] db)
      | Some _ =>
          let '(shown_edit, db_edit, rerun_edit) :=
            if bool_decide (pressed = Some (edit_user (User.id user)))
            then edit_user_column user (widgets (User.id user)) db
            else ([], db, false) in
          if rerun_edit then finished (mkpage shown_edit db_edit)
          else
            after_messages shown_edit
              (if negb (String.eqb (User.username user) "admin") then
                 if bool_decide (pressed = Some (delete_user_pressed (User.id user)))
                 then
                   let '(deleted, db') := delete_user (User.id user) db_edit in
                   if deleted then
                     finished
                       (mkpage [Success ("Utilisateur " ++ User.username user
                                         ++ " supprimé avec succès!")] db')
                   else
                     after_messages
                       [Error ("Erreur lors de la suppression de "
                               ++ User.username user)]
                       (user_list rest widgets pressed db')
                 else user_list rest widgets pressed db_edit
               else
                 after_messages [Info "Admin protégé"]
                   (user_list rest widgets pressed db_edit))
      end
  end.
End UserStore.

(** The page a run ends with, whether it reaches its end or raises. *)
Definition run_page (r : run) : page :=
  match r with
  | finished p => p
  | raised _ p => p
  end.

(** [show_admin_interface], decorated with [@require_role(['admin'])]:
    the tab of the user list (lines 185-250), for any two update
    operations of the store. *)
Definition show_admin_interface
    (update_user_role update_user_password :
       Z -> string -> database -> bool * database)
    (st : session_state) (widgets : Z -> UserRow.widgets)
    (pressed : option user_button) (db : database) : run :=
  match require_role ["admin"] st with
  | Deny message => finished (mkpage [Error message] db)
  | Permit =>
      match get_all_users db with
      | [] => finished (mkpage [Info "Aucun utilisateur trouvé"] db)
      | rows =>
          user_list update_user_role update_user_password rows widgets pressed db
      end
  end.

(** The delete button of [user] is drawn by a run over [rows] in which
    nothing is pressed: the run reaches the row, every role box up to it
    being drawn, and the row is not the protected one. *)
Definition delete_button_drawn (rows : list User.t) (user : User.t) : Prop :=
  exists before after,
    rows = (before ++ user :: after)%list
    /\ (forall v, v ∈ before -> User.role v ∈ role_options)
    /\ User.role user ∈ role_options
    /\ User.username user <> "admin".

(** The delete button of [pressed], if that is the button pressed. *)
Definition delete_of (pressed : option user_button) : option Z :=
  match pressed with
  | Some (delete_user_pressed user_id) => Some user_id
  | _ => None
  end.

(** The widgets of a run in which nobody touched the role box or the
    password field of the users in [rows]. *)
Definition untouched (rows : list User.t) (widgets : Z -> UserRow.widgets) : Prop :=
  forall user, user ∈ rows ->
    UserRow.new_role (widgets (User.id user)) = User.role user
    /\ UserRow.new_password (widgets (User.id user)) = "".

(** ** app.py: the inventory page *)

Module EndoscopeForm.
(** The widgets of the add form and of the update form of an endoscope. *)
Record t := mk {
  designation : string;
  marque : string;
  modele : string;
  numero_serie : string;
  etat : string;
  observation : string;
  localisation : string
}.
End EndoscopeForm.

(** The button pressed in a run of the inventory page, with the form it
    submits. *)
Inductive inventory_button :=
| edit_btn (endoscope_id : Z)
| delete_btn (endoscope_id : Z)
| update_form (endoscope_id : Z) (f : EndoscopeForm.t)
| cancel_form (endoscope_id : Z)
| add_form (f : EndoscopeForm.t).

(** [f"edit_mode_{endoscope['id']}"] *)
Definition edit_mode_key (endoscope_id : Z) : string :=
  "edit_mode_" ++ pretty endoscope_id.

Definition is_edit_btn (pressed : option inventory_button) (endoscope_id : Z) : bool :=
  match pressed with
  | Some (edit_btn i) => i =? endoscope_id
  | _ => false
  end.

Definition is_delete_btn (pressed : option inventory_button) (endoscope_id : Z) : bool :=
  match pressed with
  | Some (delete_btn i) => i =? endoscope_id
  | _ => false
  end.

(** Messages shown before the rest of a run that also carries the
    session. *)
Definition with_messages (messages : list ui) (r : session_state * page)
  : session_state * page :=
  (r.1, mkpage (messages ++ shown r.2) (store r.2)).

Section InventoryStore.
(** [db.delete_endoscope], [db.update_endoscope] and [db.add_endoscope]
    are defined in database.py, which is not among the sources: the
    handler is given for any three such operations. *)
Variable delete_endoscope : Z -> database -> bool * database.
Variable update_endoscope : Z -> EndoscopeForm.t -> database -> bool * database.
Variable add_endoscope : EndoscopeForm.t -> pyval -> database -> bool * database.

(** The loop of lines 282-343 over the listed endoscopes.  A run ends at
    the first [st.rerun()]. *)
Fixpoint inventory_rows (rows : list Endoscope.t)
    (pressed : option inventory_button) (st : session_state) (db : database)
  : session_state * page :=
  match rows with
  | [] => (st, mkpage [] db)
  | endoscope :: rest =>
      let edit_key := edit_mode_key (Endoscope.id endoscope) in
      if is_edit_btn pressed (Endoscope.id endoscope) then
        (<[edit_key := VBool true]> st, mkpage [] db)
      else
        let '(shown_delete, db1, rerun_delete) :=
          if is_delete_btn pressed (Endoscope.id endoscope) then
            let '(ok, db') := delete_endoscope (Endoscope.id endoscope) db in
            if ok then ([Success "✅ Endoscope supprimé avec succès!"], db', true)
            else ([Error "❌ Erreur lors de la suppression."], db', false)
          else ([], db, false) in
        if rerun_delete then (st, mkpage shown_delete db1)
        else if truthy (default (VBool false) (st !! edit_key)) then
          let info := Info ("Modification de : " ++ Endoscope.designation endoscope) in
          match pressed with
          | Some (update_form i f) =>
              if i =? Endoscope.id endoscope then
                let '(ok, db') := update_endoscope (Endoscope.id endoscope) f db1 in
                if ok then
                  (delete edit_key st,
                   mkpage (shown_delete ++ [info; Success "✅ Endoscope mis à jour!"])
                          db')
                else
                  with_messages
                    (shown_delete
                     ++ [info; Error "❌ Erreur lors de la mise à jour."])
                    (inventory_rows rest pressed st db')
              else
                with_messages (shown_delete ++ [info])
                  (inventory_rows rest pressed st db1)
          | Some (cancel_form i) =>
              if i =? Endoscope.id endoscope then
                (delete edit_key st, mkpage (shown_delete ++ [info]) db1)
              else
                with_messages (shown_delete ++ [info])
                  (inventory_rows rest pressed st db1)
          | _ =>
              with_messages (shown_delete ++ [info])
                (inventory_rows rest pressed st db1)
          end
        else with_messages shown_delete (inventory_rows rest pressed st db1)
  end.

(** The submit branch of [add_endoscope_form] (lines 358-366). *)
Definition add_endoscope_submit (st : session_state) (f : EndoscopeForm.t)
    (db : database) : page :=
  if forallb (fun s => negb (blank s))
       [EndoscopeForm.designation f; EndoscopeForm.marque f;
        EndoscopeForm.modele f; EndoscopeForm.numero_serie f;
        EndoscopeForm.localisation f]
  then
    let '(ok, db') := add_endoscope f (get_username st) db in
    if ok then mkpage [Success "✅ Endoscope ajouté avec succès!"] db'
    else mkpage [Error "❌ Erreur: Numéro de série déjà existant."] db'
  else mkpage [Error "❌ Veuillez remplir tous les champs obligatoires (*)"] db.

(** [show_biomedical_interface], decorated with
    [@require_role(['biomedical'])]: the inventory tab, then the add
    tab. *)
Definition show_biomedical_interface (st : session_state)
    (pressed : option inventory_button) (db : database) : session_state * page :=
  match require_role ["biomedical"] st with
  | Deny message => (st, mkpage [Error message] db)
  | Permit =>
      let listed :=
        match endoscopes db with
        | [] => (st, mkpage [Info "Aucun endoscope dans l'inventaire."] db)
        | rows => inventory_rows rows pressed st db
        end in
      match pressed with
      | Some (add_form f) =>
          let added := add_endoscope_submit listed.1 f (store listed.2) in
          (listed.1, mkpage (shown listed.2 ++ shown added) (store added))
      | _ => listed
      end
  end.
End InventoryStore.

(** ** app.py: the filters of the report listing *)

(** Lines 467-471: the date filter, then the state filter unless it is
    set to [Tous]. *)
Definition manage_reports_rows (filter_date : option date) (filter_etat : string)
    (steril_reports : list Report.t) : list Report.t :=
  let on_date :=
    match filter_date with
    | Some d => filter (fun r => Report.date_desinfection r = d) steril_reports
    | None => steril_reports
    end in
  if negb (String.eqb filter_etat "Tous")
  then filter (fun r => Report.etat_endoscope r = filter_etat) on_date
  else on_date.

(** The notice shown instead of the rows (lines 569-572). *)
Definition manage_reports_notice (filter_date : option date) (filter_etat : string)
    (steril_reports : list Report.t) : option ui :=
  match steril_reports with
  | [] => Some (Info "Aucun rapport de stérilisation disponible")
  | _ =>
      match manage_reports_rows filter_date filter_etat steril_reports with
      | [] => Some (Info "Aucun rapport correspondant aux filtres")
      | _ => None
      end
  end.

(** The identity is stored whole or not at all, with a truthy role and a
    text username when it is there. *)
Definition identity_complete (st : session_state) : Prop :=
  (exists role username,
      st !! "authenticated" = Some (VBool true)
      /\ st !! "user_role" = Some role /\ truthy role = true
      /\ st !! "username" = Some (VStr username))
  \/ (st !! "authenticated" = None /\ st !! "user_role" = None
      /\ st !! "username" = None).

(** What a run of a page may do to the session: nothing, raise the edit
    flag of an endoscope, or drop it. *)
Inductive flag_step (st : session_state) : session_state -> Prop :=
| flag_kept : flag_step st st
| flag_raised endoscope_id :
    flag_step st (<[edit_mode_key endoscope_id := VBool true]> st)
| flag_dropped endoscope_id :
    flag_step st (delete (edit_mode_key endoscope_id) st).

(** [st.session_state.get(edit_key, False)], as the test that draws the
    update form. *)
Definition flag_open (st : session_state) (endoscope_id : Z) : bool :=
  truthy (default (VBool false) (st !! edit_mode_key endoscope_id)).

(** * Properties *)

(** ** The session and the role gate *)

Lemma py_in_spec (v : pyval) (roles : list string) :
  py_in v roles = true <-> exists r, v = VStr r /\ r ∈ roles.
Proof.
  destruct v as [| b | z | s | d]; simpl;
    try (split; [discriminate | intros (r & Hr & _); discriminate]).
  rewrite bool_decide_eq_true. split.
  - intros Hs. exists s. auto.
  - intros (r & Hr & Hin). injection Hr as ->. exact Hin.
Qed.

Lemma logout_unfold (st : session_state) :
  logout st = delete "username" (delete "user_role" (delete "authenticated" st)).
Proof.
  unfold logout, identity_keys. cbn [foldl].
  assert (Hdel : forall (k : string) (m : session_state),
             (if bool_decide (is_Some (m !! k)) then delete k m else m) = delete k m).
  { intros k m. case_bool_decide as Hk; [reflexivity |].
    symmetry. apply delete_id. by apply eq_None_not_Some. }
  by rewrite !Hdel.
Qed.

Lemma logout_lookup (st : session_state) (k : string) :
  logout st !! k = if bool_decide (k ∈ identity_keys) then None else st !! k.
Proof.
  rewrite logout_unfold. unfold identity_keys.
  case_bool_decide as Hk.
  - apply list_elem_of_In in Hk. simpl in Hk.
    destruct Hk as [<- | [<- | [<- | []]]];
      rewrite ?lookup_delete_eq; try reflexivity;
      repeat (rewrite lookup_delete_ne by discriminate);
      rewrite ?lookup_delete_eq; reflexivity.
  - rewrite !lookup_delete_ne; [reflexivity | | |];
      intros <-; apply Hk; set_solver.
Qed.

Lemma reachable_identity_whole (st : session_state) :
  reachable st -> identity_whole st.
Proof.
  induction 1 as [| st u r _ _ _ | st _ _ | st k v _ IH Hk | st k _ IH Hk].
  - right. by rewrite !lookup_empty.
  - left. unfold login_success. by simplify_map_eq.
  - right. rewrite !logout_lookup. by repeat split.
  - assert (k <> "authenticated" /\ k <> "user_role" /\ k <> "username") as (? & ? & ?).
    { unfold is_identity_key, identity_keys in Hk. set_solver. }
    unfold identity_whole in *. by rewrite !lookup_insert_ne.
  - assert (k <> "authenticated" /\ k <> "user_role" /\ k <> "username") as (? & ? & ?).
    { unfold is_identity_key, identity_keys in Hk. set_solver. }
    unfold identity_whole in *. by rewrite !lookup_delete_ne.
Qed.

Lemma role_needs_authentication (st : session_state) (allowed_roles : list string) :
  identity_whole st -> py_in (get_user_role st) allowed_roles = true ->
  check_authentication st = true.
Proof.
  unfold check_authentication, get_user_role.
  intros [Hauth | (_ & Hrole & _)] Hin.
  - by rewrite Hauth.
  - rewrite Hrole in Hin. discriminate.
Qed.

(** The wrapper on any session map: it lets the handler run exactly when
    the session is authenticated and holds one of the allowed roles. *)
Lemma require_role_cases (allowed_roles : list string) (st : session_state) :
  (require_role allowed_roles st = Permit
   <-> check_authentication st = true
       /\ py_in (get_user_role st) allowed_roles = true)
  /\ (check_authentication st = false ->
      require_role allowed_roles st = Unauthenticated)
  /\ (check_authentication st = true ->
      py_in (get_user_role st) allowed_roles = false ->
      require_role allowed_roles st = Forbidden allowed_roles).
Proof.
  unfold require_role, Unauthenticated, Forbidden.
  destruct (check_authentication st), (py_in (get_user_role st) allowed_roles);
    simpl; repeat split; try tauto; try discriminate;
    try (intros [? ?]; discriminate).
Qed.

Lemma append_empty_r (s : string) : s ++ "" = s.
Proof.
  induction s as [| c s IH]; [reflexivity |].
  change (String c (s ++ "") = String c s). by rewrite IH.
Qed.

Lemma append_assoc (s1 s2 s3 : string) : (s1 ++ s2) ++ s3 = s1 ++ (s2 ++ s3).
Proof.
  induction s1 as [| c s1 IH]; [reflexivity |].
  change (String c ((s1 ++ s2) ++ s3) = String c (s1 ++ (s2 ++ s3))).
  by rewrite IH.
Qed.

(** The message of a refusal names every allowed role. *)
Lemma join_names_each (sep : string) (l : list string) (r : string) :
  r ∈ l -> exists before after, join sep l = before ++ r ++ after.
Proof.
  induction l as [| x rest IH]; intros Hin; [by apply elem_of_nil in Hin |].
  apply elem_of_cons in Hin as [-> | Hin].
  - destruct rest as [| y rest'].
    + exists "", "". simpl. by rewrite append_empty_r.
    + exists "", (sep ++ join sep (y :: rest')). reflexivity.
  - destruct (IH Hin) as (b & a & Hj).
    destruct rest as [| y rest']; [by apply elem_of_nil in Hin |].
    exists (x ++ sep ++ b), a.
    change (join sep (x :: y :: rest')) with (x ++ sep ++ join sep (y :: rest')).
    rewrite Hj. by rewrite !append_assoc.
Qed.

(** The wrapper on the sessions the program builds. *)
Lemma require_role_reachable (st : session_state) (allowed_roles : list string) :
  identity_whole st ->
  (require_role allowed_roles st = Permit <-> role_allowed st allowed_roles).
Proof.
  intros Hwhole.
  destruct (require_role_cases allowed_roles st) as (Hpermit & _ & _).
  rewrite Hpermit. unfold role_allowed. rewrite <- py_in_spec. split.
  - by intros [_ ?].
  - intros Hin. split; [| exact Hin].
    by apply role_needs_authentication with allowed_roles.
Qed.

(** C1.  On every session the program can be in, and for every list of
    allowed roles, [require_role] lets the handler run if and only if the
    session's role is one of the allowed roles.  It refuses with the
    not-connected message exactly when the session holds no
    [authenticated] entry, which is when none of the three identity keys
    is there; with an identity whose role is not allowed it refuses with
    the access-denied message, a different message in which every
    allowed role appears. *)
Theorem require_role_permits_iff_member
    (st : session_state) (allowed_roles : list string) :
  reachable st ->
  (require_role allowed_roles st = Permit <-> role_allowed st allowed_roles)
  /\ (require_role allowed_roles st = Unauthenticated
      <-> st !! "authenticated" = None)
  /\ (st !! "authenticated" = None <->
      forall k, k ∈ identity_keys -> st !! k = None)
  /\ (is_Some (st !! "authenticated") -> ~ role_allowed st allowed_roles ->
      require_role allowed_roles st = Forbidden allowed_roles)
  /\ Forbidden allowed_roles <> Unauthenticated
  /\ (forall r, r ∈ allowed_roles -> mentions (forbidden_message allowed_roles) r).
Proof.
  intros Hreach. apply reachable_identity_whole in Hreach as Hwhole.
  destruct (require_role_cases allowed_roles st) as (Hpermit & Hunauth & Hforbid).
  assert (Hdiff : Forbidden allowed_roles <> Unauthenticated) by discriminate.
  assert (Hauth : check_authentication st = true <-> is_Some (st !! "authenticated")).
  { unfold check_authentication.
    destruct Hwhole as [-> | (-> & _ & _)]; simpl.
    - split; [eauto | reflexivity].
    - split; [discriminate | intros [v Hv]; discriminate]. }
  assert (Hnone : check_authentication st = false <-> st !! "authenticated" = None).
  { rewrite <- not_true_iff_false, Hauth, <- eq_None_not_Some. tauto. }
  assert (Hdenied : ~ role_allowed st allowed_roles ->
                    py_in (get_user_role st) allowed_roles = false).
  { intros Hnot. apply not_true_is_false. intros Hin. apply Hnot.
    by apply py_in_spec. }
  split; [by apply require_role_reachable |].
  split; [| split; [| split; [| split; [exact Hdiff |]]]].
  - split.
    + intros Hgate. apply Hnone. apply not_true_is_false. intros Htrue.
      destruct (py_in (get_user_role st) allowed_roles) eqn:Hin.
      * assert (require_role allowed_roles st = Permit) as Hp by by apply Hpermit.
        rewrite Hp in Hgate. discriminate.
      * rewrite (Hforbid Htrue eq_refl) in Hgate. by apply Hdiff.
    + intros Habsent. by apply Hunauth, Hnone.
  - split.
    + intros Habsent k Hk. destruct Hwhole as [Hsome | (Ha & Hr & Hu)]; [congruence |].
      apply list_elem_of_In in Hk. simpl in Hk.
      destruct Hk as [<- | [<- | [<- | []]]]; assumption.
    + intros Hall. apply Hall. unfold identity_keys. repeat constructor.
  - intros Hsome Hnot. apply Hforbid; [by apply Hauth | by apply Hdenied].
  - intros r Hr. unfold mentions, forbidden_message.
    destruct (join_names_each ", " allowed_roles r Hr) as (b & a & Hj).
    exists ("Accès refusé. Rôles autorisés: " ++ b), a.
    rewrite Hj. by rewrite append_assoc.
Qed.

Lemma reachable_session_of (username role : string) :
  role <> "" -> reachable (session_of username role).
Proof.
  intros Hrole. unfold session_of. apply reach_login; [apply reach_init |].
  simpl. apply negb_true_iff. by apply String.eqb_neq.
Defined.

Lemma reachable_after_logout (username role : string) :
  role <> "" -> reachable (logout (session_of username role)).
Proof. intros Hrole. by apply reach_logout, reachable_session_of. Defined.

Lemma require_role_permits_iff_member_witness :
  reachable biomedical_session
  /\ require_role ["sterilisation"; "biomedical"] biomedical_session = Permit
  /\ require_role ["admin"] biomedical_session = Forbidden ["admin"]
  /\ require_role ["admin"] ∅ = Unauthenticated
  /\ require_role ["biomedical"] (logout biomedical_session) = Unauthenticated.
Proof.
  assert (Hreach : reachable biomedical_session)
    by (apply reachable_session_of; discriminate).
  split; [exact Hreach |].
  destruct (require_role_permits_iff_member biomedical_session
              ["sterilisation"; "biomedical"] Hreach) as (Hpermit & _).
  destruct (require_role_permits_iff_member biomedical_session ["admin"] Hreach)
    as (_ & _ & _ & Hforbid & _).
  destruct (require_role_permits_iff_member ∅ ["admin"] reach_init)
    as (_ & Hempty & _).
  destruct (require_role_permits_iff_member (logout biomedical_session)
              ["biomedical"] (reach_logout _ Hreach)) as (_ & Hout & _).
  split; [| split; [| split]].
  - apply Hpermit. exists "biomedical". split; [reflexivity |].
    apply list_elem_of_further, list_elem_of_here.
  - apply Hforbid; [by eexists |].
    intros (r & Hr & Hin). vm_compute in Hr. injection Hr as <-.
    apply list_elem_of_In in Hin. simpl in Hin. destruct Hin as [Hin | []].
    discriminate.
  - apply Hempty. apply lookup_empty.
  - apply Hout. by rewrite logout_lookup.
Defined.

(** Every page that [main] offers to a role is open to that role: the
    navigation table agrees with the decorators. *)
Lemma menu_pages_permitted (st : session_state) (selected_page : string) :
  check_authentication st = true ->
  selected_page ∈ menu_options (get_user_role st) ->
  page_gate selected_page st = Permit.
Proof.
  intros Hauth Hpage. unfold menu_options in Hpage. unfold page_gate, require_role.
  rewrite Hauth. simpl.
  repeat case_bool_decide;
    apply list_elem_of_In in Hpage; simpl in Hpage;
    repeat match goal with
    | H : _ \/ _ |- _ => destruct H as [<- | H]
    | H : False |- _ => destruct H
    | H : get_user_role st = _ |- _ => rewrite H
    end; reflexivity.
Qed.

(** The decorator of the report page also admits the biomedical role,
    which the navigation table does not send there. *)
Lemma report_page_open_to_biomedical :
  page_gate "Rapports de Stérilisation" biomedical_session = Permit
  /\ "Rapports de Stérilisation" ∉ menu_options (get_user_role biomedical_session).
Proof.
  split; [reflexivity |].
  intros Hin. apply list_elem_of_In in Hin. vm_compute in Hin.
  repeat destruct Hin as [Hin | Hin]; try discriminate; exact Hin.
Qed.

(** C9.  [logout] removes the three identity keys and nothing else: the
    keys of the session afterwards are the former keys without
    [authenticated], [user_role] and [username], every other entry keeps
    its value, and the session is unauthenticated with no role and no
    username. *)
Theorem logout_removes_identity_only (st : session_state) :
  dom (logout st) = dom st ∖ list_to_set identity_keys
  /\ (forall k, k ∈ identity_keys -> logout st !! k = None)
  /\ (forall k, k ∉ identity_keys -> logout st !! k = st !! k)
  /\ check_authentication (logout st) = false
  /\ get_user_role (logout st) = VNone
  /\ get_username (logout st) = VNone.
Proof.
  split; [| split; [| split; [| split; [| split]]]].
  - apply set_eq. intros k.
    rewrite elem_of_difference, !elem_of_dom, elem_of_list_to_set, logout_lookup.
    case_bool_decide as Hk.
    + split; [intros [? ?]; discriminate | tauto].
    + tauto.
  - intros k Hk. rewrite logout_lookup. by rewrite bool_decide_eq_true_2.
  - intros k Hk. rewrite logout_lookup. by rewrite bool_decide_eq_false_2.
  - unfold check_authentication. by rewrite logout_lookup.
  - unfold get_user_role. by rewrite logout_lookup.
  - unfold get_username. by rewrite logout_lookup.
Qed.

(** After a login and a logout an edit flag set in between is still
    there. *)
Example logout_keeps_edit_flag :
  logout (<["edit_mode_4" := VBool true]> admin_session)
  = {["edit_mode_4" := VBool true]}.
Proof.
  apply map_eq. intros k. rewrite logout_lookup.
  case_bool_decide as Hk.
  - apply list_elem_of_In in Hk. simpl in Hk.
    destruct Hk as [<- | [<- | [<- | []]]]; reflexivity.
  - unfold admin_session, session_of, login_success.
    destruct (decide (k = "edit_mode_4")) as [-> | Hne]; [by simplify_map_eq |].
    assert (k <> "authenticated" /\ k <> "user_role" /\ k <> "username")
      as (? & ? & ?) by (repeat split; intros ->; apply Hk; set_solver).
    by rewrite lookup_singleton_ne, !lookup_insert_ne, lookup_empty.
Qed.

(** A successful login stores the identity the gate reads. *)
Lemma login_submit_identity (st : session_state) (username password : string)
    (role : pyval) :
  username <> "" -> password <> "" -> truthy role = true ->
  let st' := (login_submit st username password role).1 in
  check_authentication st' = true
  /\ get_user_role st' = role
  /\ get_username st' = VStr username.
Proof.
  intros Hu Hp Hrole. unfold login_submit.
  apply String.eqb_neq in Hu, Hp. rewrite Hu, Hp, Hrole. simpl.
  unfold check_authentication, get_user_role, get_username, login_success.
  by simplify_map_eq.
Qed.

(** ** Who may modify a report, and which reports are listed *)

(** C2.  [can_modify] answers true for the roles admin and biomedical
    whatever the owner; for the role sterilisation it answers true if and
    only if the acting username is the owner's; for every other role it
    answers false. *)
Theorem can_modify_by_role (role report_owner acting : pyval) :
  (role = VStr "admin" \/ role = VStr "biomedical" ->
   can_modify role report_owner acting = true)
  /\ (role = VStr "sterilisation" ->
      (can_modify role report_owner acting = true <-> acting = report_owner))
  /\ (role <> VStr "admin" -> role <> VStr "biomedical" ->
      role <> VStr "sterilisation" ->
      can_modify role report_owner acting = false).
Proof.
  unfold can_modify. split; [| split].
  - intros [-> | ->]; reflexivity.
  - intros ->. simpl. apply bool_decide_eq_true.
  - intros Ha Hb Hs. by rewrite !bool_decide_eq_false_2.
Qed.

Lemma can_modify_by_role_witness :
  can_modify (VStr "sterilisation") (VStr "alice") (VStr "alice") = true
  /\ can_modify (VStr "sterilisation") (VStr "alice") (VStr "bob") = false
  /\ can_modify (VStr "biomedical") (VStr "alice") (VStr "bob") = true
  /\ can_modify (VStr "visiteur") (VStr "alice") (VStr "alice") = false.
Proof.
  split; [| split; [| split]].
  - destruct (can_modify_by_role (VStr "sterilisation") (VStr "alice") (VStr "alice"))
      as (_ & Hown & _).
    by apply Hown.
  - destruct (can_modify_by_role (VStr "sterilisation") (VStr "alice") (VStr "bob"))
      as (_ & Hown & _).
    apply not_true_is_false. intros Htrue. apply Hown in Htrue; [| reflexivity].
    discriminate.
  - destruct (can_modify_by_role (VStr "biomedical") (VStr "alice") (VStr "bob"))
      as (Hany & _ & _).
    apply Hany. by right.
  - destruct (can_modify_by_role (VStr "visiteur") (VStr "alice") (VStr "alice"))
      as (_ & _ & Hother).
    apply Hother; discriminate.
Defined.

(** The buttons of a listed report are drawn exactly when the rule
    answers true for the session and the report's author. *)
Lemma report_actions_read_only (st : session_state) (report : Report.t) :
  report_actions st report = inr (Info "Lecture seule")
  <-> can_modify (get_user_role st) (Report.created_by report) (get_username st)
      = false.
Proof.
  unfold report_actions.
  destruct (can_modify _ _ _); split; intros H; try discriminate; reflexivity.
Qed.

Lemma manage_reports_query_sterilisation (st : session_state) (filter_by_user : bool) :
  get_user_role st = VStr "sterilisation" ->
  manage_reports_query st filter_by_user
  = get_user_sterilisation_reports (get_username st).
Proof.
  intros Hrole. unfold manage_reports_query. rewrite Hrole.
  by rewrite bool_decide_eq_true_2, orb_true_r.
Qed.

(** The listing reaches the all-reports query only for an authenticated
    biomedical session with the checkbox cleared. *)
Lemma all_reports_query_reached (st : session_state) (filter_by_user : bool)
    (db : database) :
  show_sterilization_listing st filter_by_user db
  = Queried get_all_sterilisation_reports
  <-> check_authentication st = true
      /\ get_user_role st = VStr "biomedical"
      /\ filter_by_user = false
      /\ endoscopes db <> [].
Proof.
  unfold show_sterilization_listing, manage_reports_query.
  destruct (require_role_cases ["sterilisation"; "biomedical"] st)
    as (Hpermit & _ & _).
  destruct (require_role ["sterilisation"; "biomedical"] st) eqn:Hgate.
  - destruct Hpermit as [Hpermit _]. destruct (Hpermit eq_refl) as [Hauth Hin].
    apply py_in_spec in Hin as (r & Hr & Hin).
    destruct (endoscopes db) as [| e rest]; [split; [discriminate | tauto] |].
    rewrite Hr. destruct filter_by_user; simpl.
    + split; [discriminate | intros (_ & _ & ? & _); discriminate].
    + case_bool_decide as Hs; simpl.
      * split; [discriminate |]. intros (_ & Hb & _). congruence.
      * split; [| reflexivity]. intros _. repeat split; try done.
        f_equal. apply list_elem_of_In in Hin. simpl in Hin.
        destruct Hin as [<- | [<- | []]]; [by destruct Hs | reflexivity].
  - split; [discriminate |]. intros (Hauth & Hr & _).
    assert (Deny message = Permit) as Hp; [| discriminate].
    apply Hpermit. split; [exact Hauth |]. by rewrite Hr.
Qed.

(** C10.  For a session whose role is sterilisation, the listing of
    [Gérer Rapports] sends the query for the reports of the user stored
    under the session's [username] entry, whether the checkbox is checked
    or not, and never the all-reports query: after a login as any user
    with that role, the query names that very user.  A run that sends the
    all-reports query has the role admin or biomedical. *)
Theorem sterilisation_listing_own_reports
    (st : session_state) (filter_by_user : bool) (db : database) :
  (get_user_role st = VStr "sterilisation" ->
   (forall u, st !! "username" = Some u ->
      manage_reports_query st filter_by_user = get_user_sterilisation_reports u)
   /\ show_sterilization_listing st filter_by_user db
      <> Queried get_all_sterilisation_reports
   /\ (forall u, check_authentication st = true -> endoscopes db <> [] ->
         st !! "username" = Some u ->
         show_sterilization_listing st filter_by_user db
         = Queried (get_user_sterilisation_reports u)))
  /\ (forall username password,
        username <> "" -> password <> "" -> endoscopes db <> [] ->
        show_sterilization_listing
          (login_submit st username password (VStr "sterilisation")).1
          filter_by_user db
        = Queried (get_user_sterilisation_reports (VStr username)))
  /\ (show_sterilization_listing st filter_by_user db
      = Queried get_all_sterilisation_reports ->
      get_user_role st = VStr "admin" \/ get_user_role st = VStr "biomedical").
Proof.
  assert (Hown : forall s b u,
             get_user_role s = VStr "sterilisation" -> s !! "username" = Some u ->
             manage_reports_query s b = get_user_sterilisation_reports u).
  { intros s b u Hrole Hu. rewrite manage_reports_query_sterilisation by done.
    unfold get_username. by rewrite Hu. }
  assert (Hlist : forall s b u,
             get_user_role s = VStr "sterilisation" ->
             check_authentication s = true -> endoscopes db <> [] ->
             s !! "username" = Some u ->
             show_sterilization_listing s b db
             = Queried (get_user_sterilisation_reports u)).
  { intros s b u Hrole Hauth Hne Hu. unfold show_sterilization_listing, require_role.
    rewrite Hauth, Hrole. simpl.
    destruct (endoscopes db); [done |]. by rewrite (Hown s b u). }
  split; [| split].
  - intros Hrole. split; [intros u; by apply Hown |]. split.
    + intros Hall. apply all_reports_query_reached in Hall as (_ & Hb & _).
      congruence.
    + intros u Hauth Hne Hu. by apply Hlist.
  - intros username password Hu Hp Hne.
    destruct (login_submit_identity st username password (VStr "sterilisation")
                Hu Hp eq_refl) as (Hauth & Hrole & Hname).
    apply Hlist; try done.
    unfold get_username in Hname.
    destruct ((login_submit st username password (VStr "sterilisation")).1
                !! "username") as [v |] eqn:Hv; simpl in Hname; congruence.
  - intros Hall. apply all_reports_query_reached in Hall as (_ & Hb & _).
    by right.
Qed.

Lemma sterilisation_listing_own_reports_witness :
  show_sterilization_listing sterilisation_session false sample_db
  = Queried (get_user_sterilisation_reports (VStr "alice"))
  /\ show_sterilization_listing (session_of "carole" "sterilisation") true sample_db
     = Queried (get_user_sterilisation_reports (VStr "carole"))
  /\ show_sterilization_listing
       (login_submit biomedical_session "dalila" "secret" (VStr "sterilisation")).1
       false sample_db
     = Queried (get_user_sterilisation_reports (VStr "dalila")).
Proof.
  split; [| split].
  - destruct (sterilisation_listing_own_reports sterilisation_session false sample_db)
      as (Hown & _ & _).
    destruct Hown as (_ & _ & Hlist); [reflexivity |].
    apply Hlist; [reflexivity | discriminate | reflexivity].
  - destruct (sterilisation_listing_own_reports
                (session_of "carole" "sterilisation") true sample_db)
      as (Hown & _ & _).
    destruct Hown as (_ & _ & Hlist); [reflexivity |].
    apply Hlist; [reflexivity | discriminate | reflexivity].
  - destruct (sterilisation_listing_own_reports biomedical_session false sample_db)
      as (_ & Hlogin & _).
    apply Hlogin; discriminate.
Defined.

(** An admin session never reaches the listing: the decorator of the
    report page refuses it. *)
Example admin_refused_on_report_page :
  show_sterilization_listing admin_session false sample_db
  = Refused (forbidden_message ["sterilisation"; "biomedical"]).
Proof. reflexivity. Qed.

Example biomedical_lists_all_reports :
  show_sterilization_listing biomedical_session false sample_db
  = Queried get_all_sterilisation_reports.
Proof. reflexivity. Qed.

(** ** Rows and their ids *)

Lemma same_id_same_row {A : Type} (id : A -> Z) (l : list A) (x y : A) :
  NoDup (map id l) -> x ∈ l -> y ∈ l -> id x = id y -> x = y.
Proof.
  induction l as [| a l IH]; intros Hnd Hx Hy Hid; [by apply elem_of_nil in Hx |].
  simpl in Hnd. apply NoDup_cons in Hnd as [Ha Hnd].
  apply elem_of_cons in Hx as [-> | Hx]; apply elem_of_cons in Hy as [-> | Hy].
  - reflexivity.
  - exfalso. apply Ha. rewrite Hid. apply list_elem_of_In, in_map.
    by apply list_elem_of_In.
  - exfalso. apply Ha. rewrite <- Hid. apply list_elem_of_In, in_map.
    by apply list_elem_of_In.
  - by apply IH.
Qed.

Lemma find_by_id (l : list User.t) (u : User.t) :
  NoDup (map User.id l) -> u ∈ l ->
  List.find (fun v => User.id v =? User.id u) l = Some u.
Proof.
  induction l as [| a l IH]; intros Hnd Hu; [by apply elem_of_nil in Hu |].
  simpl. destruct (User.id a =? User.id u) eqn:Hid.
  - apply Z.eqb_eq in Hid. f_equal.
    apply (same_id_same_row User.id (a :: l));
      [exact Hnd | apply list_elem_of_here | exact Hu | exact Hid].
  - apply Z.eqb_neq in Hid. apply elem_of_cons in Hu as [-> | Hu]; [done |].
    simpl in Hnd. apply NoDup_cons in Hnd as [_ Hnd]. by apply IH.
Qed.

Lemma delete_user_keeps (user_id : Z) (db : database) (u : User.t) :
  u ∈ users db -> User.id u <> user_id -> u ∈ users (delete_user user_id db).2.
Proof.
  intros Hu Hid. unfold delete_user.
  destruct (List.find _ (users db)) as [v |]; [| exact Hu].
  destruct (String.eqb (User.username v) "admin"); [exact Hu |].
  simpl. apply list_elem_of_filter. by split.
Qed.

Lemma delete_user_protected (db : database) (u : User.t) :
  NoDup (map User.id (users db)) -> u ∈ users db -> User.username u = "admin" ->
  delete_user (User.id u) db = (false, db).
Proof.
  intros Hnd Hu Hname. unfold delete_user.
  rewrite (find_by_id _ _ Hnd Hu), Hname. reflexivity.
Qed.

Lemma delete_user_removes (db : database) (u : User.t) :
  NoDup (map User.id (users db)) -> u ∈ users db -> User.username u <> "admin" ->
  delete_user (User.id u) db
  = (true,
     mkdb (filter (fun v => User.id v ≠ User.id u) (users db))
          (endoscopes db) (sterilisation_reports db)).
Proof.
  intros Hnd Hu Hname. unfold delete_user.
  rewrite (find_by_id _ _ Hnd Hu). apply String.eqb_neq in Hname.
  by rewrite Hname.
Qed.

(** ** Submitting a sterilisation report *)

Lemma contains_not_blank (c : ascii) (s : string) :
  contains c s = true -> blank s = false.
Proof. destruct s; [discriminate | reflexivity]. Qed.

Lemma blank_spec (s : string) : blank s = true <-> s = "".
Proof. unfold blank. apply String.eqb_eq. Qed.

Lemma panne_unspecified_spec (etat_endoscope area : string) :
  panne_unspecified etat_endoscope (nature_panne_of etat_endoscope area) = true
  <-> etat_endoscope = "en panne" /\ area = "".
Proof.
  unfold panne_unspecified, nature_panne_of.
  destruct (String.eqb etat_endoscope "en panne") eqn:Hetat; simpl.
  - apply String.eqb_eq in Hetat. rewrite negb_involutive, String.eqb_eq. tauto.
  - apply String.eqb_neq in Hetat. split; [discriminate | tauto].
Qed.

Lemma time_malformed_spec (heure_debut heure_fin : string) :
  time_malformed heure_debut heure_fin = true
  <-> contains ":" heure_debut = false \/ contains ":" heure_fin = false.
Proof.
  unfold time_malformed. rewrite orb_true_iff, !negb_true_iff. tauto.
Qed.


Lemma required_missing_spec (f : NewReport.form) :
  required_missing f = false
  <-> NewReport.selected_id f <> 0
      /\ NewReport.medecin_responsable f <> ""
      /\ NewReport.salle f <> "" /\ NewReport.type_acte f <> ""
      /\ NewReport.heure_debut f <> "" /\ NewReport.heure_fin f <> "".
Proof.
  unfold required_missing, blank. simpl.
  rewrite !orb_false_iff, negb_false_iff, negb_true_iff, Z.eqb_neq,
    !String.eqb_neq.
  tauto.
Qed.

Section ReportForms.
Context (add_sterilisation_report : ReportArgs.t -> database -> bool * database)
        (update_sterilisation_report :
           Z -> UpdateFields.t -> database -> bool * database).

Abbreviation new_report_submit' := (new_report_submit add_sterilisation_report).
Abbreviation edit_report_submit' := (edit_report_submit update_sterilisation_report).

(** A submission that misses a colon in one of its times, or declares a
    breakdown without its nature, stops in one of the three tests. *)
Lemma new_report_submit_rejected (st : session_state) (f : NewReport.form)
    (db : database) :
  required_missing f = true
  \/ panne_unspecified (NewReport.etat_endoscope f)
       (nature_panne_of (NewReport.etat_endoscope f) (NewReport.nature_panne_area f))
     = true
  \/ time_malformed (NewReport.heure_debut f) (NewReport.heure_fin f) = true ->
  exists p, new_report_submit' st f db = Some p /\ rejected db p.
Proof.
  intros Hbad. unfold new_report_submit, rejected.
  destruct (required_missing f); [eauto |].
  destruct (panne_unspecified _ _); [eauto |].
  destruct (time_malformed _ _); [eauto |].
  destruct Hbad as [? | [? | ?]]; discriminate.
Qed.

(** A submission that passes the three tests is handed to the store with
    the arguments of the form, and the page is the store's answer. *)
Lemma new_report_submit_stored (st : session_state) (f : NewReport.form)
    (db : database) (e : Endoscope.t) :
  required_missing f = false ->
  panne_unspecified (NewReport.etat_endoscope f)
    (nature_panne_of (NewReport.etat_endoscope f) (NewReport.nature_panne_area f))
  = false ->
  time_malformed (NewReport.heure_debut f) (NewReport.heure_fin f) = false ->
  endoscope_by_id (NewReport.selected_id f) (endoscopes db) = Some e ->
  new_report_submit' st f db
  = Some (created_page (add_sterilisation_report (new_report_args st f e) db)).
Proof.
  intros Hreq Hpanne Htime Hfound. unfold new_report_submit.
  by rewrite Hreq, Hpanne, Htime, Hfound.
Qed.


Lemma edit_report_submit_rejected (report : Report.t) (f : EditReport.form)
    (db : database) :
  forallb (fun s => negb (blank s)) (required_fields f) = false
  \/ panne_unspecified (EditReport.new_etat_endoscope f)
       (nature_panne_of (EditReport.new_etat_endoscope f)
                        (EditReport.new_nature_panne_area f)) = true
  \/ time_malformed (EditReport.new_heure_debut f) (EditReport.new_heure_fin f)
     = true ->
  rejected db (edit_report_submit' report f db).
Proof.
  intros Hbad. unfold edit_report_submit, rejected.
  destruct (forallb _ _); simpl; [| eauto].
  destruct (panne_unspecified _ _); [eauto |].
  destruct (time_malformed _ _); [eauto |].
  destruct Hbad as [? | [? | ?]]; discriminate.
Qed.
End ReportForms.




Lemma required_missing_with_times (f : NewReport.form) (heure_debut heure_fin : string) :
  NewReport.selected_id f <> 0 -> NewReport.medecin_responsable f <> "" ->
  NewReport.salle f <> "" -> NewReport.type_acte f <> "" ->
  contains ":" heure_debut = true -> contains ":" heure_fin = true ->
  required_missing (new_with_times f heure_debut heure_fin) = false.
Proof.
  intros Hid Hmed Hsalle Hacte Hd Hf. apply required_missing_spec. simpl.
  repeat split; try assumption.
  - intros ->. discriminate.
  - intros ->. discriminate.
Qed.

(** C5.  In the create form and in the edit form, a submission whose
    start or end time holds no colon fails validation: the store is not
    called and stays as it was.  Nothing else is asked of the times: with
    the other required fields filled, the nature given when the state is
    en panne and the selected endoscope found, any two times that hold a
    colon pass the form, which hands them to the store as they were
    typed. *)
Theorem time_needs_colon_only
    (add_sterilisation_report : ReportArgs.t -> database -> bool * database)
    (update_sterilisation_report :
       Z -> UpdateFields.t -> database -> bool * database)
    (st : session_state) (db : database) (report : Report.t)
    (f : NewReport.form) (g : EditReport.form) (heure_debut heure_fin : string) :
  (contains ":" (NewReport.heure_debut f) = false
   \/ contains ":" (NewReport.heure_fin f) = false ->
   exists p, new_report_submit add_sterilisation_report st f db = Some p
             /\ rejected db p)
  /\ (contains ":" (EditReport.new_heure_debut g) = false
      \/ contains ":" (EditReport.new_heure_fin g) = false ->
      rejected db (edit_report_submit update_sterilisation_report report g db))
  /\ (contains ":" heure_debut = true -> contains ":" heure_fin = true ->
      forall e,
        NewReport.selected_id f <> 0 -> NewReport.medecin_responsable f <> "" ->
        NewReport.salle f <> "" -> NewReport.type_acte f <> "" ->
        panne_unspecified (NewReport.etat_endoscope f)
          (nature_panne_of (NewReport.etat_endoscope f)
                           (NewReport.nature_panne_area f)) = false ->
        endoscope_by_id (NewReport.selected_id f) (endoscopes db) = Some e ->
        new_report_submit add_sterilisation_report st
          (new_with_times f heure_debut heure_fin) db
        = Some (created_page
                  (add_sterilisation_report
                     (new_report_args st (new_with_times f heure_debut heure_fin) e)
                     db))
        /\ ReportArgs.heure_debut
             (new_report_args st (new_with_times f heure_debut heure_fin) e)
           = heure_debut
        /\ ReportArgs.heure_fin
             (new_report_args st (new_with_times f heure_debut heure_fin) e)
           = heure_fin).
Proof.
  split; [| split].
  - intros Hcolon. apply new_report_submit_rejected. right. right.
    by apply time_malformed_spec.
  - intros Hcolon. apply edit_report_submit_rejected. right. right.
    by apply time_malformed_spec.
  - intros Hd Hf e Hid Hmed Hsalle Hacte Hpanne Hfound.
    split; [| by split].
    apply new_report_submit_stored; try done.
    + by apply required_missing_with_times.
    + unfold time_malformed. simpl. by rewrite Hd, Hf.
Qed.

Lemma time_needs_colon_only_witness :
  (exists p, new_report_submit (fun _ db => (true, db)) sterilisation_session
               (new_with_nature_panne panne_form_bad_time "fuite") sample_db = Some p
             /\ rejected sample_db p)
  /\ new_report_submit
       (fun args db =>
          (true, mkdb [] []
                   [Report.mk 9 VNone "" "" "" (mkdate 0 0 0) "" "" ""
                      (ReportArgs.heure_debut args) (ReportArgs.heure_fin args)
                      "" "" "" "" VNone VNone]))
       sterilisation_session
       (new_with_times (new_with_nature_panne panne_form "fuite") "99:99" ":")
       sample_db
     = Some (mkpage [Success "Rapport de stérilisation enregistré avec succès!"]
               (mkdb [] []
                  [Report.mk 9 VNone "" "" "" (mkdate 0 0 0) "" "" ""
                     "99:99" ":" "" "" "" "" VNone VNone])).
Proof.
  split.
  - destruct (time_needs_colon_only (fun _ db => (true, db)) (fun _ _ db => (true, db))
                sterilisation_session sample_db report_1
                (new_with_nature_panne panne_form_bad_time "fuite") panne_edit "" "")
      as (Hnew & _ & _).
    apply Hnew. by left.
  - destruct (time_needs_colon_only
                (fun args db =>
                   (true, mkdb [] []
                            [Report.mk 9 VNone "" "" "" (mkdate 0 0 0) "" "" ""
                               (ReportArgs.heure_debut args)
                               (ReportArgs.heure_fin args)
                               "" "" "" "" VNone VNone]))
                (fun _ _ db => (true, db))
                sterilisation_session sample_db report_1
                (new_with_nature_panne panne_form "fuite") panne_edit "99:99" ":")
      as (_ & _ & Hfree).
    destruct (Hfree eq_refl eq_refl scope_e1) as (Hstored & _);
      [discriminate | discriminate | discriminate | discriminate
      | reflexivity | reflexivity | exact Hstored].
Defined.

(** ** The malfunction rate *)

Lemma count_endoscopes_spec (rows : list Endoscope.t) :
  count_endoscopes rows
  = (Z.of_nat (length (filter (fun e => Endoscope.etat e = "en panne") rows)),
     Z.of_nat (length rows)).
Proof.
  induction rows as [| e rows IH]; [reflexivity |].
  unfold count_endoscopes in *. cbn [foldr]. rewrite IH. clear IH.
  rewrite filter_cons.
  destruct (String.eqb (Endoscope.etat e) "en panne") eqn:Hetat.
  - apply String.eqb_eq in Hetat. rewrite decide_True by exact Hetat.
    cbn [length]. f_equal; lia.
  - apply String.eqb_neq in Hetat. rewrite decide_False by exact Hetat.
    cbn [length]. f_equal; lia.
Qed.

(** C6.  [get_malfunction_percentage] returns the number of endoscopes
    en panne and the number of endoscopes, with the exact quotient
    100 x broken / total before them when there is an endoscope, and
    (0, 0, 0) on an empty table; with ten endoscopes of which six are en
    panne the rate is 60. *)
Theorem malfunction_percentage_triple (db : database) :
  let total_count := Z.of_nat (length (endoscopes db)) in
  let broken_count :=
    Z.of_nat (length (filter (fun e => Endoscope.etat e = "en panne")
                             (endoscopes db))) in
  exists percentage,
    get_malfunction_percentage db = (percentage, broken_count, total_count)
    /\ (0 < total_count ->
        Qeq percentage
            (inject_Z 100 * inject_Z broken_count / inject_Z total_count))
    /\ (endoscopes db = [] -> get_malfunction_percentage db = (0%Q, 0, 0))
    /\ (total_count = 10 -> broken_count = 6 -> Qeq percentage (inject_Z 60)).
Proof.
  intros total_count broken_count.
  unfold get_malfunction_percentage. rewrite count_endoscopes_spec.
  fold total_count broken_count.
  eexists. split; [reflexivity |]. split; [| split].
  - intros Hpos. apply Z.ltb_lt in Hpos. rewrite Hpos. reflexivity.
  - intros Hnil. subst total_count broken_count. rewrite Hnil. reflexivity.
  - intros -> ->. reflexivity.
Qed.

Lemma malfunction_percentage_triple_witness :
  exists percentage,
    get_malfunction_percentage ten_endoscopes = (percentage, 6, 10)
    /\ Qeq percentage (inject_Z 60).
Proof.
  destruct (malfunction_percentage_triple ten_endoscopes)
    as (percentage & Htriple & _ & _ & Hsixty).
  exists percentage. split; [exact Htriple |].
  apply Hsixty; reflexivity.
Defined.

Example dashboard_of_ten :
  critical_alert ten_endoscopes = true
  /\ dashboard_metrics ten_endoscopes = (10, 4, 6).
Proof. split; reflexivity. Qed.

(** ** The archive filters *)

Lemma isin_filter_spec {A B : Type} `{EqDecision B} (cell : A -> B)
    (selection : list B) (rows : list A) (r : A) :
  r ∈ isin_filter cell selection rows <-> r ∈ rows /\ selected selection (cell r).
Proof.
  unfold isin_filter, selected. destruct selection as [| v rest].
  - split; [intros Hr; split; [exact Hr | by left] | by intros [? _]].
  - rewrite list_elem_of_filter. split.
    + intros [Hsel Hr]. split; [exact Hr | by right].
    + intros [Hr [Hnil | Hsel]]; [discriminate | by split].
Qed.

Lemma from_date_filter_spec {A : Type} (cell : A -> date) (bound : option date)
    (rows : list A) (r : A) :
  r ∈ from_date_filter cell bound rows
  <-> r ∈ rows /\ forall s, bound = Some s -> date_leb s (cell r) = true.
Proof.
  unfold from_date_filter. destruct bound as [d |].
  - rewrite list_elem_of_filter. split.
    + intros [Hd Hr]. split; [exact Hr |]. by intros s [= <-].
    + intros [Hr Hd]. split; [by apply Hd | exact Hr].
  - split; [intros Hr; split; [exact Hr | discriminate] | by intros [? _]].
Qed.

Lemma to_date_filter_spec {A : Type} (cell : A -> date) (bound : option date)
    (rows : list A) (r : A) :
  r ∈ to_date_filter cell bound rows
  <-> r ∈ rows /\ forall e, bound = Some e -> date_leb (cell r) e = true.
Proof.
  unfold to_date_filter. destruct bound as [d |].
  - rewrite list_elem_of_filter. split.
    + intros [Hd Hr]. split; [exact Hr |]. by intros s [= <-].
    + intros [Hr Hd]. split; [by apply Hd | exact Hr].
  - split; [intros Hr; split; [exact Hr | discriminate] | by intros [? _]].
Qed.

Lemma filtered_steril_spec (f : ReportArchive.filters) (rows : list Report.t)
    (r : Report.t) :
  r ∈ filtered_steril f rows <-> r ∈ rows /\ report_matches f r.
Proof.
  unfold filtered_steril, report_matches, within_dates.
  rewrite to_date_filter_spec, from_date_filter_spec, !isin_filter_spec.
  tauto.
Qed.

Lemma display_inventory_spec (f : InventoryArchive.filters)
    (rows : list Endoscope.t) (e : Endoscope.t) :
  e ∈ display_inventory f rows <-> e ∈ rows /\ endoscope_matches f e.
Proof.
  unfold display_inventory, endoscope_matches. rewrite !isin_filter_spec. tauto.
Qed.

Lemma date_leb_refl (d : date) : date_leb d d = true.
Proof.
  unfold date_leb. rewrite !Z.eqb_refl, Z.leb_refl. simpl.
  by rewrite !orb_true_r.
Qed.

Lemma sort_values_elem {A : Type} (key : A -> pyval) (ascending : bool)
    (rows out : list A) (r : A) :
  sort_values key ascending rows out -> (r ∈ out <-> r ∈ rows).
Proof.
  intros [Hperm _]. split; intros Hr.
  - by rewrite Hperm.
  - by rewrite <- Hperm.
Qed.

(** C8.  A row is in the frame an archive tab displays if and only if
    it is in the table and, for each selection widget that has a value
    selected, its cell is one of the selected values, and its date is not
    before the start date and not after the end date when these are set;
    a row dated on a bound is kept.  This holds of the filtered frame and
    of every frame the sort returns for it, in the report archive and in
    the inventory history (which has no date bounds). *)
Theorem archive_row_included_iff
    (f : ReportArchive.filters) (g : InventoryArchive.filters)
    (steril_reports : list Report.t) (inventory_df : list Endoscope.t)
    (r : Report.t) (e : Endoscope.t) :
  (r ∈ filtered_steril f steril_reports
   <-> r ∈ steril_reports /\ report_matches f r)
  /\ (forall out, archive_reports f steril_reports out ->
        (r ∈ out <-> r ∈ steril_reports /\ report_matches f r))
  /\ (e ∈ display_inventory g inventory_df
      <-> e ∈ inventory_df /\ endoscope_matches g e)
  /\ (forall out, archive_inventory g inventory_df out ->
        (e ∈ out <-> e ∈ inventory_df /\ endoscope_matches g e))
  /\ within_dates (Some (Report.date_desinfection r))
       (Some (Report.date_desinfection r)) (Report.date_desinfection r).
Proof.
  split; [apply filtered_steril_spec |].
  split.
  { intros out Hout. unfold archive_reports in Hout.
    rewrite (sort_values_elem _ _ _ _ r Hout). apply filtered_steril_spec. }
  split; [apply display_inventory_spec |].
  split.
  { intros out Hout. unfold archive_inventory in Hout.
    rewrite (sort_values_elem _ _ _ _ e Hout). apply display_inventory_spec. }
  split; intros d [= <-]; apply date_leb_refl.
Qed.

Lemma sort_values_singleton {A : Type} (key : A -> pyval) (ascending : bool) (x : A) :
  sort_values key ascending [x] [x].
Proof. split; [reflexivity | repeat constructor]. Defined.

Lemma archive_row_included_iff_witness :
  archive_reports january_filters [report_1] [report_1]
  /\ (report_1 ∈ [report_1]
      <-> report_1 ∈ [report_1] /\ report_matches january_filters report_1)
  /\ archive_inventory inventory_filters [scope_e1; broken_e2] [broken_e2]
  /\ (scope_e1 ∈ [broken_e2]
      <-> scope_e1 ∈ [scope_e1; broken_e2]
          /\ endoscope_matches inventory_filters scope_e1).
Proof.
  assert (Hreports : archive_reports january_filters [report_1] [report_1])
    by apply sort_values_singleton.
  assert (Hinventory :
            archive_inventory inventory_filters [scope_e1; broken_e2] [broken_e2])
    by apply sort_values_singleton.
  destruct (archive_row_included_iff january_filters inventory_filters
              [report_1] [scope_e1; broken_e2] report_1 scope_e1)
    as (_ & Hr & _ & He & _).
  split; [exact Hreports |]. split; [exact (Hr _ Hreports) |].
  split; [exact Hinventory | exact (He _ Hinventory)].
Defined.

Example report_1_matches_january : report_matches january_filters report_1.
Proof.
  unfold report_matches, selected, within_dates. simpl.
  split; [right; apply list_elem_of_here |].
  split; [by left |].
  split; [right; apply list_elem_of_here |].
  split; intros d [= <-]; reflexivity.
Qed.

(** ** The archive sort *)

Lemma cell_leb_refl (v : pyval) : v <> VNone -> cell_leb v v = true.
Proof.
  destruct v as [| b | z | s | d]; intros Hv; simpl.
  - done.
  - by destruct b.
  - apply Z.leb_refl.
  - destruct (String.leb_total s s); assumption.
  - apply date_leb_refl.
Qed.

Lemma key_leb_refl (ascending : bool) (v : pyval) : key_leb ascending v v = true.
Proof.
  destruct v as [| b | z | s | d]; [reflexivity | | | |];
    unfold key_leb; destruct ascending; by apply cell_leb_refl.
Qed.

Lemma date_leb_total (d1 d2 : date) :
  date_leb d1 d2 = true \/ date_leb d2 d1 = true.
Proof.
  unfold date_leb.
  destruct (Z.lt_trichotomy (year d1) (year d2)) as [Hy | [Hy | Hy]].
  - left. apply Z.ltb_lt in Hy. by rewrite Hy.
  - destruct (Z.lt_trichotomy (month d1) (month d2)) as [Hm | [Hm | Hm]].
    + left. apply Z.eqb_eq in Hy. apply Z.ltb_lt in Hm.
      rewrite Hy, Hm. simpl. apply orb_true_r.
    + destruct (Z.le_ge_cases (day d1) (day d2)) as [Hd | Hd].
      * left. apply Z.eqb_eq in Hy, Hm. apply Z.leb_le in Hd.
        rewrite Hy, Hm, Hd. simpl. by rewrite !orb_true_r.
      * right. symmetry in Hy, Hm. apply Z.eqb_eq in Hy, Hm. apply Z.leb_le in Hd.
        rewrite Hy, Hm, Hd. simpl. by rewrite !orb_true_r.
    + right. symmetry in Hy. apply Z.eqb_eq in Hy. apply Z.ltb_lt in Hm.
      rewrite Hy, Hm. simpl. apply orb_true_r.
  - right. apply Z.ltb_lt in Hy. by rewrite Hy.
Qed.

Lemma cell_leb_total (a b : pyval) :
  a <> VNone -> b <> VNone -> comparable a b ->
  cell_leb a b = true \/ cell_leb b a = true.
Proof.
  destruct a as [| x | x | x | x], b as [| y | y | y | y];
    intros Ha Hb Hcomp; simpl in *; try done.
  - destruct x, y; auto.
  - destruct (Z.le_ge_cases x y) as [H | H]; apply Z.leb_le in H; auto.
  - apply String.leb_total.
  - apply date_leb_total.
Qed.

Lemma key_leb_total (ascending : bool) (a b : pyval) :
  comparable a b ->
  key_leb ascending a b = true \/ key_leb ascending b a = true.
Proof.
  intros Hcomp.
  destruct (decide (b = VNone)) as [-> | Hb]; [left; by destruct a |].
  destruct (decide (a = VNone)) as [-> | Ha]; [right; by destruct b |].
  destruct (cell_leb_total a b Ha Hb Hcomp) as [H | H];
    destruct ascending, a, b; simpl in *; try done; auto.
Qed.

Section SortValues.
Context {A : Type} (key : A -> pyval) (ascending : bool).

Let precedes (x y : A) : Prop := key_leb ascending (key x) (key y) = true.

Lemma insert_row_perm (x : A) (l : list A) :
  Permutation (x :: l) (insert_row key ascending x l).
Proof.
  induction l as [| y rest IH]; [reflexivity |].
  simpl. destruct (key_leb ascending (key y) (key x)); [| reflexivity].
  rewrite <- IH. apply perm_swap.
Qed.

Lemma insert_row_head (x y : A) (l : list A) :
  precedes y x -> HdRel precedes y l ->
  HdRel precedes y (insert_row key ascending x l).
Proof.
  intros Hyx Hhd. destruct l as [| z rest]; simpl.
  - by constructor.
  - destruct (key_leb ascending (key z) (key x)); constructor;
      [by inversion Hhd | exact Hyx].
Qed.

Lemma insert_row_sorted (x : A) (l : list A) :
  (forall y, y ∈ l -> comparable (key y) (key x)) ->
  Sorted precedes l -> Sorted precedes (insert_row key ascending x l).
Proof.
  intros Hcomp Hsorted. induction Hsorted as [| y rest Hrest IH Hhd].
  - simpl. by repeat constructor.
  - simpl. destruct (key_leb ascending (key y) (key x)) eqn:Hyx.
    + constructor.
      * apply IH. intros z Hz. apply Hcomp. by apply list_elem_of_further.
      * by apply insert_row_head.
    + constructor; [by constructor |]. constructor.
      destruct (key_leb_total ascending (key y) (key x)) as [H | H].
      * apply Hcomp. apply list_elem_of_here.
      * congruence.
      * exact H.
Qed.

Lemma insertion_sort_from (acc rows : list A) :
  (forall x y, x ∈ (acc ++ rows)%list -> y ∈ (acc ++ rows)%list -> comparable (key x) (key y)) ->
  Sorted precedes acc ->
  sort_values key ascending (acc ++ rows)%list
    (foldl (fun acc x => insert_row key ascending x acc) acc rows).
Proof.
  revert acc. induction rows as [| x rows IH]; intros acc Hcomp Hsorted.
  - rewrite app_nil_r. simpl. by split.
  - simpl.
    assert (Hins : Permutation (acc ++ x :: rows)%list
                     (insert_row key ascending x acc ++ rows)%list).
    { rewrite <- insert_row_perm. simpl. symmetry. apply Permutation_middle. }
    destruct (IH (insert_row key ascending x acc)) as [Hperm Hout].
    + intros u v Hu Hv. apply Hcomp; by rewrite Hins.
    + apply insert_row_sorted; [| exact Hsorted].
      intros y Hy. apply Hcomp; rewrite elem_of_app;
        [by left | right; apply list_elem_of_here].
    + split; [| exact Hout]. by rewrite Hins.
Qed.

(** The call has a result whenever the cells of the column compare. *)
Lemma insertion_sort_meets (rows : list A) :
  (forall x y, x ∈ rows -> y ∈ rows -> comparable (key x) (key y)) ->
  sort_values key ascending rows (insertion_sort key ascending rows).
Proof.
  intros Hcomp. apply (insertion_sort_from [] rows); [exact Hcomp | constructor].
Qed.


End SortValues.

Lemma text_cells_comparable (a b : pyval) :
  text_cell a -> text_cell b -> comparable a b.
Proof. intros [-> | [s ->]] [-> | [t ->]]; exact I. Qed.

Lemma report_cells_comparable (c : report_column) (x y : Report.t) :
  report_wf x -> report_wf y -> comparable (report_cell c x) (report_cell c y).
Proof.
  intros (Hx1 & Hx2 & Hx3) (Hy1 & Hy2 & Hy3).
  destruct c; simpl; try exact I; by apply text_cells_comparable.
Qed.

Lemma endoscope_cells_comparable (c : endoscope_column) (x y : Endoscope.t) :
  endoscope_wf x -> endoscope_wf y ->
  comparable (endoscope_cell c x) (endoscope_cell c y).
Proof.
  intros (Hx1 & Hx2) (Hy1 & Hy2).
  destruct c; simpl; try exact I; by apply text_cells_comparable.
Qed.

Lemma archive_reports_exists (f : ReportArchive.filters) (rows : list Report.t) :
  Forall report_wf rows -> exists out, archive_reports f rows out.
Proof.
  intros Hwf. rewrite Forall_forall in Hwf.
  eexists. unfold archive_reports. apply insertion_sort_meets.
  intros x y Hx Hy. apply filtered_steril_spec in Hx as [Hx _], Hy as [Hy _].
  apply report_cells_comparable; by apply Hwf.
Qed.

Lemma archive_inventory_exists (g : InventoryArchive.filters)
    (rows : list Endoscope.t) :
  Forall endoscope_wf rows -> exists out, archive_inventory g rows out.
Proof.
  intros Hwf. rewrite Forall_forall in Hwf.
  eexists. unfold archive_inventory. apply insertion_sort_meets.
  intros x y Hx Hy. apply display_inventory_spec in Hx as [Hx _], Hy as [Hy _].
  apply endoscope_cells_comparable; by apply Hwf.
Qed.

(** *** The frame taken at the positions the library's sort answers *)


















(** ** The login form and the new-report tab *)

Lemma login_submit_reachable (st : session_state) (username password : string)
    (role : pyval) :
  reachable st -> reachable (login_submit st username password role).1.
Proof.
  intros Hreach. unfold login_submit.
  destruct (negb (String.eqb username "") && negb (String.eqb password ""));
    [| exact Hreach].
  destruct (truthy role) eqn:Hrole; [| exact Hreach].
  by apply reach_login.
Qed.

(** Drawing the tab without a submission, or with one that is refused,
    leaves the store as it was, whatever the store operation is. *)
Lemma new_report_tab_refused_keeps_store
    (add_sterilisation_report : ReportArgs.t -> database -> bool * database)
    (st : session_state) (f : NewReport.form)
    (submitted : bool) (db : database) (p : page) :
  submitted = false
  \/ contains ":" (NewReport.heure_debut f) = false
  \/ contains ":" (NewReport.heure_fin f) = false
  \/ (NewReport.etat_endoscope f = "en panne" /\ NewReport.nature_panne_area f = "") ->
  new_report_tab add_sterilisation_report st f submitted db = Some p ->
  store p = db.
Proof.
  intros Hcase Htab. unfold new_report_tab in Htab.
  destruct (endoscopes db) as [| e0 rest] eqn:Hinv; [by injection Htab as <- |].
  rewrite <- Hinv in Htab. clear Hinv e0 rest.
  destruct (truthy _ && negb _); [discriminate |].
  destruct submitted.
  - destruct (new_report_submit_rejected add_sterilisation_report st f db)
      as (q & Hq & message & ->).
    { destruct Hcase as [? | [Hd | [Hf | Hpanne]]]; [discriminate | | |].
      - right. right. apply time_malformed_spec. by left.
      - right. right. apply time_malformed_spec. by right.
      - right. left. by apply panne_unspecified_spec. }
    rewrite Hq in Htab. by injection Htab as <-.
  - by injection Htab as <-.
Qed.

(** * Further properties of the handlers *)

(** ** Logging in and out *)

Lemma not_identity_key (k : string) :
  k ∉ identity_keys ->
  k <> "authenticated" /\ k <> "user_role" /\ k <> "username".
Proof.
  intros Hk. repeat split; intros ->; apply Hk; unfold identity_keys;
    repeat constructor.
Qed.

Lemma login_success_lookup (st : session_state) (username : string) (role : pyval)
    (k : string) :
  k ∉ identity_keys -> login_success st username role !! k = st !! k.
Proof.
  intros Hk. apply not_identity_key in Hk as (? & ? & ?).
  unfold login_success. by rewrite !lookup_insert_ne.
Qed.

Lemma require_role_permit_intro (st : session_state) (allowed_roles : list string)
    (r : string) :
  check_authentication st = true -> get_user_role st = VStr r ->
  r ∈ allowed_roles -> require_role allowed_roles st = Permit.
Proof.
  intros Hauth Hrole Hin. apply require_role_cases. split; [exact Hauth |].
  apply py_in_spec. eauto.
Qed.

(** A filled-in login answered with a truthy role stores an identity
    under which the gate permits exactly the lists that hold that role,
    and touches no other entry of the session. *)
Theorem login_opens_role_pages
    (st : session_state) (username password : string) (role : pyval)
    (allowed_roles : list string) :
  username <> "" -> password <> "" -> truthy role = true ->
  let st' := (login_submit st username password role).1 in
  (require_role allowed_roles st' = Permit
   <-> exists r, role = VStr r /\ r ∈ allowed_roles)
  /\ get_username st' = VStr username
  /\ (forall k, k ∉ identity_keys -> st' !! k = st !! k).
Proof.
  intros Hu Hp Hrole st'.
  destruct (login_submit_identity st username password role Hu Hp Hrole)
    as (Hauth & Hr & Hname).
  fold st' in Hauth, Hr, Hname.
  split; [| split; [exact Hname |]].
  - destruct (require_role_cases allowed_roles st') as (Hpermit & _ & _).
    rewrite Hpermit, Hr, py_in_spec. tauto.
  - intros k Hk. subst st'. unfold login_submit.
    apply String.eqb_neq in Hu, Hp. rewrite Hu, Hp, Hrole. simpl.
    by apply login_success_lookup.
Qed.

Lemma login_opens_role_pages_witness :
  require_role ["sterilisation"; "biomedical"]
    (login_submit ∅ "alice" "secret" (VStr "sterilisation")).1 = Permit
  /\ require_role ["admin"]
       (login_submit ∅ "alice" "secret" (VStr "sterilisation")).1 <> Permit.
Proof.
  split.
  - destruct (login_opens_role_pages ∅ "alice" "secret" (VStr "sterilisation")
                ["sterilisation"; "biomedical"]) as (Hpermit & _);
      [discriminate | discriminate | reflexivity |].
    apply Hpermit. exists "sterilisation". split; [reflexivity |].
    apply list_elem_of_here.
  - destruct (login_opens_role_pages ∅ "alice" "secret" (VStr "sterilisation")
                ["admin"]) as (Hpermit & _);
      [discriminate | discriminate | reflexivity |].
    intros Hp. apply Hpermit in Hp as (r & [= <-] & Hin).
    apply list_elem_of_In in Hin. simpl in Hin. destruct Hin as [Hin | []].
    discriminate.
Defined.

(** A login with an empty field, or one the store answers with a falsy
    role, leaves the session as it was; run from [main] on a session that
    is not authenticated, the next run shows the login form again
    whatever page position is asked for. *)
Theorem failed_login_stays_out
    (st : session_state) (username password : string) (role : pyval)
    (choice choice' : nat) (logout_pressed logout_pressed' : bool) :
  check_authentication st = false ->
  username = "" \/ password = "" \/ truthy role = false ->
  let r := main st (Some (username, password, role)) choice logout_pressed in
  r.1 = st
  /\ (exists message, r.2 = login_form_shown [message])
  /\ (main r.1 None choice' logout_pressed').2 = login_form_shown [].
Proof.
  intros Hauth Hfail r.
  assert (Hr : r.1 = st /\ exists message, r.2 = login_form_shown [message]).
  { subst r. unfold main, login_submit. rewrite Hauth. simpl.
    destruct Hfail as [-> | [-> | Hrole]].
    - simpl. eauto.
    - rewrite andb_false_r. eauto.
    - rewrite Hrole.
      destruct (negb (String.eqb username "") && negb (String.eqb password ""));
        eauto. }
  destruct Hr as [Hst Hshown]. split; [exact Hst |]. split; [exact Hshown |].
  rewrite Hst. unfold main. by rewrite Hauth.
Qed.

Lemma failed_login_stays_out_witness :
  (main ∅ (Some ("alice", "", VStr "admin")) 1 false).1 = ∅
  /\ (main ∅ (Some ("alice", "wrong", VNone)) 0 false).1 = ∅.
Proof.
  split.
  - destruct (failed_login_stays_out ∅ "alice" "" (VStr "admin") 1 0 false false)
      as (Hst & _); [reflexivity | right; by left | exact Hst].
  - destruct (failed_login_stays_out ∅ "alice" "wrong" VNone 0 0 false false)
      as (Hst & _); [reflexivity | right; by right | exact Hst].
Defined.

(** Logging out undoes a login: on a session that held no identity the
    session comes back as it was, and a login erases the identity left by
    an earlier one, so that logging in twice is logging in once. *)
Theorem logout_undoes_login
    (st : session_state) (username username' : string) (role role' : pyval) :
  (forall k, k ∈ identity_keys -> st !! k = None) ->
  logout (login_success st username role) = st
  /\ logout (login_success (login_success st username' role') username role) = st
  /\ login_success (logout (login_success st username' role')) username role
     = login_success st username role.
Proof.
  intros Hfresh.
  assert (Hout : forall st0 u r,
             (forall k, k ∉ identity_keys -> st0 !! k = st !! k) ->
             logout (login_success st0 u r) = st).
  { intros st0 u r Hsame. apply map_eq. intros k. rewrite logout_lookup.
    case_bool_decide as Hk; [symmetry; by apply Hfresh |].
    rewrite login_success_lookup by exact Hk. by apply Hsame. }
  split; [by apply Hout |]. split.
  - apply Hout. intros k Hk. by apply login_success_lookup.
  - by rewrite Hout.
Qed.

Lemma logout_undoes_login_witness :
  logout (login_success {["edit_mode_4" := VBool true]} "bob" (VStr "biomedical"))
  = {["edit_mode_4" := VBool true]}.
Proof.
  apply (logout_undoes_login {["edit_mode_4" := VBool true]} "bob" "bob"
           (VStr "biomedical") (VStr "biomedical")).
  intros k Hk. apply lookup_singleton_ne.
  apply list_elem_of_In in Hk. simpl in Hk.
  destruct Hk as [<- | [<- | [<- | []]]]; discriminate.
Defined.

(** After [logout] every decorated handler is refused as not connected,
    whatever roles it allows, and [main] shows the login form; pressing
    [Déconnexion] in [main] is that logout, and it runs no handler. *)
Theorem logout_closes_every_page
    (st : session_state) (allowed_roles : list string) (h : handler)
    (submission : option (string * string * pyval)) (choice choice' : nat) :
  require_role allowed_roles (logout st) = Unauthenticated
  /\ (handler_gate h (logout st) = Permit ->
      h = h_show_dashboard \/ h = h_show_archives_interface)
  /\ main (logout st) None choice' false = (logout st, login_form_shown [])
  /\ (check_authentication st = true ->
      main st submission choice true = (logout st, rerun_after_logout)).
Proof.
  assert (Hauth : check_authentication (logout st) = false)
    by (unfold check_authentication; by rewrite logout_lookup).
  assert (Hgate : forall roles, require_role roles (logout st) = Unauthenticated).
  { intros roles. by apply require_role_cases. }
  split; [apply Hgate |]. split; [| split].
  - destruct h; simpl; rewrite ?Hgate; try discriminate; auto.
  - unfold main. by rewrite Hauth.
  - intros Hin. unfold main. by rewrite Hin.
Qed.

Lemma reachable_identity_complete (st : session_state) :
  reachable st -> identity_complete st.
Proof.
  induction 1 as [| st u r _ _ Hr | st _ _ | st k v _ IH Hk | st k _ IH Hk].
  - right. by rewrite !lookup_empty.
  - left. exists r, u. unfold login_success. by simplify_map_eq.
  - right. rewrite !logout_lookup. by repeat split.
  - apply not_identity_key in Hk as (? & ? & ?).
    unfold identity_complete in *. by rewrite !lookup_insert_ne.
  - apply not_identity_key in Hk as (? & ? & ?).
    unfold identity_complete in *. by rewrite !lookup_delete_ne.
Qed.

(** On every session the program can be in, the three identity entries
    stand or fall together: the session is authenticated exactly when it
    holds a truthy role, exactly when it holds a username, and a session
    that is not authenticated holds none of the three keys. *)
Theorem identity_all_or_nothing (st : session_state) :
  reachable st ->
  (check_authentication st = true <-> truthy (get_user_role st) = true)
  /\ (check_authentication st = true <-> exists u, get_username st = VStr u)
  /\ (check_authentication st = false ->
      forall k, k ∈ identity_keys -> st !! k = None).
Proof.
  intros Hreach. apply reachable_identity_complete in Hreach.
  unfold check_authentication, get_user_role, get_username.
  destruct Hreach as [(r & u & Ha & Hr & Htruthy & Hu) | (Ha & Hr & Hu)];
    rewrite Ha, Hr, Hu; simpl.
  - split; [tauto |]. split; [split; eauto |]. discriminate.
  - split; [split; discriminate |].
    split; [split; [discriminate | intros [u' ?]; discriminate] |].
    intros _ k Hk. apply list_elem_of_In in Hk. simpl in Hk.
    destruct Hk as [<- | [<- | [<- | []]]]; assumption.
Qed.

Lemma identity_all_or_nothing_witness :
  check_authentication (logout (<["edit_mode_4" := VBool true]> admin_session))
  = false
  /\ logout (<["edit_mode_4" := VBool true]> admin_session) !! "username" = None.
Proof.
  assert (Hreach : reachable (logout (<["edit_mode_4" := VBool true]> admin_session))).
  { apply reach_logout, reach_flag_set.
    - apply reachable_session_of. discriminate.
    - intros Hk. apply list_elem_of_In in Hk. simpl in Hk.
      destruct Hk as [Hk | [Hk | [Hk | []]]]; discriminate. }
  destruct (identity_all_or_nothing _ Hreach) as (_ & Hname & Hnone).
  assert (Hauth : check_authentication
                    (logout (<["edit_mode_4" := VBool true]> admin_session)) = false).
  { apply not_true_is_false. intros Htrue. apply Hname in Htrue as [u Hu].
    unfold get_username in Hu. rewrite logout_lookup in Hu. discriminate. }
  split; [exact Hauth |].
  apply (Hnone Hauth). unfold identity_keys. repeat constructor.
Defined.

Lemma selectbox_in (options : list string) (choice : nat) :
  options <> [] -> selectbox options choice ∈ options.
Proof.
  intros Hne. unfold selectbox.
  destruct (options !! choice) as [page |] eqn:Hpage; simpl.
  - by apply list_elem_of_lookup_2 in Hpage.
  - destruct options as [| first rest]; [done |]. apply list_elem_of_here.
Qed.

Lemma menu_options_not_empty (user_role : pyval) : menu_options user_role <> [].
Proof. unfold menu_options. by repeat case_bool_decide. Qed.

Lemma menu_page_dispatch (st : session_state) (selected_page : string) :
  check_authentication st = true ->
  selected_page ∈ menu_options (get_user_role st) ->
  exists h, dispatch selected_page = Some h /\ handler_gate h st = Permit.
Proof.
  intros Hauth Hpage. unfold menu_options in Hpage.
  repeat case_bool_decide;
    apply list_elem_of_In in Hpage; simpl in Hpage;
    repeat match goal with
    | H : _ \/ _ |- _ => destruct H as [<- | H]
    | H : False |- _ => destruct H
    end;
    eexists; (split; [reflexivity |]); simpl; try reflexivity;
    eapply require_role_permit_intro; eauto; repeat constructor.
Qed.

(** For an authenticated session [main] always calls a handler, and never
    one that its decorator refuses: whatever the role and the position
    chosen in the navigation box, the page drawn is one the role may
    open.  The session is left as it was. *)
Theorem main_calls_only_permitted_handlers
    (st : session_state) (submission : option (string * string * pyval))
    (choice : nat) :
  check_authentication st = true ->
  exists h, main st submission choice false = (st, handler_called h Permit).
Proof.
  intros Hauth. unfold main. rewrite Hauth. simpl.
  destruct (menu_page_dispatch st
              (selectbox (menu_options (get_user_role st)) choice) Hauth)
    as (h & Hh & Hgate).
  { apply selectbox_in, menu_options_not_empty. }
  exists h. by rewrite Hh, Hgate.
Qed.

Lemma main_calls_only_permitted_handlers_witness :
  exists h, main sterilisation_session None 1 false
            = (sterilisation_session, handler_called h Permit).
Proof.
  apply (main_calls_only_permitted_handlers sterilisation_session None 1).
  reflexivity.
Defined.

(** [main] keeps the session among those the program can be in, whatever
    is submitted, chosen or pressed. *)
Theorem main_keeps_session_reachable
    (st : session_state) (submission : option (string * string * pyval))
    (choice : nat) (logout_pressed : bool) :
  reachable st -> reachable (main st submission choice logout_pressed).1.
Proof.
  intros Hreach. unfold main.
  destruct (check_authentication st); simpl.
  - destruct logout_pressed; [by apply reach_logout |].
    by destruct (dispatch _).
  - destruct submission as [[[u p] r] |]; [| exact Hreach].
    pose proof (login_submit_reachable st u p r Hreach) as Hlogin.
    by destruct (login_submit st u p r).
Qed.

Lemma main_keeps_session_reachable_witness :
  reachable (main ∅ (Some ("alice", "secret", VStr "sterilisation")) 0 false).1.
Proof.
  apply (main_keeps_session_reachable ∅
           (Some ("alice", "secret", VStr "sterilisation")) 0 false).
  apply reach_init.
Defined.

(** The archive page shows the tab of the inventory history exactly to
    the roles biomedical and admin.  So an admin session, which the
    decorator of the inventory page refuses, still reads the inventory in
    the archives, and a sterilisation session gets neither. *)
Theorem inventory_history_for_biomedical_and_admin (st : session_state) :
  check_authentication st = true ->
  ("Historique Inventaire" ∈ tab_titles st
   <-> get_user_role st = VStr "biomedical" \/ get_user_role st = VStr "admin")
  /\ (get_user_role st = VStr "admin" ->
      handler_gate h_show_biomedical_interface st = Forbidden ["biomedical"]
      /\ tab_titles st = ["Rapports de Stérilisation"; "Historique Inventaire"])
  /\ (get_user_role st = VStr "sterilisation" ->
      handler_gate h_show_biomedical_interface st = Forbidden ["biomedical"]
      /\ tab_titles st = ["Rapports de Stérilisation"]).
Proof.
  intros Hauth. split; [| split].
  - unfold tab_titles.
    destruct (py_in (get_user_role st) ["biomedical"; "admin"]) eqn:Hin.
    + apply py_in_spec in Hin as (r & Hr & Hin). rewrite Hr.
      apply list_elem_of_In in Hin. simpl in Hin.
      split; [intros _ | intros _; repeat constructor].
      destruct Hin as [<- | [<- | []]]; auto.
    + split.
      * intros Htab. apply list_elem_of_In in Htab. simpl in Htab.
        destruct Htab as [Htab | []]. discriminate.
      * intros [Hr | Hr]; rewrite Hr in Hin; discriminate.
  - intros Hr. unfold tab_titles. rewrite Hr. split; [| reflexivity].
    simpl. apply require_role_cases; [exact Hauth | by rewrite Hr].
  - intros Hr. unfold tab_titles. rewrite Hr. split; [| reflexivity].
    simpl. apply require_role_cases; [exact Hauth | by rewrite Hr].
Qed.

Lemma inventory_history_for_biomedical_and_admin_witness :
  handler_gate h_show_biomedical_interface admin_session = Forbidden ["biomedical"]
  /\ tab_titles admin_session
     = ["Rapports de Stérilisation"; "Historique Inventaire"].
Proof.
  destruct (inventory_history_for_biomedical_and_admin admin_session)
    as (_ & Hadmin & _); [reflexivity |].
  by apply Hadmin.
Defined.

(** ** The whole user list *)

Lemma index_of_None (x : string) (l : list string) :
  index_of x l = None <-> x ∉ l.
Proof.
  induction l as [| y rest IH]; simpl.
  - split; [intros _ Hx; by apply elem_of_nil in Hx | done].
  - rewrite not_elem_of_cons. destruct (String.eqb y x) eqn:Hyx.
    + apply String.eqb_eq in Hyx. split; [discriminate | intros [? _]; congruence].
    + apply String.eqb_neq in Hyx. rewrite fmap_None, IH.
      split; [intros ?; split; [congruence | done] | by intros [_ ?]].
Qed.

Lemma after_no_messages (r : run) : after_messages [] r = r.
Proof. by destruct r as [[? ?] | ? [? ?]]. Qed.

Lemma after_messages_raised (messages : list ui) (r : run) (e : string) :
  (exists p, after_messages messages r = raised e p) <-> exists p, r = raised e p.
Proof.
  destruct r as [p | e' p]; simpl.
  - split; intros [q Hq]; discriminate.
  - split; intros [q [= -> _]]; eauto.
Qed.

Section UserList.
Context (update_user_role update_user_password :
           Z -> string -> database -> bool * database).

Abbreviation user_list' := (user_list update_user_role update_user_password).

(** A row whose role box can be drawn and whose [Modifier] button is not
    the one pressed: only its delete column acts. *)
Lemma user_list_row_no_edit (user : User.t) (rest : list User.t)
    (widgets : Z -> UserRow.widgets) (pressed : option user_button)
    (db : database) :
  User.role user ∈ role_options ->
  pressed <> Some (edit_user (User.id user)) ->
  user_list' (user :: rest) widgets pressed db
  = if negb (String.eqb (User.username user) "admin") then
      if bool_decide (pressed = Some (delete_user_pressed (User.id user))) then
        if (delete_user (User.id user) db).1 then
          finished (mkpage [Success ("Utilisateur " ++ User.username user
                                     ++ " supprimé avec succès!")]
                           (delete_user (User.id user) db).2)
        else
          after_messages
            [Error ("Erreur lors de la suppression de " ++ User.username user)]
            (user_list' rest widgets pressed (delete_user (User.id user) db).2)
      else user_list' rest widgets pressed db
    else after_messages [Info "Admin protégé"] (user_list' rest widgets pressed db).
Proof.
  intros Hvalid Hpressed. cbn [user_list].
  destruct (index_of (User.role user) role_options) eqn:Hindex.
  2: { apply index_of_None in Hindex. by destruct Hindex. }
  rewrite bool_decide_eq_false_2 by exact Hpressed.
  cbv iota beta. rewrite after_no_messages.
  by destruct (delete_user (User.id user) db).
Qed.

Lemma user_list_row_invalid (user : User.t) (rest : list User.t)
    (widgets : Z -> UserRow.widgets) (pressed : option user_button)
    (db : database) :
  User.role user ∉ role_options ->
  user_list' (user :: rest) widgets pressed db = raised "ValueError" (mkpage [] db).
Proof.
  intros Hbad. apply index_of_None in Hbad. cbn [user_list]. by rewrite Hbad.
Qed.

Lemma user_list_no_button_store (rows : list User.t) (widgets : Z -> UserRow.widgets)
    (db : database) :
  exists p, store p = db
            /\ (user_list' rows widgets None db = finished p
                \/ user_list' rows widgets None db = raised "ValueError" p).
Proof.
  induction rows as [| user rest IH].
  - exists (mkpage [] db). split; [reflexivity | by left].
  - destruct (decide (User.role user ∈ role_options)) as [Hvalid | Hbad].
    + rewrite user_list_row_no_edit by done.
      rewrite bool_decide_eq_false_2 by discriminate.
      destruct IH as (p & Hp & [-> | ->]);
        destruct (negb (String.eqb (User.username user) "admin")); simpl;
        eexists; (split; [| (left; reflexivity) || (right; reflexivity)]);
        simpl; exact Hp.
    + rewrite user_list_row_invalid by done.
      exists (mkpage [] db). split; [reflexivity | by right].
Qed.

Lemma user_list_no_button_raises (rows : list User.t)
    (widgets : Z -> UserRow.widgets) (db : database) :
  (exists p, user_list' rows widgets None db = raised "ValueError" p)
  <-> exists u, u ∈ rows /\ User.role u ∉ role_options.
Proof.
  induction rows as [| user rest IH].
  - split; [intros [p Hp]; discriminate |].
    intros (u & Hu & _). by apply elem_of_nil in Hu.
  - destruct (decide (User.role user ∈ role_options)) as [Hvalid | Hbad].
    + rewrite user_list_row_no_edit by done.
      rewrite bool_decide_eq_false_2 by discriminate.
      assert (Hrest : (exists p, user_list' rest widgets None db
                                 = raised "ValueError" p)
                      <-> exists u, u ∈ user :: rest /\ User.role u ∉ role_options).
      { rewrite IH. split.
        - intros (u & Hu & Hu'). exists u.
          split; [by apply list_elem_of_further | done].
        - intros (u & Hu & Hu'). apply elem_of_cons in Hu as [-> | Hu]; [done |].
          eauto. }
      destruct (negb (String.eqb (User.username user) "admin")); [exact Hrest |].
      by rewrite after_messages_raised.
    + rewrite user_list_row_invalid by done. split; [| eauto].
      intros _. exists user. split; [apply list_elem_of_here | exact Hbad].
Qed.

Lemma user_list_finishes (rows : list User.t) (widgets : Z -> UserRow.widgets)
    (pressed : option user_button) (db : database) :
  (forall u, u ∈ rows -> User.role u ∈ role_options) ->
  exists p, user_list' rows widgets pressed db = finished p.
Proof.
  revert db. induction rows as [| user rest IH]; intros db Hvalid;
    [by exists (mkpage [] db) |].
  assert (Hrest : forall u, u ∈ rest -> User.role u ∈ role_options).
  { intros u Hu. apply Hvalid. by apply list_elem_of_further. }
  assert (Huser : User.role user ∈ role_options)
    by apply Hvalid, list_elem_of_here.
  cbn [user_list].
  destruct (index_of (User.role user) role_options) eqn:Hindex.
  2: { apply index_of_None in Hindex. by destruct Hindex. }
  destruct (if bool_decide (pressed = Some (edit_user (User.id user))) then _ else _)
    as [[shown_edit db_edit] rerun_edit].
  destruct rerun_edit; [eauto |].
  destruct (negb (String.eqb (User.username user) "admin")).
  - case_bool_decide.
    + destruct (delete_user (User.id user) db_edit) as [[|] db'].
      * simpl. eauto.
      * destruct (IH db' Hrest) as [p ->]. simpl. eauto.
    + destruct (IH db_edit Hrest) as [p ->]. simpl. eauto.
  - destruct (IH db_edit Hrest) as [p ->]. simpl. eauto.
Qed.
End UserList.

(** The user list raises [ValueError] as soon as it reaches a user whose
    stored role is not one of the three roles of its role box: with no
    button pressed the run raises exactly when such a user is listed, and
    the store is as it was either way; when every listed role is one of
    the three, the run reaches its end whatever is pressed. *)
Theorem user_list_raises_on_unknown_role
    (update_user_role update_user_password :
       Z -> string -> database -> bool * database)
    (rows : list User.t) (widgets : Z -> UserRow.widgets)
    (pressed : option user_button) (db : database) :
  ((exists p, user_list update_user_role update_user_password rows widgets None db
              = raised "ValueError" p)
   <-> exists u, u ∈ rows /\ User.role u ∉ role_options)
  /\ (exists p, store p = db
                /\ (user_list update_user_role update_user_password rows widgets
                      None db = finished p
                    \/ user_list update_user_role update_user_password rows
                         widgets None db = raised "ValueError" p))
  /\ ((forall u, u ∈ rows -> User.role u ∈ role_options) ->
      exists p, user_list update_user_role update_user_password rows widgets
                  pressed db = finished p).
Proof.
  split; [apply user_list_no_button_raises |].
  split; [apply user_list_no_button_store | apply user_list_finishes].
Qed.

Lemma user_list_raises_on_unknown_role_witness :
  exists p,
    user_list (fun _ _ db => (true, db)) (fun _ _ db => (true, db))
      [user_admin; User.mk 4 "eve" "h4" "visiteur"; user_bob]
      (fun _ => UserRow.mk "admin" "") None sample_db
    = raised "ValueError" p.
Proof.
  apply (user_list_raises_on_unknown_role
           (fun _ _ db => (true, db)) (fun _ _ db => (true, db))
           [user_admin; User.mk 4 "eve" "h4" "visiteur"; user_bob]
           (fun _ => UserRow.mk "admin" "") None sample_db).
  exists (User.mk 4 "eve" "h4" "visiteur"). split.
  - apply list_elem_of_further, list_elem_of_here.
  - intros Hin. apply list_elem_of_In in Hin. simpl in Hin.
    destruct Hin as [Hin | [Hin | [Hin | []]]]; discriminate.
Defined.

Section UserListEdits.
Context (update_user_role update_user_password :
           Z -> string -> database -> bool * database).

Abbreviation user_list'' := (user_list update_user_role update_user_password).

Lemma user_list_delete_column_eq (rows : list User.t)
    (widgets : Z -> UserRow.widgets) (pressed : option user_button)
    (db : database) :
  (forall u, u ∈ rows -> User.role u ∈ role_options) ->
  (forall user_id, pressed <> Some (edit_user user_id)) ->
  user_list'' rows widgets pressed db
  = finished (user_rows rows (delete_of pressed) db).
Proof.
  intros Hvalid Hpressed. revert db.
  induction rows as [| user rest IH]; intros db; [reflexivity |].
  assert (Hrest : forall u, u ∈ rest -> User.role u ∈ role_options).
  { intros u Hu. apply Hvalid. by apply list_elem_of_further. }
  rewrite user_list_row_no_edit
    by (try apply Hvalid, list_elem_of_here; apply Hpressed).
  cbn [user_rows].
  assert (Hsame : bool_decide (pressed = Some (delete_user_pressed (User.id user)))
                  = bool_decide (delete_of pressed = Some (User.id user))).
  { apply bool_decide_ext. destruct pressed as [[i | i] |]; simpl;
      split; intros H; try discriminate; congruence. }
  rewrite Hsame. clear Hsame. specialize (IH Hrest).
  destruct (negb (String.eqb (User.username user) "admin")).
  - destruct (bool_decide (delete_of pressed = Some (User.id user)));
      [| by apply IH].
    destruct (delete_user (User.id user) db) as [[|] db']; simpl; [reflexivity |].
    by rewrite IH.
  - by rewrite IH.
Qed.

Lemma edit_user_column_untouched (user : User.t) (w : UserRow.widgets)
    (db : database) :
  UserRow.new_role w = User.role user -> UserRow.new_password w = "" ->
  edit_user_column update_user_role update_user_password user w db
  = ([Warning "Aucune modification effectuée"], db, false).
Proof.
  intros Hrole Hpwd. unfold edit_user_column.
  by rewrite Hrole, Hpwd, String.eqb_refl.
Qed.

Lemma user_list_idle_edit (rows : list User.t) (widgets : Z -> UserRow.widgets)
    (user_id : Z) (db : database) :
  (forall u, u ∈ rows -> User.role u ∈ role_options) ->
  (forall u, u ∈ rows -> User.id u = user_id ->
     UserRow.new_role (widgets user_id) = User.role u
     /\ UserRow.new_password (widgets user_id) = "") ->
  exists p,
    user_list'' rows widgets (Some (edit_user user_id)) db = finished p
    /\ store p = db
    /\ (user_id ∈ map User.id rows ->
        Warning "Aucune modification effectuée" ∈ shown p)
    /\ (forall text, Success text ∉ shown p).
Proof.
  intros Hvalid Hidle.
  induction rows as [| user rest IH].
  - exists (mkpage [] db). split; [reflexivity |]. split; [reflexivity |].
    split; [intros Hin; by apply elem_of_nil in Hin |].
    intros text Hin. by apply elem_of_nil in Hin.
  - destruct IH as (p & Hp & Hstore & Hwarn & Hnone).
    { intros u Hu. apply Hvalid. by apply list_elem_of_further. }
    { intros u Hu. apply Hidle. by apply list_elem_of_further. }
    assert (Huser : User.role user ∈ role_options)
      by apply Hvalid, list_elem_of_here.
    cbn [user_list].
    destruct (index_of (User.role user) role_options) eqn:Hindex.
    2: { apply index_of_None in Hindex. by destruct Hindex. }
    rewrite (bool_decide_eq_false_2
               (Some (edit_user user_id) = Some (delete_user_pressed (User.id user))))
      by discriminate.
    assert (Hclean : forall text messages,
               (forall m, m ∈ messages ->
                          m = Warning "Aucune modification effectuée"
                          \/ m = Info "Admin protégé") ->
               Success text ∉ (messages ++ shown p)%list).
    { intros text messages Hm Hin. apply elem_of_app in Hin as [Hin | Hin].
      - destruct (Hm _ Hin); discriminate.
      - by apply (Hnone text). }
    case_bool_decide as Hpressed.
    + injection Hpressed as Hid.
      destruct (Hidle user (list_elem_of_here _ _) (eq_sym Hid)) as [Hrole Hpwd].
      rewrite <- Hid.
      rewrite edit_user_column_untouched by done. cbv iota beta.
      rewrite Hp.
      destruct (negb (String.eqb (User.username user) "admin")); simpl.
      * eexists. split; [reflexivity |]. simpl. split; [exact Hstore |].
        split; [intros _; apply list_elem_of_here |].
        intros text. apply (Hclean text [_]).
        intros m Hm. apply list_elem_of_singleton in Hm. by left.
      * eexists. split; [reflexivity |]. simpl. split; [exact Hstore |].
        split; [intros _; apply list_elem_of_here |].
        intros text. apply (Hclean text [_; _]).
        intros m Hm. apply elem_of_cons in Hm as [-> | Hm]; [by left |].
        apply list_elem_of_singleton in Hm. by right.
    + cbv iota beta. rewrite after_no_messages, Hp.
      assert (Hin_rest : user_id ∈ map User.id (user :: rest) ->
                         user_id ∈ map User.id rest).
      { simpl. intros Hin. apply elem_of_cons in Hin as [-> | Hin]; [done | done]. }
      destruct (negb (String.eqb (User.username user) "admin")); simpl.
      * exists p. split; [reflexivity |]. split; [exact Hstore |].
        split; [intros Hin; by apply Hwarn, Hin_rest | exact Hnone].
      * eexists. split; [reflexivity |]. simpl. split; [exact Hstore |].
        split; [intros Hin; apply list_elem_of_further; by apply Hwarn, Hin_rest |].
        intros text. apply (Hclean text [_]).
        intros m Hm. apply list_elem_of_singleton in Hm. by right.
Qed.

Lemma user_list_role_change (rows : list User.t) (widgets : Z -> UserRow.widgets)
    (user : User.t) (db db' : database) :
  (forall u, u ∈ rows -> User.role u ∈ role_options) ->
  (forall u, u ∈ rows -> User.id u = User.id user -> u = user) ->
  user ∈ rows ->
  UserRow.new_role (widgets (User.id user)) <> User.role user ->
  UserRow.new_password (widgets (User.id user)) = "" ->
  update_user_role (User.id user) (UserRow.new_role (widgets (User.id user))) db
  = (true, db') ->
  exists notices,
    user_list'' rows widgets (Some (edit_user (User.id user))) db
    = finished (mkpage (notices
                        ++ [Success ("Rôle modifié pour " ++ User.username user)])
                       db')
    /\ forall m, m ∈ notices -> m = Info "Admin protégé".
Proof.
  intros Hvalid Huniq Huser Hrole Hpwd Hupdate.
  induction rows as [| v rest IH]; [by apply elem_of_nil in Huser |].
  assert (Hv : User.role v ∈ role_options) by apply Hvalid, list_elem_of_here.
  destruct (decide (v = user)) as [-> | Hne].
  - exists []. split; [| intros m Hm; by apply elem_of_nil in Hm].
    cbn [user_list].
    destruct (index_of (User.role user) role_options) eqn:Hindex.
    2: { apply index_of_None in Hindex. by destruct Hindex. }
    rewrite bool_decide_eq_true_2 by reflexivity.
    unfold edit_user_column. apply String.eqb_neq in Hrole.
    by rewrite Hrole, Hupdate, Hpwd.
  - apply elem_of_cons in Huser as [-> | Huser]; [done |].
    destruct IH as (notices & Hrun & Hnotices); [| | exact Huser |].
    { intros u Hu. apply Hvalid. by apply list_elem_of_further. }
    { intros u Hu. apply Huniq. by apply list_elem_of_further. }
    rewrite user_list_row_no_edit; [| exact Hv |].
    2: { intros [= Hid]. apply Hne. apply Huniq; [apply list_elem_of_here | done]. }
    rewrite bool_decide_eq_false_2 by discriminate. rewrite Hrun.
    destruct (negb (String.eqb (User.username v) "admin")); simpl.
    + exists notices. by split.
    + exists (Info "Admin protégé" :: notices). split; [reflexivity |].
      intros m Hm. apply elem_of_cons in Hm as [-> | Hm]; [reflexivity |].
      by apply Hnotices.
Qed.
End UserListEdits.

(** When every listed role is one of the three and the pressed button is
    no [Modifier] button, the whole user list does what its delete column
    does: the run ends with the messages and the store of [user_rows] for
    the pressed delete button, whatever the widgets hold and whatever the
    two update operations are. *)
Theorem user_list_acts_as_delete_column
    (update_user_role update_user_password :
       Z -> string -> database -> bool * database)
    (rows : list User.t) (widgets : Z -> UserRow.widgets)
    (pressed : option user_button) (db : database) :
  (forall u, u ∈ rows -> User.role u ∈ role_options) ->
  (forall user_id, pressed <> Some (edit_user user_id)) ->
  user_list update_user_role update_user_password rows widgets pressed db
  = finished (user_rows rows (delete_of pressed) db).
Proof. apply user_list_delete_column_eq. Qed.

Lemma sample_roles_valid (u : User.t) :
  u ∈ users sample_db -> User.role u ∈ role_options.
Proof.
  intros Hu. apply list_elem_of_In in Hu. simpl in Hu.
  destruct Hu as [<- | [<- | [<- | []]]]; unfold role_options; simpl;
    repeat constructor.
Defined.

Lemma user_list_acts_as_delete_column_witness :
  user_list (fun _ _ db => (false, db)) (fun _ _ db => (false, db))
    (users sample_db) (fun _ => UserRow.mk "admin" "x")
    (Some (delete_user_pressed 2)) sample_db
  = finished (user_rows (users sample_db) (Some 2) sample_db).
Proof.
  apply (user_list_acts_as_delete_column
           (fun _ _ db => (false, db)) (fun _ _ db => (false, db))
           (users sample_db) (fun _ => UserRow.mk "admin" "x")
           (Some (delete_user_pressed 2)) sample_db).
  - apply sample_roles_valid.
  - discriminate.
Defined.

(** Pressing [Modifier] on a row whose role box and password field were
    left alone changes nothing: the store is as it was whatever the two
    update operations would do, no success is reported, and the row
    answers with the warning that nothing was modified. *)
Theorem idle_edit_changes_nothing
    (update_user_role update_user_password :
       Z -> string -> database -> bool * database)
    (rows : list User.t) (widgets : Z -> UserRow.widgets)
    (user_id : Z) (db : database) :
  (forall u, u ∈ rows -> User.role u ∈ role_options) ->
  (forall u, u ∈ rows -> User.id u = user_id ->
     UserRow.new_role (widgets user_id) = User.role u
     /\ UserRow.new_password (widgets user_id) = "") ->
  exists p,
    user_list update_user_role update_user_password rows widgets
      (Some (edit_user user_id)) db = finished p
    /\ store p = db
    /\ (user_id ∈ map User.id rows ->
        Warning "Aucune modification effectuée" ∈ shown p)
    /\ (forall text, Success text ∉ shown p).
Proof. apply user_list_idle_edit. Qed.

Lemma idle_edit_changes_nothing_witness :
  exists p,
    user_list (fun _ _ _ => (true, mkdb [] [] [])) (fun _ _ _ => (true, mkdb [] [] []))
      (users sample_db) (fun _ => UserRow.mk "biomedical" "") (Some (edit_user 2))
      sample_db
    = finished p
    /\ store p = sample_db.
Proof.
  destruct (idle_edit_changes_nothing
              (fun _ _ _ => (true, mkdb [] [] [])) (fun _ _ _ => (true, mkdb [] [] []))
              (users sample_db) (fun _ => UserRow.mk "biomedical" "") 2 sample_db)
    as (p & Hp & Hstore & _).
  - apply sample_roles_valid.
  - intros u Hu Hid. apply list_elem_of_In in Hu. simpl in Hu.
    destruct Hu as [<- | [<- | [<- | []]]]; try discriminate. by split.
  - exists p. by split.
Defined.

(** Changing only the role of a listed user and pressing its [Modifier]
    button applies the role update for that user and nothing else: the
    run ends there with the store the update returned and the success
    message for the role, after the notices of the protected rows listed
    before; the password update plays no part. *)
Theorem role_change_updates_role_only
    (update_user_role update_user_password :
       Z -> string -> database -> bool * database)
    (rows : list User.t) (widgets : Z -> UserRow.widgets)
    (user : User.t) (db db' : database) :
  (forall u, u ∈ rows -> User.role u ∈ role_options) ->
  (forall u, u ∈ rows -> User.id u = User.id user -> u = user) ->
  user ∈ rows ->
  UserRow.new_role (widgets (User.id user)) <> User.role user ->
  UserRow.new_password (widgets (User.id user)) = "" ->
  update_user_role (User.id user) (UserRow.new_role (widgets (User.id user))) db
  = (true, db') ->
  exists notices,
    user_list update_user_role update_user_password rows widgets
      (Some (edit_user (User.id user))) db
    = finished (mkpage (notices
                        ++ [Success ("Rôle modifié pour " ++ User.username user)])
                       db')
    /\ forall m, m ∈ notices -> m = Info "Admin protégé".
Proof. apply user_list_role_change. Qed.

Lemma sample_bob_unique (u : User.t) :
  u ∈ users sample_db -> User.id u = User.id user_bob -> u = user_bob.
Proof.
  intros Hu Hid. apply list_elem_of_In in Hu. simpl in Hu.
  destruct Hu as [<- | [<- | [<- | []]]]; try reflexivity; discriminate.
Defined.

Lemma role_change_updates_role_only_witness :
  exists notices,
    user_list (fun _ _ db => (true, db)) (fun _ _ _ => (false, mkdb [] [] []))
      (users sample_db) (fun _ => UserRow.mk "admin" "")
      (Some (edit_user 2)) sample_db
    = finished (mkpage (notices ++ [Success "Rôle modifié pour bob"]) sample_db)
    /\ forall m, m ∈ notices -> m = Info "Admin protégé".
Proof.
  apply (role_change_updates_role_only
           (fun _ _ db => (true, db)) (fun _ _ _ => (false, mkdb [] [] []))
           (users sample_db) (fun _ => UserRow.mk "admin" "")
           user_bob sample_db sample_db).
  - apply sample_roles_valid.
  - apply sample_bob_unique.
  - apply list_elem_of_further, list_elem_of_here.
  - discriminate.
  - reflexivity.
  - reflexivity.
Defined.

(** ** Deleting a user *)

Lemma run_page_after_messages (messages : list ui) (r : run) :
  store (run_page (after_messages messages r)) = store (run_page r).
Proof. by destruct r. Qed.

Section AdminPage.
Context (update_user_role update_user_password :
           Z -> string -> database -> bool * database).

Abbreviation listed := (user_list update_user_role update_user_password).

(** A row stays in the table through the whole list when no row that has
    a delete button carries its id, whether the run ends or raises. *)
Lemma user_list_keeps (rows : list User.t) (widgets : Z -> UserRow.widgets)
    (pressed : option user_button) (db : database) (u : User.t) :
  (forall user_id, pressed <> Some (edit_user user_id)) ->
  u ∈ users db ->
  (forall v, v ∈ rows -> User.username v <> "admin" -> User.id v <> User.id u) ->
  u ∈ users (store (run_page (listed rows widgets pressed db))).
Proof.
  intros Hpressed. revert db.
  induction rows as [| v rest IH]; intros db Hu Hrows; [exact Hu |].
  assert (Hrest : forall w, w ∈ rest -> User.username w <> "admin" ->
                            User.id w <> User.id u).
  { intros w Hw. apply Hrows. by apply list_elem_of_further. }
  destruct (decide (User.role v ∈ role_options)) as [Hv | Hv].
  2: { by rewrite user_list_row_invalid. }
  rewrite user_list_row_no_edit by done.
  destruct (String.eqb (User.username v) "admin") eqn:Hname; cbn [negb].
  - rewrite run_page_after_messages. by apply IH.
  - apply String.eqb_neq in Hname.
    case_bool_decide as Hpress; [| by apply IH].
    assert (Hkeep : u ∈ users (delete_user (User.id v) db).2).
    { apply delete_user_keeps; [exact Hu |].
      intros Heq. eapply Hrows; [apply list_elem_of_here | exact Hname | done]. }
    destruct (delete_user (User.id v) db) as [[|] db']; simpl in Hkeep |- *;
      [exact Hkeep |].
    rewrite run_page_after_messages. by apply IH.
Qed.

(** A press that is the delete button of no drawn row leaves the store
    as it was, whether the run ends or raises. *)
Lemma user_list_no_button (rows : list User.t) (widgets : Z -> UserRow.widgets)
    (user_id : Z) (db : database) :
  (forall v, v ∈ rows -> User.username v <> "admin" -> User.id v <> user_id) ->
  store (run_page (listed rows widgets (Some (delete_user_pressed user_id)) db)) = db.
Proof.
  induction rows as [| v rest IH]; intros Hrows; [reflexivity |].
  assert (Hrest : forall w, w ∈ rest -> User.username w <> "admin" ->
                            User.id w <> user_id).
  { intros w Hw. apply Hrows. by apply list_elem_of_further. }
  destruct (decide (User.role v ∈ role_options)) as [Hv | Hv].
  2: { by rewrite user_list_row_invalid. }
  rewrite user_list_row_no_edit by done.
  destruct (String.eqb (User.username v) "admin") eqn:Hname; cbn [negb].
  - rewrite run_page_after_messages. by apply IH.
  - apply String.eqb_neq in Hname.
    rewrite bool_decide_eq_false_2; [by apply IH |].
    intros [= Heq]. by apply (Hrows v); [apply list_elem_of_here | |].
Qed.

(** The list with nothing pressed, every role box drawn: the store is
    untouched and the notices are those of the protected rows. *)
Lemma user_list_idle (rows : list User.t) (widgets : Z -> UserRow.widgets)
    (db : database) :
  (forall v, v ∈ rows -> User.role v ∈ role_options) ->
  exists notices,
    listed rows widgets None db = finished (mkpage notices db)
    /\ (forall v, v ∈ rows -> User.username v = "admin" ->
                  Info "Admin protégé" ∈ notices)
    /\ forall m, m ∈ notices -> m = Info "Admin protégé".
Proof.
  induction rows as [| v rest IH]; intros Hvalid.
  - exists []. split; [reflexivity |].
    split; intros ? H; by apply elem_of_nil in H.
  - destruct IH as (notices & Hrun & Hshown & Honly).
    { intros w Hw. apply Hvalid. by apply list_elem_of_further. }
    rewrite user_list_row_no_edit
      by (try apply Hvalid, list_elem_of_here; discriminate).
    destruct (String.eqb (User.username v) "admin") eqn:Hname; cbn [negb].
    + exists (Info "Admin protégé" :: notices). rewrite Hrun.
      split; [reflexivity |]. split.
      * intros w Hw Hadmin. apply elem_of_cons in Hw as [-> | Hw];
          [apply list_elem_of_here | apply list_elem_of_further; by apply (Hshown w)].
      * intros m Hm. apply elem_of_cons in Hm as [-> | Hm]; [done | by apply Honly].
    + apply String.eqb_neq in Hname.
      rewrite bool_decide_eq_false_2 by discriminate.
      exists notices. split; [exact Hrun |]. split; [| exact Honly].
      intros w Hw Hadmin. apply elem_of_cons in Hw as [-> | Hw]; [done |].
      by apply (Hshown w).
Qed.

(** Pressing the delete button of a row that the run reaches: the row's
    deletion is asked of the store, and when the store grants it the run
    ends there with the success message, after the notices of the
    protected rows listed before it. *)
Lemma user_list_deletes (before after : list User.t) (u : User.t)
    (widgets : Z -> UserRow.widgets) (db : database) :
  (forall v, v ∈ before -> User.role v ∈ role_options) ->
  User.role u ∈ role_options -> User.username u <> "admin" ->
  (forall v, v ∈ before -> User.id v <> User.id u) ->
  (delete_user (User.id u) db).1 = true ->
  exists notices,
    listed (before ++ u :: after)%list widgets
      (Some (delete_user_pressed (User.id u))) db
    = finished
        (mkpage (notices ++ [Success ("Utilisateur " ++ User.username u
                                      ++ " supprimé avec succès!")])%list
                (delete_user (User.id u) db).2)
    /\ forall m, m ∈ notices -> m = Info "Admin protégé".
Proof.
  intros Hbefore Hrole Hname Hids Hdel.
  induction before as [| v before IH].
  - exists []. split; [| intros ? H; by apply elem_of_nil in H].
    cbn [app]. rewrite user_list_row_no_edit by (done || discriminate).
    apply String.eqb_neq in Hname. rewrite Hname. cbn [negb].
    rewrite bool_decide_eq_true_2 by reflexivity. by rewrite Hdel.
  - destruct IH as (notices & Hrun & Honly).
    { intros w Hw. apply Hbefore. by apply list_elem_of_further. }
    { intros w Hw. apply Hids. by apply list_elem_of_further. }
    cbn [app]. rewrite user_list_row_no_edit
      by (try apply Hbefore, list_elem_of_here; discriminate).
    destruct (String.eqb (User.username v) "admin"); cbn [negb].
    + exists (Info "Admin protégé" :: notices). rewrite Hrun.
      split; [reflexivity |].
      intros m Hm. apply elem_of_cons in Hm as [-> | Hm]; [done | by apply Honly].
    + rewrite bool_decide_eq_false_2.
      * exists notices. by split.
      * intros [= Heq]. symmetry in Heq. revert Heq.
        apply Hids, list_elem_of_here.
Qed.

Lemma show_admin_interface_refused (st : session_state)
    (widgets : Z -> UserRow.widgets) (pressed : option user_button)
    (db : database) (message : string) :
  require_role ["admin"] st = Deny message ->
  show_admin_interface update_user_role update_user_password st widgets pressed db
  = finished (mkpage [Error message] db).
Proof. intros Hgate. unfold show_admin_interface. by rewrite Hgate. Qed.

Lemma show_admin_interface_permitted (st : session_state)
    (widgets : Z -> UserRow.widgets) (pressed : option user_button)
    (db : database) :
  require_role ["admin"] st = Permit -> users db <> [] ->
  show_admin_interface update_user_role update_user_password st widgets pressed db
  = listed (users db) widgets pressed db.
Proof.
  intros Hgate Hne. unfold show_admin_interface, get_all_users. rewrite Hgate.
  by destruct (users db).
Qed.

End AdminPage.

Lemma ids_before_differ (before after : list User.t) (u v : User.t) :
  NoDup (map User.id (before ++ u :: after)) -> v ∈ before ->
  User.id v <> User.id u.
Proof.
  rewrite map_app. simpl. intros Hnd Hv Heq.
  apply NoDup_app in Hnd as (_ & Hdisjoint & _).
  apply (Hdisjoint (User.id v)).
  - apply list_elem_of_In, in_map. by apply list_elem_of_In.
  - rewrite Heq. apply list_elem_of_here.
Qed.

(** C3, on the page as the code runs it.  With ids that identify the
    rows and a press that is not a [Modifier] button: for the user named
    admin, the store refuses the deletion and is left as it was; the
    record is still in the table after the run, whatever the caller's
    session and whichever delete button is pressed, whether the run ends
    or raises; a press aimed at the admin's id finds no button and the
    store is untouched; and a caller the gate admits, on a table whose
    role boxes can all be drawn, sees the protected notice and nothing
    else.  For any other user whose delete button the page draws, a
    caller the gate admits who presses it ends the run with that user,
    and that user only, removed and the success message shown; that
    button is drawn for every user not named admin when the roles in the
    table are among the three.  A caller the gate refuses gets the
    refusal and the table is left as it was. *)
Theorem admin_user_protected_from_deletion
    (update_user_role update_user_password :
       Z -> string -> database -> bool * database)
    (st : session_state) (widgets : Z -> UserRow.widgets)
    (pressed : option user_button) (db : database) (u : User.t) :
  NoDup (map User.id (users db)) -> u ∈ users db ->
  (forall user_id, pressed <> Some (edit_user user_id)) ->
  (User.username u = "admin" ->
   delete_user (User.id u) db = (false, db)
   /\ u ∈ users (store (run_page
                          (show_admin_interface update_user_role
                             update_user_password st widgets pressed db)))
   /\ store (run_page
               (show_admin_interface update_user_role update_user_password
                  st widgets (Some (delete_user_pressed (User.id u))) db)) = db
   /\ (require_role ["admin"] st = Permit ->
       (forall v, v ∈ users db -> User.role v ∈ role_options) ->
       exists notices,
         show_admin_interface update_user_role update_user_password
           st widgets None db = finished (mkpage notices db)
         /\ Info "Admin protégé" ∈ notices
         /\ forall m, m ∈ notices -> m = Info "Admin protégé"))
  /\ (delete_button_drawn (users db) u ->
      require_role ["admin"] st = Permit ->
      exists notices,
        show_admin_interface update_user_role update_user_password
          st widgets (Some (delete_user_pressed (User.id u))) db
        = finished
            (mkpage (notices ++ [Success ("Utilisateur " ++ User.username u
                                          ++ " supprimé avec succès!")])%list
                    (mkdb (filter (fun v => User.id v ≠ User.id u) (users db))
                          (endoscopes db) (sterilisation_reports db)))
        /\ (forall m, m ∈ notices -> m = Info "Admin protégé")
        /\ (u ∉ filter (fun v => User.id v ≠ User.id u) (users db))
        /\ forall v, v ∈ users db -> v <> u ->
                     v ∈ filter (fun v => User.id v ≠ User.id u) (users db))
  /\ ((forall v, v ∈ users db -> User.role v ∈ role_options) ->
      User.username u <> "admin" -> delete_button_drawn (users db) u)
  /\ (forall message, require_role ["admin"] st = Deny message ->
      show_admin_interface update_user_role update_user_password
        st widgets pressed db = finished (mkpage [Error message] db)).
Proof.
  intros Hnd Hu Hpressed.
  assert (Hne : users db <> [])
    by (intros Hnil; rewrite Hnil in Hu; by apply elem_of_nil in Hu).
  split; [| split; [| split]].
  - intros Hadmin.
    assert (Hothers : forall v, v ∈ users db -> User.username v <> "admin" ->
                                User.id v <> User.id u).
    { intros v Hv Hname Hid. apply Hname.
      by rewrite (same_id_same_row User.id (users db) v u Hnd Hv Hu Hid). }
    split; [by apply delete_user_protected |].
    split; [| split].
    + destruct (require_role ["admin"] st) as [| message] eqn:Hgate.
      * rewrite show_admin_interface_permitted by done.
        by apply user_list_keeps.
      * by rewrite (show_admin_interface_refused _ _ st widgets pressed db message).
    + destruct (require_role ["admin"] st) as [| message] eqn:Hgate.
      * rewrite show_admin_interface_permitted by done.
        by apply user_list_no_button.
      * by rewrite (show_admin_interface_refused _ _ st widgets _ db message).
    + intros Hgate Hvalid. rewrite show_admin_interface_permitted by done.
      destruct (user_list_idle update_user_role update_user_password
                  (users db) widgets db Hvalid) as (notices & Hrun & Hshown & Honly).
      exists notices. split; [exact Hrun |]. split; [by apply (Hshown u) | exact Honly].
  - intros (before & after & Hrows & Hbefore & Hrole & Hname) Hgate.
    rewrite show_admin_interface_permitted by done.
    pose proof (delete_user_removes db u Hnd Hu Hname) as Hdel.
    destruct (user_list_deletes update_user_role update_user_password
                before after u widgets db Hbefore Hrole Hname)
      as (notices & Hrun & Honly).
    { intros v Hv. apply (ids_before_differ before after). by rewrite <- Hrows. exact Hv. }
    { by rewrite Hdel. }
    exists notices. rewrite Hdel in Hrun. simpl in Hrun. rewrite Hrows at 1.
    split; [exact Hrun |]. split; [exact Honly |]. split.
    + intros Hin. apply list_elem_of_filter in Hin as [Hid _]. by apply Hid.
    + intros v Hv Hvu. apply list_elem_of_filter. split; [| exact Hv].
      intros Hid. apply Hvu. by apply (same_id_same_row User.id (users db)).
  - intros Hvalid Hname.
    apply list_elem_of_In, in_split in Hu as (before & after & Hrows).
    exists before, after. split; [exact Hrows |].
    split; [| split; [| exact Hname]].
    + intros v Hv. apply Hvalid. rewrite Hrows. apply elem_of_app. by left.
    + apply Hvalid. rewrite Hrows. apply elem_of_app. right.
      apply list_elem_of_here.
  - intros message. apply show_admin_interface_refused.
Qed.

Lemma sample_ids_distinct : NoDup (map User.id (users sample_db)).
Proof.
  apply (bool_decide_unpack _). vm_compute. exact I.
Defined.

Lemma sample_roles_listed (v : User.t) :
  v ∈ users sample_db -> User.role v ∈ role_options.
Proof.
  intros Hv. apply list_elem_of_In in Hv. simpl in Hv.
  destruct Hv as [<- | [<- | [<- | []]]]; apply (bool_decide_unpack _);
    vm_compute; exact I.
Defined.

Lemma bob_button_drawn : delete_button_drawn (users sample_db) user_bob.
Proof.
  exists [user_admin], [user_alice]. split; [reflexivity |].
  split; [| split; [| discriminate]].
  - intros v Hv. apply sample_roles_listed.
    apply elem_of_cons in Hv as [-> | Hv]; [apply list_elem_of_here |].
    by apply elem_of_nil in Hv.
  - apply sample_roles_listed, list_elem_of_further, list_elem_of_here.
Defined.

Lemma admin_user_protected_from_deletion_witness :
  user_admin
  ∈ users (store (run_page
                    (show_admin_interface (fun _ _ db => (true, db))
                       (fun _ _ db => (true, db)) biomedical_session
                       (fun _ => UserRow.mk "admin" "")
                       (Some (delete_user_pressed 1)) sample_db)))
  /\ (exists notices,
        show_admin_interface (fun _ _ db => (true, db)) (fun _ _ db => (true, db))
          admin_session (fun _ => UserRow.mk "admin" "") None sample_db
        = finished (mkpage notices sample_db)
        /\ Info "Admin protégé" ∈ notices
        /\ forall m, m ∈ notices -> m = Info "Admin protégé")
  /\ exists notices,
       show_admin_interface (fun _ _ db => (true, db)) (fun _ _ db => (true, db))
         admin_session (fun _ => UserRow.mk "admin" "")
         (Some (delete_user_pressed 2)) sample_db
       = finished
           (mkpage (notices ++ [Success "Utilisateur bob supprimé avec succès!"])%list
                   (mkdb [user_admin; user_alice] [scope_e1] [report_1])).
Proof.
  assert (Hadmin : user_admin ∈ users sample_db) by apply list_elem_of_here.
  assert (Hbob : user_bob ∈ users sample_db)
    by apply list_elem_of_further, list_elem_of_here.
  destruct (admin_user_protected_from_deletion
              (fun _ _ db => (true, db)) (fun _ _ db => (true, db))
              biomedical_session (fun _ => UserRow.mk "admin" "")
              (Some (delete_user_pressed 1)) sample_db
              user_admin sample_ids_distinct Hadmin) as [Hrefused _];
    [discriminate |].
  destruct (admin_user_protected_from_deletion
              (fun _ _ db => (true, db)) (fun _ _ db => (true, db))
              admin_session (fun _ => UserRow.mk "admin" "")
              None sample_db
              user_admin sample_ids_distinct Hadmin) as [Hprotected _];
    [discriminate |].
  destruct (admin_user_protected_from_deletion
              (fun _ _ db => (true, db)) (fun _ _ db => (true, db))
              admin_session (fun _ => UserRow.mk "admin" "")
              (Some (delete_user_pressed 2)) sample_db
              user_bob sample_ids_distinct Hbob) as (_ & Hother & _ & _);
    [discriminate |].
  split; [by apply Hrefused |].
  split.
  - destruct (Hprotected eq_refl) as (_ & _ & _ & Hnotice).
    apply Hnotice; [reflexivity | exact sample_roles_listed].
  - destruct (Hother bob_button_drawn eq_refl) as (notices & Hrun & _).
    exists notices. exact Hrun.
Defined.

Example admin_deletes_bob :
  show_admin_interface (fun _ _ db => (false, db)) (fun _ _ db => (false, db))
    admin_session (fun _ => UserRow.mk "admin" "")
    (Some (delete_user_pressed 2)) sample_db
  = finished
      (mkpage [Info "Admin protégé"; Success "Utilisateur bob supprimé avec succès!"]
              (mkdb [user_admin; user_alice] [scope_e1] [report_1])).
Proof. reflexivity. Qed.

Example admin_row_has_no_button :
  show_admin_interface (fun _ _ db => (false, db)) (fun _ _ db => (false, db))
    admin_session (fun _ => UserRow.mk "admin" "")
    (Some (delete_user_pressed 1)) sample_db
  = finished (mkpage [Info "Admin protégé"] sample_db).
Proof. reflexivity. Qed.

Example refused_caller_sees_no_list :
  show_admin_interface (fun _ _ db => (false, db)) (fun _ _ db => (false, db))
    biomedical_session (fun _ => UserRow.mk "admin" "") None sample_db
  = finished (mkpage [Error (forbidden_message ["admin"])] sample_db).
Proof. reflexivity. Qed.

(** ** The inventory page and its edit flags *)

Lemma edit_mode_key_not_identity (endoscope_id : Z) :
  edit_mode_key endoscope_id ∉ identity_keys.
Proof.
  intros Hk. apply list_elem_of_In in Hk. simpl in Hk.
  destruct Hk as [Hk | [Hk | [Hk | []]]]; discriminate.
Qed.

Lemma edit_mode_key_inj (a b : Z) : edit_mode_key a = edit_mode_key b -> a = b.
Proof.
  unfold edit_mode_key. intros Heq.
  apply (inj (String.append "edit_mode_")) in Heq.
  by apply (inj pretty) in Heq.
Qed.

Lemma require_role_ext (allowed_roles : list string) (st1 st2 : session_state) :
  st1 !! "authenticated" = st2 !! "authenticated" ->
  st1 !! "user_role" = st2 !! "user_role" ->
  require_role allowed_roles st1 = require_role allowed_roles st2.
Proof.
  intros Ha Hr. unfold require_role, check_authentication, get_user_role.
  by rewrite Ha, Hr.
Qed.

Lemma with_messages_session (messages : list ui) (r : session_state * page) :
  (with_messages messages r).1 = r.1.
Proof. reflexivity. Qed.

Lemma with_messages_store (messages : list ui) (r : session_state * page) :
  store (with_messages messages r).2 = store r.2.
Proof. reflexivity. Qed.

Lemma flag_step_lookup (st st' : session_state) (k : string) :
  flag_step st st' -> k ∈ identity_keys -> st' !! k = st !! k.
Proof.
  intros Hstep Hk.
  assert (Hne : forall i, edit_mode_key i <> k).
  { intros i <-. by apply (edit_mode_key_not_identity i). }
  destruct Hstep as [| i | i]; [reflexivity | |].
  - by apply lookup_insert_ne.
  - by apply lookup_delete_ne.
Qed.

Lemma flag_step_reachable (st st' : session_state) :
  flag_step st st' -> reachable st -> reachable st'.
Proof.
  intros [| i | i] Hreach; [exact Hreach | |].
  - apply reach_flag_set; [exact Hreach | apply edit_mode_key_not_identity].
  - apply reach_flag_pop; [exact Hreach | apply edit_mode_key_not_identity].
Qed.

Section InventoryPage.
Context (delete_endoscope : Z -> database -> bool * database)
        (update_endoscope : Z -> EndoscopeForm.t -> database -> bool * database)
        (add_endoscope : EndoscopeForm.t -> pyval -> database -> bool * database).

Abbreviation inventory_rows' := (inventory_rows delete_endoscope update_endoscope).
Abbreviation show_biomedical_interface' :=
  (show_biomedical_interface delete_endoscope update_endoscope add_endoscope).

Lemma inventory_rows_flag_step (rows : list Endoscope.t)
    (pressed : option inventory_button) (st : session_state) (db : database) :
  flag_step st (inventory_rows' rows pressed st db).1.
Proof.
  revert db. induction rows as [| e rest IH]; intros db; [constructor |].
  cbn [inventory_rows].
  destruct (is_edit_btn pressed (Endoscope.id e)); [constructor |].
  destruct (if is_delete_btn pressed (Endoscope.id e) then _ else _)
    as [[shown_delete db1] rerun_delete].
  destruct rerun_delete; [constructor |].
  destruct (truthy _); [| apply IH].
  destruct pressed as [[i | i | i f | i | f] |]; try apply IH.
  - destruct (i =? Endoscope.id e); [| apply IH].
    destruct (update_endoscope _ _ _) as [[|] db']; [constructor | apply IH].
  - destruct (i =? Endoscope.id e); [constructor | apply IH].
Qed.

Lemma show_biomedical_interface_flag_step (st : session_state)
    (pressed : option inventory_button) (db : database) :
  flag_step st (show_biomedical_interface' st pressed db).1.
Proof.
  unfold show_biomedical_interface.
  destruct (require_role ["biomedical"] st); [| constructor].
  assert (Hlisted : flag_step st
            (match endoscopes db with
             | [] => (st, mkpage [Info "Aucun endoscope dans l'inventaire."] db)
             | _ :: _ => inventory_rows' (endoscopes db) pressed st db
             end).1).
  { destruct (endoscopes db) eqn:Hrows; [constructor |].
    rewrite <- Hrows. apply inventory_rows_flag_step. }
  destruct (endoscopes db) as [| e rest] eqn:Hrows;
    destruct pressed as [[i | i | i f | i | f] |]; exact Hlisted.
Qed.
End InventoryPage.

(** A run of the inventory page, whatever is pressed and whatever the
    store operations do, leaves the three identity entries of the session
    as they were: every decorator decides afterwards as it did before,
    and the session stays among those the program can be in. *)
Theorem inventory_page_keeps_identity
    (delete_endoscope : Z -> database -> bool * database)
    (update_endoscope : Z -> EndoscopeForm.t -> database -> bool * database)
    (add_endoscope : EndoscopeForm.t -> pyval -> database -> bool * database)
    (st : session_state) (pressed : option inventory_button) (db : database) :
  let st' := (show_biomedical_interface delete_endoscope update_endoscope
                add_endoscope st pressed db).1 in
  (forall k, k ∈ identity_keys -> st' !! k = st !! k)
  /\ (forall allowed_roles,
        require_role allowed_roles st' = require_role allowed_roles st)
  /\ (reachable st -> reachable st').
Proof.
  intros st'.
  pose proof (show_biomedical_interface_flag_step delete_endoscope
                update_endoscope add_endoscope st pressed db) as Hstep.
  fold st' in Hstep.
  assert (Hkeys : forall k, k ∈ identity_keys -> st' !! k = st !! k)
    by (intros k; by apply flag_step_lookup).
  split; [exact Hkeys |]. split.
  - intros allowed_roles. apply require_role_ext; apply Hkeys;
      unfold identity_keys; repeat constructor.
  - by apply flag_step_reachable.
Qed.

Lemma inventory_page_keeps_identity_witness :
  reachable (show_biomedical_interface
               (fun _ db => (true, db)) (fun _ _ db => (true, db))
               (fun _ _ db => (true, db))
               biomedical_session (Some (edit_btn 1)) sample_db).1.
Proof.
  apply (inventory_page_keeps_identity
           (fun _ db => (true, db)) (fun _ _ db => (true, db))
           (fun _ _ db => (true, db))
           biomedical_session (Some (edit_btn 1)) sample_db).
  apply reachable_session_of. discriminate.
Defined.

Section InventoryEdits.
Context (delete_endoscope : Z -> database -> bool * database)
        (update_endoscope : Z -> EndoscopeForm.t -> database -> bool * database)
        (add_endoscope : EndoscopeForm.t -> pyval -> database -> bool * database).

Abbreviation inventory_rows'' := (inventory_rows delete_endoscope update_endoscope).

Lemma inventory_rows_edit (rows : list Endoscope.t) (a : Z)
    (st : session_state) (db : database) :
  a ∈ map Endoscope.id rows ->
  (inventory_rows'' rows (Some (edit_btn a)) st db).1
  = <[edit_mode_key a := VBool true]> st
  /\ store (inventory_rows'' rows (Some (edit_btn a)) st db).2 = db.
Proof.
  induction rows as [| e rest IH]; intros Ha; [by apply elem_of_nil in Ha |].
  cbn [inventory_rows is_edit_btn is_delete_btn].
  destruct (a =? Endoscope.id e) eqn:Hid.
  - apply Z.eqb_eq in Hid. subst a. by split.
  - apply Z.eqb_neq in Hid. simpl in Ha.
    apply elem_of_cons in Ha as [-> | Ha]; [done |].
    destruct (IH Ha) as [Hst Hdb].
    destruct (truthy _); (split; [exact Hst | exact Hdb]).
Qed.

Lemma inventory_rows_cancel (rows : list Endoscope.t) (a : Z)
    (st : session_state) (db : database) :
  a ∈ map Endoscope.id rows -> flag_open st a = true ->
  (inventory_rows'' rows (Some (cancel_form a)) st db).1
  = delete (edit_mode_key a) st
  /\ store (inventory_rows'' rows (Some (cancel_form a)) st db).2 = db.
Proof.
  unfold flag_open.
  induction rows as [| e rest IH]; intros Ha Hopen; [by apply elem_of_nil in Ha |].
  cbn [inventory_rows is_edit_btn is_delete_btn].
  destruct (a =? Endoscope.id e) eqn:Hid.
  - apply Z.eqb_eq in Hid. subst a. by rewrite Hopen.
  - apply Z.eqb_neq in Hid. simpl in Ha.
    apply elem_of_cons in Ha as [-> | Ha]; [done |].
    destruct (IH Ha Hopen) as [Hst Hdb].
    destruct (truthy (default (VBool false) (st !! edit_mode_key (Endoscope.id e))));
      (split; [exact Hst | exact Hdb]).
Qed.

Lemma inventory_rows_other_update (rows : list Endoscope.t) (a : Z)
    (f : EndoscopeForm.t) (st : session_state) (db : database) :
  a ∉ map Endoscope.id rows ->
  (inventory_rows'' rows (Some (update_form a f)) st db).1 = st
  /\ store (inventory_rows'' rows (Some (update_form a f)) st db).2 = db
  /\ forall text,
       (Success text
        ∉ shown (inventory_rows'' rows (Some (update_form a f)) st db).2).
Proof.
  induction rows as [| e rest IH]; intros Ha.
  - repeat split. intros text Hin. by apply elem_of_nil in Hin.
  - simpl in Ha. apply not_elem_of_cons in Ha as [Hne Ha].
    destruct (IH Ha) as (Hst & Hdb & Hshown).
    cbn [inventory_rows is_edit_btn is_delete_btn].
    assert (Hid : (a =? Endoscope.id e) = false) by by apply Z.eqb_neq.
    rewrite Hid.
    destruct (truthy _); simpl; (split; [exact Hst |]); (split; [exact Hdb |]);
      intros text Hin; [apply elem_of_cons in Hin as [Hin | Hin]; [discriminate |] |];
      by apply (Hshown text).
Qed.

Lemma inventory_rows_update (rows : list Endoscope.t) (a : Z)
    (f : EndoscopeForm.t) (st : session_state) (db : database) :
  NoDup (map Endoscope.id rows) -> a ∈ map Endoscope.id rows ->
  flag_open st a = true ->
  let r := inventory_rows'' rows (Some (update_form a f)) st db in
  store r.2 = (update_endoscope a f db).2
  /\ ((update_endoscope a f db).1 = true ->
      r.1 = delete (edit_mode_key a) st
      /\ Success "✅ Endoscope mis à jour!" ∈ shown r.2)
  /\ ((update_endoscope a f db).1 = false ->
      r.1 = st
      /\ Error "❌ Erreur lors de la mise à jour." ∈ shown r.2
      /\ forall text, Success text ∉ shown r.2).
Proof.
  unfold flag_open.
  induction rows as [| e rest IH]; intros Hnd Ha Hopen;
    [by apply elem_of_nil in Ha |].
  simpl in Hnd. apply NoDup_cons in Hnd as [Hfresh Hnd].
  cbn [inventory_rows is_edit_btn is_delete_btn].
  destruct (a =? Endoscope.id e) eqn:Hid.
  - apply Z.eqb_eq in Hid. subst a. rewrite Hopen.
    clear IH.
    destruct (update_endoscope (Endoscope.id e) f db) as [[|] db'] eqn:Hupdate;
      simpl.
    + split; [reflexivity |]. split; [| discriminate].
      intros _. split; [reflexivity |]. apply list_elem_of_further, list_elem_of_here.
    + destruct (inventory_rows_other_update rest (Endoscope.id e) f st db' Hfresh)
        as (Hst & Hdb & Hshown).
      split; [exact Hdb |]. split; [discriminate |].
      intros _. split; [exact Hst |].
      split; [apply list_elem_of_further, list_elem_of_here |].
      intros text Hin.
      repeat (apply elem_of_cons in Hin as [Hin | Hin]; [discriminate |]).
      by apply (Hshown text).
  - apply Z.eqb_neq in Hid. simpl in Ha.
    apply elem_of_cons in Ha as [-> | Ha]; [done |].
    destruct (IH Hnd Ha Hopen) as (Hdb & Hok & Hfail).
    destruct (truthy (default (VBool false) (st !! edit_mode_key (Endoscope.id e)))); simpl; (split; [exact Hdb |]); split.
    + intros Htrue. destruct (Hok Htrue) as [Hst Hshown].
      split; [exact Hst | by apply list_elem_of_further].
    + intros Hfalse. destruct (Hfail Hfalse) as (Hst & Hshown & Hnone).
      split; [exact Hst |]. split; [by apply list_elem_of_further |].
      intros text Hin. apply elem_of_cons in Hin as [Hin | Hin]; [discriminate |].
      by apply (Hnone text).
    + intros Htrue. by apply Hok.
    + intros Hfalse. by apply Hfail.
Qed.

Lemma show_biomedical_interface_rows (st : session_state)
    (pressed : option inventory_button) (db : database) :
  require_role ["biomedical"] st = Permit -> endoscopes db <> [] ->
  (forall f, pressed <> Some (add_form f)) ->
  show_biomedical_interface delete_endoscope update_endoscope add_endoscope
    st pressed db
  = inventory_rows'' (endoscopes db) pressed st db.
Proof.
  intros Hgate Hrows Hpressed. unfold show_biomedical_interface. rewrite Hgate.
  destruct (endoscopes db) as [| e rest] eqn:Hdb; [done |].
  destruct pressed as [[i | i | i f | i | f] |]; try reflexivity.
  by destruct (Hpressed f).
Qed.
End InventoryEdits.

(** Opening and closing the update form of a listed endoscope: for a
    session the inventory page admits, pressing [Modifier] raises the
    edit flag of that endoscope and of no other and leaves the store
    alone; pressing [Annuler] afterwards gives back the session as it
    was, again with the store untouched, whatever the store operations
    are. *)
Theorem edit_form_opens_and_closes
    (delete_endoscope : Z -> database -> bool * database)
    (update_endoscope : Z -> EndoscopeForm.t -> database -> bool * database)
    (add_endoscope : EndoscopeForm.t -> pyval -> database -> bool * database)
    (st : session_state) (db : database) (a : Z) :
  require_role ["biomedical"] st = Permit ->
  a ∈ map Endoscope.id (endoscopes db) ->
  st !! edit_mode_key a = None ->
  let opened :=
    show_biomedical_interface delete_endoscope update_endoscope add_endoscope
      st (Some (edit_btn a)) db in
  let closed :=
    show_biomedical_interface delete_endoscope update_endoscope add_endoscope
      opened.1 (Some (cancel_form a)) db in
  opened.1 = <[edit_mode_key a := VBool true]> st
  /\ store opened.2 = db
  /\ (forall b, b <> a -> flag_open opened.1 b = flag_open st b)
  /\ closed.1 = st
  /\ store closed.2 = db.
Proof.
  intros Hgate Ha Hflag opened closed.
  assert (Hrows : endoscopes db <> []).
  { intros Hnil. rewrite Hnil in Ha. by apply elem_of_nil in Ha. }
  assert (Hopened : opened.1 = <[edit_mode_key a := VBool true]> st
                    /\ store opened.2 = db).
  { subst opened. rewrite show_biomedical_interface_rows by done.
    by apply inventory_rows_edit. }
  destruct Hopened as [Hst Hdb].
  assert (Hgate' : require_role ["biomedical"] opened.1 = Permit).
  { rewrite <- Hgate. rewrite Hst. apply require_role_ext;
      apply lookup_insert_ne; intros Hk;
      apply (edit_mode_key_not_identity a); rewrite Hk;
      unfold identity_keys; repeat constructor. }
  assert (Hclosed : closed.1 = delete (edit_mode_key a) opened.1
                    /\ store closed.2 = db).
  { subst closed. rewrite show_biomedical_interface_rows by done.
    apply inventory_rows_cancel; [exact Ha |].
    unfold flag_open. rewrite Hst. by rewrite lookup_insert_eq. }
  destruct Hclosed as [Hst' Hdb'].
  split; [exact Hst |]. split; [exact Hdb |]. split; [| split; [| exact Hdb']].
  - intros b Hb. unfold flag_open. rewrite Hst.
    rewrite lookup_insert_ne; [reflexivity |].
    intros Heq. apply Hb. symmetry. by apply edit_mode_key_inj.
  - rewrite Hst', Hst. by apply delete_insert_id.
Qed.

Lemma edit_form_opens_and_closes_witness :
  (show_biomedical_interface
     (fun _ db => (true, db)) (fun _ _ db => (true, db)) (fun _ _ db => (true, db))
     (show_biomedical_interface
        (fun _ db => (true, db)) (fun _ _ db => (true, db))
        (fun _ _ db => (true, db))
        biomedical_session (Some (edit_btn 1)) sample_db).1
     (Some (cancel_form 1)) sample_db).1
  = biomedical_session.
Proof.
  apply (edit_form_opens_and_closes
           (fun _ db => (true, db)) (fun _ _ db => (true, db))
           (fun _ _ db => (true, db)) biomedical_session sample_db 1).
  - reflexivity.
  - apply list_elem_of_here.
  - unfold biomedical_session, session_of, login_success.
    rewrite !lookup_insert_ne by (by apply not_eq_sym, not_identity_key,
                                     edit_mode_key_not_identity).
    apply lookup_empty.
Defined.

(** Submitting the update form of a listed endoscope, in a store whose
    ids identify the rows: the store is what the update operation
    returns; when it succeeds the form is closed (the edit flag is
    dropped) and the success is shown; when it fails the form stays open
    (the session is unchanged), the error is shown and no success is
    reported. *)
Theorem update_closes_form_on_success_only
    (delete_endoscope : Z -> database -> bool * database)
    (update_endoscope : Z -> EndoscopeForm.t -> database -> bool * database)
    (add_endoscope : EndoscopeForm.t -> pyval -> database -> bool * database)
    (st : session_state) (db : database) (a : Z) (f : EndoscopeForm.t) :
  require_role ["biomedical"] st = Permit ->
  NoDup (map Endoscope.id (endoscopes db)) ->
  a ∈ map Endoscope.id (endoscopes db) ->
  flag_open st a = true ->
  let r :=
    show_biomedical_interface delete_endoscope update_endoscope add_endoscope
      st (Some (update_form a f)) db in
  store r.2 = (update_endoscope a f db).2
  /\ ((update_endoscope a f db).1 = true ->
      r.1 = delete (edit_mode_key a) st
      /\ Success "✅ Endoscope mis à jour!" ∈ shown r.2)
  /\ ((update_endoscope a f db).1 = false ->
      r.1 = st
      /\ Error "❌ Erreur lors de la mise à jour." ∈ shown r.2
      /\ forall text, Success text ∉ shown r.2).
Proof.
  intros Hgate Hnd Ha Hopen r.
  assert (Hrows : endoscopes db <> []).
  { intros Hnil. rewrite Hnil in Ha. by apply elem_of_nil in Ha. }
  subst r. rewrite show_biomedical_interface_rows by done.
  by apply inventory_rows_update.
Qed.

Lemma update_closes_form_on_success_only_witness :
  (show_biomedical_interface
     (fun _ db => (true, db)) (fun _ _ db => (false, db)) (fun _ _ db => (true, db))
     (<[edit_mode_key 1 := VBool true]> biomedical_session)
     (Some (update_form 1 (EndoscopeForm.mk "" "" "" "" "" "" ""))) sample_db).1
  = <[edit_mode_key 1 := VBool true]> biomedical_session.
Proof.
  destruct (update_closes_form_on_success_only
              (fun _ db => (true, db)) (fun _ _ db => (false, db))
              (fun _ _ db => (true, db))
              (<[edit_mode_key 1 := VBool true]> biomedical_session)
              sample_db 1 (EndoscopeForm.mk "" "" "" "" "" "" ""))
    as (_ & _ & Hfail).
  - reflexivity.
  - apply (bool_decide_unpack _). vm_compute. exact I.
  - apply list_elem_of_here.
  - unfold flag_open. by rewrite lookup_insert_eq.
  - by apply Hfail.
Defined.

Section InventoryAdd.
Context (delete_endoscope : Z -> database -> bool * database)
        (update_endoscope : Z -> EndoscopeForm.t -> database -> bool * database)
        (add_endoscope : EndoscopeForm.t -> pyval -> database -> bool * database).

Lemma inventory_rows_add (rows : list Endoscope.t) (f : EndoscopeForm.t)
    (st : session_state) (db : database) :
  (inventory_rows delete_endoscope update_endoscope rows (Some (add_form f)) st db).1
  = st
  /\ store (inventory_rows delete_endoscope update_endoscope rows
              (Some (add_form f)) st db).2 = db.
Proof.
  induction rows as [| e rest IH]; [by split |].
  destruct IH as [Hst Hdb].
  cbn [inventory_rows is_edit_btn is_delete_btn].
  destruct (truthy _); (split; [exact Hst | exact Hdb]).
Qed.

Lemma show_biomedical_interface_add (st : session_state) (f : EndoscopeForm.t)
    (db : database) :
  require_role ["biomedical"] st = Permit ->
  exists listed,
    show_biomedical_interface delete_endoscope update_endoscope add_endoscope
      st (Some (add_form f)) db
    = (st, mkpage (listed ++ shown (add_endoscope_submit add_endoscope st f db))
                  (store (add_endoscope_submit add_endoscope st f db))).
Proof.
  intros Hgate. unfold show_biomedical_interface. rewrite Hgate.
  destruct (endoscopes db) as [| e rest] eqn:Hrows; [by eexists |].
  rewrite <- Hrows.
  destruct (inventory_rows_add (endoscopes db) f st db) as [Hst Hdb].
  destruct (inventory_rows _ _ _ _ _ _) as [st1 [listed db1]].
  simpl in *. subst. by eexists.
Qed.
End InventoryAdd.

(** The add form of the inventory page asks for a designation, a make, a
    model, a serial number and a location, and for nothing else: with one
    of them empty the store is not touched and the missing-fields error
    is shown; with all five filled the store operation is applied to the
    form and the session's username, whatever the state and the
    observation hold, and its answer decides between the success and the
    duplicate-serial error.  The session is left as it was. *)
Theorem add_endoscope_needs_five_fields
    (delete_endoscope : Z -> database -> bool * database)
    (update_endoscope : Z -> EndoscopeForm.t -> database -> bool * database)
    (add_endoscope : EndoscopeForm.t -> pyval -> database -> bool * database)
    (st : session_state) (f : EndoscopeForm.t) (db : database) :
  require_role ["biomedical"] st = Permit ->
  let r :=
    show_biomedical_interface delete_endoscope update_endoscope add_endoscope
      st (Some (add_form f)) db in
  r.1 = st
  /\ (EndoscopeForm.designation f = "" \/ EndoscopeForm.marque f = ""
      \/ EndoscopeForm.modele f = "" \/ EndoscopeForm.numero_serie f = ""
      \/ EndoscopeForm.localisation f = "" ->
      store r.2 = db
      /\ Error "❌ Veuillez remplir tous les champs obligatoires (*)" ∈ shown r.2)
  /\ (EndoscopeForm.designation f <> "" -> EndoscopeForm.marque f <> "" ->
      EndoscopeForm.modele f <> "" -> EndoscopeForm.numero_serie f <> "" ->
      EndoscopeForm.localisation f <> "" ->
      store r.2 = (add_endoscope f (get_username st) db).2
      /\ ((add_endoscope f (get_username st) db).1 = true ->
          Success "✅ Endoscope ajouté avec succès!" ∈ shown r.2)
      /\ ((add_endoscope f (get_username st) db).1 = false ->
          Error "❌ Erreur: Numéro de série déjà existant." ∈ shown r.2)).
Proof.
  intros Hgate r.
  destruct (show_biomedical_interface_add delete_endoscope update_endoscope
              add_endoscope st f db Hgate) as [listed Hr].
  subst r. rewrite Hr. simpl. clear Hr.
  split; [reflexivity |]. unfold add_endoscope_submit. split.
  - intros Hblank.
    assert (Hcheck : forallb (fun s => negb (blank s))
                       [EndoscopeForm.designation f; EndoscopeForm.marque f;
                        EndoscopeForm.modele f; EndoscopeForm.numero_serie f;
                        EndoscopeForm.localisation f] = false).
    { cbn [forallb].
      destruct Hblank as [-> | [-> | [-> | [-> | ->]]]]; simpl;
        rewrite ?andb_false_r; reflexivity. }
    rewrite Hcheck. simpl. split; [reflexivity |].
    apply elem_of_app. right. apply list_elem_of_here.
  - intros H1 H2 H3 H4 H5.
    assert (Hcheck : forallb (fun s => negb (blank s))
                       [EndoscopeForm.designation f; EndoscopeForm.marque f;
                        EndoscopeForm.modele f; EndoscopeForm.numero_serie f;
                        EndoscopeForm.localisation f] = true).
    { cbn [forallb]. unfold blank.
      apply String.eqb_neq in H1, H2, H3, H4, H5.
      by rewrite H1, H2, H3, H4, H5. }
    rewrite Hcheck.
    destruct (add_endoscope f (get_username st) db) as [[|] db']; simpl;
      (split; [reflexivity |]); split; intros Hok; try discriminate;
      apply elem_of_app; right; apply list_elem_of_here.
Qed.

Lemma add_endoscope_needs_five_fields_witness :
  store (show_biomedical_interface
           (fun _ db => (true, db)) (fun _ _ db => (true, db))
           (fun _ _ _ => (true, mkdb [] [] []))
           biomedical_session
           (Some (add_form (EndoscopeForm.mk "Gastroscope" "Olympus" "" "S300"
                              "fonctionnel" "" "stock")))
           sample_db).2
  = sample_db.
Proof.
  destruct (add_endoscope_needs_five_fields
              (fun _ db => (true, db)) (fun _ _ db => (true, db))
              (fun _ _ _ => (true, mkdb [] [] []))
              biomedical_session
              (EndoscopeForm.mk "Gastroscope" "Olympus" "" "S300"
                 "fonctionnel" "" "stock")
              sample_db) as (_ & Hblank & _); [reflexivity |].
  apply Hblank. right. right. by left.
Defined.

(** ** The filters of the report listing *)

(** The listing of [Gérer Rapports] keeps a report of the query's answer
    exactly when its date is the chosen date, if one is chosen, and its
    state is the chosen state, unless the choice is [Tous]; the reports
    kept stay in the order of the answer.  The notice for an empty store
    is shown exactly when the answer is empty, and no notice is shown
    exactly when some report is kept. *)
Theorem listing_filters_keep_matching_reports
    (filter_date : option date) (filter_etat : string)
    (steril_reports : list Report.t) (r : Report.t) :
  (r ∈ manage_reports_rows filter_date filter_etat steril_reports
   <-> r ∈ steril_reports
       /\ (forall d, filter_date = Some d -> Report.date_desinfection r = d)
       /\ (filter_etat <> "Tous" -> Report.etat_endoscope r = filter_etat))
  /\ sublist (manage_reports_rows filter_date filter_etat steril_reports)
       steril_reports
  /\ (manage_reports_notice filter_date filter_etat steril_reports
      = Some (Info "Aucun rapport de stérilisation disponible")
      <-> steril_reports = [])
  /\ (manage_reports_notice filter_date filter_etat steril_reports = None
      <-> manage_reports_rows filter_date filter_etat steril_reports <> []).
Proof.
  split; [| split; [| split]].
  - unfold manage_reports_rows.
    destruct (String.eqb filter_etat "Tous") eqn:Hetat; simpl.
    + apply String.eqb_eq in Hetat.
      destruct filter_date as [d |]; rewrite ?list_elem_of_filter.
      * split; [intros [Hd Hr] | intros (Hr & Hd & _)].
        -- split; [exact Hr |]. split; [by intros d' [= <-] | done].
        -- split; [by apply Hd | exact Hr].
      * split; [intros Hr | by intros [? _]].
        split; [exact Hr |]. split; [discriminate | done].
    + apply String.eqb_neq in Hetat.
      destruct filter_date as [d |]; rewrite ?list_elem_of_filter.
      * split; [intros (He & Hd & Hr) | intros (Hr & Hd & He)].
        -- split; [exact Hr |]. split; [by intros d' [= <-] | done].
        -- split; [by apply He |]. split; [by apply Hd | exact Hr].
      * split; [intros [He Hr] | intros (Hr & _ & He)].
        -- split; [exact Hr |]. split; [discriminate | done].
        -- split; [by apply He | exact Hr].
  - unfold manage_reports_rows.
    assert (Hdate : sublist
              (match filter_date with
               | Some d => filter (fun r => Report.date_desinfection r = d)
                                  steril_reports
               | None => steril_reports
               end) steril_reports).
    { destruct filter_date; [apply sublist_filter | reflexivity]. }
    destruct (negb (String.eqb filter_etat "Tous")); [| exact Hdate].
    etrans; [apply sublist_filter | exact Hdate].
  - unfold manage_reports_notice.
    destruct steril_reports as [| r0 rest]; [done |].
    split; [| discriminate].
    destruct (manage_reports_rows _ _ _); discriminate.
  - unfold manage_reports_notice.
    destruct steril_reports as [| r0 rest].
    + split; [discriminate |]. intros Hne. destruct Hne.
      unfold manage_reports_rows.
      by destruct filter_date, (negb (String.eqb filter_etat "Tous")).
    + destruct (manage_reports_rows _ _ _); split; try done.
Qed.

(** ** Which refusal a form shows *)

(** The create form shows the error of the first test that fails, in the
    order required fields, nature of the breakdown, time format: the
    missing-fields error exactly when a required field is empty; the
    nature error exactly when none is empty and the breakdown has no
    nature; the time error exactly when the first two tests pass and a
    time has no colon. *)
Theorem create_form_shows_first_failure
    (add_sterilisation_report : ReportArgs.t -> database -> bool * database)
    (st : session_state) (f : NewReport.form) (db : database) :
  let unspecified :=
    panne_unspecified (NewReport.etat_endoscope f)
      (nature_panne_of (NewReport.etat_endoscope f) (NewReport.nature_panne_area f)) in
  let malformed :=
    time_malformed (NewReport.heure_debut f) (NewReport.heure_fin f) in
  (new_report_submit add_sterilisation_report st f db
   = Some (mkpage [Error "Veuillez remplir tous les champs obligatoires (*)"] db)
   <-> required_missing f = true)
  /\ (new_report_submit add_sterilisation_report st f db
      = Some (mkpage [Error "Veuillez spécifier la nature de la panne"] db)
      <-> required_missing f = false /\ unspecified = true)
  /\ (new_report_submit add_sterilisation_report st f db
      = Some (mkpage [Error "Format d'heure invalide. Utilisez HH:MM (ex: 14:30)"] db)
      <-> required_missing f = false /\ unspecified = false /\ malformed = true).
Proof.
  intros unspecified malformed. unfold new_report_submit.
  fold unspecified malformed.
  destruct (required_missing f), unspecified, malformed;
    try (repeat split; intros; try discriminate;
         repeat match goal with H : _ /\ _ |- _ => destruct H end;
         try discriminate; reflexivity).
  all: destruct (endoscope_by_id _ _); unfold created_page;
    try destruct (add_sterilisation_report _ _) as [[|] db'];
    repeat split; intros; try discriminate;
    repeat match goal with H : _ /\ _ |- _ => destruct H end;
    discriminate.
Qed.

(** ** Edge cases of the archive and of the report page *)

Lemma filtered_steril_fixed (f : ReportArchive.filters) (rows : list Report.t) :
  (forall r, r ∈ rows -> report_matches f r) -> filtered_steril f rows = rows.
Proof.
  intros Hall.
  assert (Hfilter : forall (P : Report.t -> Prop) `{!forall r, Decision (P r)}
                           (l : list Report.t),
             (forall r, r ∈ l -> P r) -> filter P l = l).
  { intros P HP l Hl. induction l as [| x l IH]; [reflexivity |].
    rewrite filter_cons, decide_True by apply Hl, list_elem_of_here.
    f_equal. apply IH. intros r Hr. by apply Hl, list_elem_of_further. }
  assert (Hisin : forall {B : Type} `{EqDecision B} (cell : Report.t -> B)
                         (selection : list B),
             (forall r, r ∈ rows -> selected selection (cell r)) ->
             isin_filter cell selection rows = rows).
  { intros B HB cell selection Hsel. unfold isin_filter.
    destruct selection as [| v rest]; [reflexivity |].
    apply Hfilter. intros r Hr. destruct (Hsel r Hr); [discriminate | done]. }
  unfold filtered_steril.
  rewrite !Hisin; try (intros r Hr; apply (Hall r Hr)).
  assert (Hfrom : from_date_filter Report.date_desinfection
                    (ReportArchive.start_date f) rows = rows).
  { unfold from_date_filter.
    destruct (ReportArchive.start_date f) as [s |] eqn:Hs; [| reflexivity].
    apply Hfilter. intros r Hr. destruct (Hall r Hr) as (_ & _ & _ & Hfrom & _).
    by apply Hfrom. }
  rewrite Hfrom. unfold to_date_filter.
  destruct (ReportArchive.end_date f) as [e |] eqn:He; [| reflexivity].
  apply Hfilter. intros r Hr. destruct (Hall r Hr) as (_ & _ & _ & _ & Hto).
  by apply Hto.
Qed.

(** With nothing selected and no date set the report archive displays
    every report of the table, whatever the sort column and order; and
    filtering a frame that is already filtered by the same widgets
    changes nothing. *)
Theorem archive_without_selection_shows_all
    (f : ReportArchive.filters) (steril_reports out : list Report.t) :
  (ReportArchive.operators f = [] -> ReportArchive.medecins f = [] ->
   ReportArchive.states f = [] -> ReportArchive.start_date f = None ->
   ReportArchive.end_date f = None ->
   filtered_steril f steril_reports = steril_reports
   /\ (archive_reports f steril_reports out -> Permutation steril_reports out))
  /\ filtered_steril f (filtered_steril f steril_reports)
     = filtered_steril f steril_reports.
Proof.
  split.
  - intros Hop Hmed Hstates Hstart Hend.
    assert (Hall : filtered_steril f steril_reports = steril_reports).
    { apply filtered_steril_fixed. intros r _.
      unfold report_matches, selected, within_dates.
      rewrite Hop, Hmed, Hstates, Hstart, Hend.
      repeat split; auto; discriminate. }
    split; [exact Hall |].
    unfold archive_reports. rewrite Hall. by intros [Hperm _].
  - apply filtered_steril_fixed. intros r Hr.
    by apply filtered_steril_spec in Hr as [_ Hr].
Qed.

Lemma archive_without_selection_shows_all_witness :
  filtered_steril default_filters [report_1; report_2] = [report_1; report_2].
Proof.
  by apply (archive_without_selection_shows_all default_filters
              [report_1; report_2] [report_1; report_2]).
Defined.

(** With no endoscope in the inventory the report page stops at its
    warning: the new-report tab shows the warning and stores nothing,
    whatever is submitted, and the listing of the existing reports is not
    drawn for any session, so no query for reports is sent. *)
Theorem empty_inventory_hides_reports
    (add_sterilisation_report : ReportArgs.t -> database -> bool * database)
    (st : session_state) (f : NewReport.form) (submitted filter_by_user : bool)
    (db : database) :
  endoscopes db = [] ->
  (exists text, new_report_tab add_sterilisation_report st f submitted db = Some (mkpage [Warning text] db))
  /\ (forall q, show_sterilization_listing st filter_by_user db <> Queried q)
  /\ (require_role ["sterilisation"; "biomedical"] st = Permit ->
      show_sterilization_listing st filter_by_user db = NotRendered).
Proof.
  intros Hempty. unfold new_report_tab, show_sterilization_listing.
  rewrite Hempty. split; [eauto |]. split.
  - intros q. by destruct (require_role _ st).
  - by intros ->.
Qed.

Lemma empty_inventory_hides_reports_witness :
  show_sterilization_listing sterilisation_session true
    (mkdb [user_alice] [] [report_1])
  = NotRendered.
Proof.
  destruct (empty_inventory_hides_reports (fun _ db => (true, db))
              sterilisation_session panne_form true true
              (mkdb [user_alice] [] [report_1])) as (_ & _ & Hlisting);
    [reflexivity |].
  by apply Hlisting.
Defined.
